(** * paperless-annotations: annotation storage, note codec and link synchronisation

    A shallow embedding of [plannotations/annostorage.py],
    [plannotations/annotations.py], [plannotations/auto_linking.py] and the
    client [plannotations/paperless_api.py], with the properties the
    specification states about them.

    Python values are modelled as follows.
    - [str] is [string]; a character is a code point below 256.
    - [bytes] is [list byte].
    - [int] is [Z].
    - JSON-shaped values ([dict], [list], [str], [int], [bool], [None]) are
      the inductive [json]; a [dict] is an association list in insertion
      order.  Floating point numbers are left out.
    - A raised exception is the [Raise] branch of [result]. *)

From Stdlib Require Import ZArith List Bool Lia String Ascii DecimalString.
From Stdlib Require Import Strings.Byte.
From Stdlib Require DecimalFacts DecimalPos DecimalZ.
From Stdlib Require Import NArith Nnat.
Import ListNotations.
Local Open Scope string_scope.
Local Open Scope Z_scope.

(* ===================================================================== *)
(** * Python string primitives used by the sources *)
(* ===================================================================== *)

Module Py.

(** [len(s)] *)
Definition len (s : string) : Z := Z.of_nat (String.length s).

(** [s.startswith(p)] *)
Definition startswith (p s : string) : bool := String.prefix p s.

(** [s.find(sub)]: the lowest index at which [sub] occurs, [-1] if none. *)
Fixpoint find_from (sub s : string) (i : Z) : Z :=
  if startswith sub s then i
  else match s with
       | EmptyString => -1
       | String _ s' => find_from sub s' (i + 1)
       end.

Definition find (sub s : string) : Z := find_from sub s 0.

(** [sub in s] *)
Definition contains (sub s : string) : bool := negb (find sub s =? -1).

(** [s[a:b]] for indices that are not negative. *)
Definition slice (a b : Z) (s : string) : string :=
  String.substring (Z.to_nat a) (Z.to_nat (b - a)) s.

(** [c.isspace()] on code points below 256. *)
Definition isspace (c : ascii) : bool :=
  let n := nat_of_ascii c in
  ((9 <=? n) && (n <=? 13) || (28 <=? n) && (n <=? 32)
   || (n =? 133) || (n =? 160))%nat.

Fixpoint lstrip (s : string) : string :=
  match s with
  | EmptyString => EmptyString
  | String c s' => if isspace c then lstrip s' else s
  end.

Fixpoint rstrip (s : string) : string :=
  match s with
  | EmptyString => EmptyString
  | String c s' =>
      match rstrip s' with
      | EmptyString => if isspace c then EmptyString else String c EmptyString
      | r => String c r
      end
  end.

(** [s.strip()] *)
Definition strip (s : string) : string := rstrip (lstrip s).

(** Line boundaries of [str.splitlines] below 256, [\r\n] apart:
    [\n], [\v], [\f], [\x1c], [\x1d], [\x1e], [\x85]. *)
Definition islinebreak (c : ascii) : bool :=
  let n := nat_of_ascii c in
  ((10 <=? n) && (n <=? 12) || (28 <=? n) && (n <=? 30) || (n =? 133))%nat.

Definition is_cr (c : ascii) : bool := (nat_of_ascii c =? 13)%nat.
Definition is_lf (c : ascii) : bool := (nat_of_ascii c =? 10)%nat.

(** [cur] is the line read so far. *)
Fixpoint splitlines_from (cur : string) (s : string) : list string :=
  match s with
  | EmptyString =>
      match cur with EmptyString => [] | _ => [cur] end
  | String c s' =>
      if is_cr c then
        match s' with
        | String c2 s'' =>
            if is_lf c2 then cur :: splitlines_from EmptyString s''
            else cur :: splitlines_from EmptyString s'
        | EmptyString => cur :: splitlines_from EmptyString s'
        end
      else if islinebreak c then cur :: splitlines_from EmptyString s'
      else splitlines_from (cur ++ String c EmptyString) s'
  end.

(** [s.splitlines()] *)
Definition splitlines (s : string) : list string :=
  splitlines_from EmptyString s.

(** [sep.join(l)] *)
Definition join (sep : string) (l : list string) : string :=
  String.concat sep l.

(** [s.replace(old, new)] for a non-empty [old]: occurrences are replaced
    from the left and do not overlap; [skip] counts the characters of a
    matched occurrence still to drop. *)
Fixpoint replace_from (old new : string) (skip : nat) (s : string) : string :=
  match s with
  | EmptyString => EmptyString
  | String c s' =>
      match skip with
      | S k => replace_from old new k s'
      | O =>
          if startswith old s
          then new ++ replace_from old new (Nat.pred (String.length old)) s'
          else String c (replace_from old new O s')
      end
  end.

Definition replace (old new s : string) : string := replace_from old new O s.

(** [str(n)] for an integer. *)
Definition str_of_int (n : Z) : string :=
  DecimalString.NilZero.string_of_int (Z.to_int n).

End Py.

Definition NL : string := String (ascii_of_nat 10) EmptyString.


(* ===================================================================== *)
(** * Values, exceptions and results *)
(* ===================================================================== *)

(** What [json.loads] returns and [json.dumps] accepts. *)
#[warnings="-register-all"]
Inductive json : Type :=
| JNull
| JBool (b : bool)
| JInt (n : Z)
| JStr (s : string)
| JList (l : list json)
| JObj (d : list (string * json)).

(** A Python [dict] with string keys. *)
Definition dict : Type := list (string * json).

(** [d.get(k)] *)
Fixpoint dict_get (k : string) (d : dict) : option json :=
  match d with
  | [] => None
  | (k', v) :: d' => if String.eqb k k' then Some v else dict_get k d'
  end.

Definition keys (d : dict) : list string := map fst d.

Definition str_in (k : string) (l : list string) : bool :=
  existsb (String.eqb k) l.

(** Python [==] on JSON-shaped values: [True == 1], dictionaries compare
    without regard to order. *)
Fixpoint py_eq (a b : json) {struct a} : bool :=
  match a, b with
  | JNull, JNull => true
  | JBool x, JBool y => Bool.eqb x y
  | JBool x, JInt n => n =? (if x then 1 else 0)
  | JInt n, JBool x => n =? (if x then 1 else 0)
  | JInt n, JInt m => n =? m
  | JStr s, JStr t => String.eqb s t
  | JList l, JList m =>
      (fix go (l : list json) (m : list json) {struct l} : bool :=
         match l, m with
         | [], [] => true
         | x :: l', y :: m' => py_eq x y && go l' m'
         | _, _ => false
         end) l m
  | JObj d, JObj e =>
      (List.length d =? List.length e)%nat &&
      (fix all (d : dict) : bool :=
         match d with
         | [] => true
         | (k, v) :: d' =>
             (fix look (e : dict) : bool :=
                match e with
                | [] => false
                | (k', v') :: e' =>
                    if String.eqb k k' then py_eq v v' else look e'
                end) e && all d'
         end) d
  | _, _ => false
  end.

(** The exceptions the sources raise or let through.  [ValueError] carries
    the message the source builds; the exceptions of library calls are the
    library's to choose. *)
Inductive exn : Type :=
| ValueError (msg : string)
| IndexError
| TypeError
| AttributeError (name : string)
| ValidationError
| DoesNotExist
| MultipleObjectsReturned
| PaperlessAPIError
| LibraryError (what : string).

Inductive result (A : Type) : Type :=
| Ok (a : A)
| Raise (e : exn).
Arguments Ok {A} a.
Arguments Raise {A} e.

Definition rbind {A B : Type} (r : result A) (k : A -> result B) : result B :=
  match r with
  | Ok a => k a
  | Raise e => Raise e
  end.

Declare Scope result_scope.
Delimit Scope result_scope with res.
Notation "x <- r ;; k" := (rbind r (fun x => k))
  (at level 61, r at next level, right associativity) : result_scope.

(* ===================================================================== *)
(** * Annotation ([annostorage.py], class [Annotation]) *)
(* ===================================================================== *)

(** The declared fields, and [extra] for the fields [extra = "allow"]
    keeps. *)
Record Annotation : Type := mkAnnotation {
  created : string;
  author : string;
  type : Z;
  pageIndex : Z;
  db_id : option Z;
  contents : option string;
  extra : dict
}.

Definition FIELDS : list string :=
  ["created"; "author"; "type"; "pageIndex"; "db_id"; "contents"].

(** [annotation.db_id = v] *)
Definition set_db_id (v : option Z) (a : Annotation) : Annotation :=
  mkAnnotation (created a) (author a) (type a) (pageIndex a) v (contents a)
    (extra a).

(** [getattr(annotation, name, None)] for [name] outside the declared
    fields. *)
Definition getattr_extra (a : Annotation) (name : string) : option json :=
  dict_get name (extra a).

Definition json_of_opt_int (o : option Z) : json :=
  match o with Some n => JInt n | None => JNull end.

Definition json_of_opt_str (o : option string) : json :=
  match o with Some s => JStr s | None => JNull end.

(** [annotation.model_dump()]: declared fields in declaration order, then
    the extra fields. *)
Definition model_dump (a : Annotation) : dict :=
  ([ ("created", JStr (created a));
    ("author", JStr (author a));
    ("type", JInt (type a));
    ("pageIndex", JInt (pageIndex a));
    ("db_id", json_of_opt_int (db_id a));
    ("contents", json_of_opt_str (contents a)) ] ++ extra a)%list.

(** No key twice, at every level. *)
Fixpoint json_wf (v : json) : Prop :=
  match v with
  | JList l => (fix all (l : list json) : Prop :=
                  match l with [] => True | x :: l' => json_wf x /\ all l' end) l
  | JObj d => NoDup (map fst d) /\
              (fix all (d : dict) : Prop :=
                 match d with
                 | [] => True
                 | (_, x) :: d' => json_wf x /\ all d'
                 end) d
  | _ => True
  end.

(** An [Annotation] object as Python can hold it: the extra fields are a
    dictionary whose keys are not declared fields. *)
Definition valid_annotation (a : Annotation) : Prop :=
  json_wf (JObj (extra a)) /\
  forall k, In k (keys (extra a)) -> str_in k FIELDS = false.

(* ===================================================================== *)
(** * Library calls and settings *)
(* ===================================================================== *)

(** The context [_build_note_header] hands to the template. *)
Record NoteContext : Type := mkNoteContext {
  ctx_author : string;
  ctx_page : Z;
  ctx_page_index : Z;
  ctx_created : string;
  ctx_comment : string;
  ctx_text : option json;
  ctx_type : Z;
  ctx_annotation : Annotation
}.

(** The calls into [json], [gzip], [base64], [str]/[bytes], [datetime],
    pydantic and the Django template engine that the sources make.  They are
    not code of this repository: the embedding takes them as an interface. *)
Class PyLib : Type := {
  (** [json.dumps(obj)] *)
  json_dumps : json -> string;
  (** [json.dumps(obj, indent=2)] *)
  json_dumps_indent2 : json -> string;
  (** [json.loads(s)] *)
  json_loads : string -> result json;
  (** [gzip.compress(b)] and [gzip.decompress(b)] *)
  gzip_compress : list byte -> list byte;
  gzip_decompress : list byte -> result (list byte);
  (** [base64.b85encode(b)] and [base64.b85decode(b)] *)
  b85encode : list byte -> list byte;
  b85decode : list byte -> result (list byte);
  (** [s.encode()] and [b.decode()] *)
  str_encode : string -> result (list byte);
  bytes_decode : list byte -> result string;
  (** [datetime.fromisoformat(s).strftime("%Y.%m.%d %H:%M")]; [None] when
      [fromisoformat] raises [ValueError] *)
  isoformat_to_display : string -> option string;
  (** pydantic's validation of a field declared [int], resp. [str] *)
  validate_int : json -> option Z;
  validate_str : json -> option string;
  (** opening [note_annotation.template] and rendering it on a context *)
  render_note_template : NoteContext -> result string
}.

(** What the sources rely on from those libraries. *)
Class PyLibLaws (L : PyLib) : Prop := {
  json_loads_dumps :
    forall v, json_wf v -> json_loads (json_dumps v) = Ok v;
  json_loads_dumps_indent2 :
    forall v, json_wf v -> json_loads (json_dumps_indent2 v) = Ok v;
  gzip_decompress_compress :
    forall b, gzip_decompress (gzip_compress b) = Ok b;
  b85decode_encode :
    forall b, b85decode (b85encode b) = Ok b;
  bytes_decode_encode :
    forall s b, str_encode s = Ok b -> bytes_decode b = Ok s;
  str_encode_decode :
    forall b s, bytes_decode b = Ok s -> str_encode s = Ok b;
  (** [json.dumps] escapes to ASCII, which always encodes *)
  json_dumps_encodes :
    forall v, exists b, str_encode (json_dumps v) = Ok b;
  (** the base85 alphabet is ASCII, which always decodes *)
  b85encode_decodes :
    forall b, exists s, bytes_decode (b85encode b) = Ok s;
  validate_int_int : forall n, validate_int (JInt n) = Some n;
  validate_str_str : forall s, validate_str (JStr s) = Some s
}.

(** [core.settings] and the URL configuration. *)
Class Settings : Type := {
  ANNO_SERIALIZER : string;
  ANNO_STORAGE : string;
  BASE_URL : string;
  CUSTOM_FIELD_NAME : string
}.

(* ===================================================================== *)
(** * Serializer registry ([annostorage.py], class [AnnoSerializer]) *)
(* ===================================================================== *)

Record AnnoSerializer : Type := mkSerializer {
  NAME : string;
  serialize : json -> result string;
  deserialize : string -> result json
}.

Section Serializers.
Context {L : PyLib}.
Local Open Scope result_scope.

(** [base64.b85encode(gzip.compress(json.dumps(obj).encode())).decode()] *)
Definition Base85GzipJSONSerializer_serialize (obj : json) : result string :=
  b <- str_encode (json_dumps obj) ;;
  bytes_decode (b85encode (gzip_compress b)).

(** [json.loads(gzip.decompress(base64.b85decode(s.encode())).decode())] *)
Definition Base85GzipJSONSerializer_deserialize (s : string) : result json :=
  b <- str_encode s ;;
  z <- b85decode b ;;
  j <- gzip_decompress z ;;
  t <- bytes_decode j ;;
  json_loads t.

Definition Base85GzipJSONSerializer : AnnoSerializer :=
  mkSerializer "85gj"
    Base85GzipJSONSerializer_serialize
    Base85GzipJSONSerializer_deserialize.

(** [json.dumps(obj, indent=2)] and [json.loads(s)] *)
Definition JsonSerializer : AnnoSerializer :=
  mkSerializer "ji2"
    (fun obj => Ok (json_dumps_indent2 obj))
    json_loads.

(** [AnnoSerializer.__subclasses__()], in definition order. *)
Definition subclasses : list AnnoSerializer :=
  [Base85GzipJSONSerializer; JsonSerializer].

Definition unknown_serializer_message (name : string) : string :=
  "Serializer with name '" ++ name ++ "' not found. Known serializers: "
  ++ Py.join ", " (map NAME subclasses).

Definition get_serializer_by_name (name : string) : result AnnoSerializer :=
  match List.find (fun subclass => String.eqb (NAME subclass) name) subclasses with
  | Some subclass => Ok subclass
  | None => Raise (ValueError (unknown_serializer_message name))
  end.

End Serializers.

(* ===================================================================== *)
(** * Constructing an [Annotation] from a dictionary *)
(* ===================================================================== *)

Section AnnotationInit.
Context {L : PyLib}.
Local Open Scope result_scope.

(** A declared field without default. *)
Definition field_required {A : Type} (validate : json -> option A)
    (k : string) (d : dict) : result A :=
  match dict_get k d with
  | Some v =>
      match validate v with
      | Some x => Ok x
      | None => Raise ValidationError
      end
  | None => Raise ValidationError
  end.

(** A declared field with a default. *)
Definition field_default {A : Type} (validate : json -> option A)
    (k : string) (dflt : A) (d : dict) : result A :=
  match dict_get k d with
  | Some v =>
      match validate v with
      | Some x => Ok x
      | None => Raise ValidationError
      end
  | None => Ok dflt
  end.

(** A declared field of type [Optional[...] = None]. *)
Definition field_optional {A : Type} (validate : json -> option A)
    (k : string) (d : dict) : result (option A) :=
  match dict_get k d with
  | Some JNull => Ok None
  | Some v =>
      match validate v with
      | Some x => Ok (Some x)
      | None => Raise ValidationError
      end
  | None => Ok None
  end.

(** The constructor call [Annotation] on the keyword arguments [d]. *)
Definition Annotation_of_dict (d : dict) : result Annotation :=
  c <- field_required validate_str "created" d ;;
  a <- field_default validate_str "author" "" d ;;
  t <- field_required validate_int "type" d ;;
  p <- field_required validate_int "pageIndex" d ;;
  i <- field_optional validate_int "db_id" d ;;
  s <- field_optional validate_str "contents" d ;;
  Ok (mkAnnotation c a t p i s
        (filter (fun kv => negb (str_in (fst kv) FIELDS)) d)).

(** The same call on whatever [deserialize] returned: unpacking keyword
    arguments needs a mapping. *)
Definition Annotation_init (v : json) : result Annotation :=
  match v with
  | JObj d => Annotation_of_dict d
  | _ => Raise TypeError
  end.

End AnnotationInit.

(* ===================================================================== *)
(** * Note content codec ([annostorage.py], class [PaperlessNotesStorage]) *)
(* ===================================================================== *)

Definition ANNOTATION_CONTENT_BEGIN : string :=
  "------------ DATA BEGIN ------------".
Definition ANNOTATION_CONTENT_END : string :=
  "------------ DATA END ------------".

Definition reserved_message (what : string) : string :=
  what ++ " contains reserved content delimiter "
  ++ ANNOTATION_CONTENT_BEGIN ++ " or " ++ ANNOTATION_CONTENT_END.

(** The two [ValueError]s of [_anno_to_note_content], and that of
    [get_serializer_by_name]: the specification's
    [ReservedDelimiterCollision] and [UnknownSerializer]. *)
Definition header_collision : exn :=
  ValueError (reserved_message "Annotation header").
Definition payload_collision : exn :=
  ValueError (reserved_message "Serialized annotation").

Section NoteCodec.
Context {L : PyLib}.
Local Open Scope result_scope.

(** [getattr(annotation, "custom", {}).get("text", None)] *)
Definition custom_text (annotation : Annotation) : result (option json) :=
  match getattr_extra annotation "custom" with
  | None => Ok None
  | Some (JObj custom) => Ok (dict_get "text" custom)
  | Some _ => Raise (AttributeError "get")
  end.

Definition _build_note_header (annotation : Annotation) : result string :=
  let created_formatted :=
    match isoformat_to_display (Py.replace "Z" "+00:00" (created annotation)) with
    | Some formatted => formatted
    | None => created annotation
    end in
  text <- custom_text annotation ;;
  rendered <- render_note_template
    {| ctx_author := author annotation;
       ctx_page := pageIndex annotation + 1;
       ctx_page_index := pageIndex annotation;
       ctx_created := created_formatted;
       ctx_comment := match contents annotation with
                      | Some c => c
                      | None => ""
                      end;
       ctx_text := text;
       ctx_type := type annotation;
       ctx_annotation := annotation |} ;;
  Ok (Py.replace (NL ++ NL) NL rendered).

(** [self] is the storage's [default_anno_serializer]. *)
Definition _anno_to_note_content (self : AnnoSerializer)
    (annotation : Annotation) : result string :=
  payload <- serialize self (JObj (model_dump annotation)) ;;
  let serialized := payload ++ NL in
  header <- _build_note_header annotation ;;
  if Py.contains ANNOTATION_CONTENT_BEGIN header
     || Py.contains ANNOTATION_CONTENT_END header
  then Raise header_collision
  else if Py.contains ANNOTATION_CONTENT_BEGIN serialized
          || Py.contains ANNOTATION_CONTENT_END serialized
  then Raise payload_collision
  else Ok (header ++ NL ++ ANNOTATION_CONTENT_BEGIN ++ NL
           ++ NAME self ++ NL ++ serialized ++ ANNOTATION_CONTENT_END).

Definition _note_content_to_anno (note_content : string)
    : result (option Annotation) :=
  let begin_idx := Py.find ANNOTATION_CONTENT_BEGIN note_content in
  let end_idx := Py.find ANNOTATION_CONTENT_END note_content in
  if (begin_idx =? -1) || (end_idx =? -1) then Ok None
  else
    let data_area :=
      Py.strip (Py.slice (begin_idx + Py.len ANNOTATION_CONTENT_BEGIN)
                         end_idx note_content) in
    match Py.splitlines data_area with
    | [] => Raise IndexError
    | first_line :: payload_lines =>
        let serializer_name := Py.strip first_line in
        if String.eqb serializer_name "" then Ok None
        else
          serializer <- get_serializer_by_name serializer_name ;;
          decoded <- deserialize serializer (Py.join NL payload_lines) ;;
          match decoded with
          | JNull => Ok None
          | _ => a <- Annotation_init decoded ;; Ok (Some a)
          end
    end.

End NoteCodec.

(* ===================================================================== *)
(** * The external document service ([paperless_api.py]) *)
(* ===================================================================== *)

(** The models of [paperless_api.py], with the fields the sources read. *)
Record Note : Type := mkNote {
  Note_id : Z;
  Note_note : string
}.

Record CustomFieldInstance : Type := mkCustomFieldInstance {
  CustomFieldInstance_value : option json;
  CustomFieldInstance_field : Z
}.

Record CustomField : Type := mkCustomField {
  CustomField_id : Z;
  CustomField_name : string;
  CustomField_data_type : string
}.

Record Document : Type := mkDocument {
  Document_id : Z;
  Document_custom_fields : list CustomFieldInstance
}.

(** [custom_field_query] values the sources build. *)
Inductive cf_query : Type :=
| QExists (name : string) (b : bool)
| QIStartsWith (name : string) (prefix : string)
| QNot (q : cf_query).

(** The HTTP requests [PaperlessAPI] sends. *)
Inductive Request : Type :=
| GetDocuments (page : Z)
| QueryDocuments (q : cf_query) (page : Z)
| GetNotes (doc_id : Z)
| PostNote (doc_id : Z) (note : string)
| DeleteNote (doc_id : Z) (note_id : option Z)
| GetCustomFields (page : Z)
| PostCustomField (name : string) (data_type : string)
| PatchCustomFields (doc_id : Z) (cfs : list CustomFieldInstance).

(** The decoded bodies of the answers; [next] is the page cursor. *)
Inductive Response : Type :=
| RDocuments (results : list Document) (next : bool)
| RNotes (notes : list Note)
| RCustomFields (results : list CustomField) (next : bool)
| RCustomField (cf : CustomField)
| RDocument (doc : Document)
| REmpty.

(** The service behind the HTTP session.  [None] is a failed request: a
    transport error or an error status, which [raise_for_status] turns into
    an exception. *)
Class Service : Type := {
  svc_state : Type;
  respond : Request -> svc_state -> option Response * svc_state
}.

(** A row of the table behind the Django model [DbAnnotation]. *)
Record DbAnnotation : Type := mkDbAnnotation {
  DbAnnotation_id : Z;
  DbAnnotation_doc_id : Z;
  DbAnnotation_db_id : Z;
  DbAnnotation_page_index : option Z;
  DbAnnotation_anno_obj : json
}.

(* ===================================================================== *)
(** * State and effects *)
(* ===================================================================== *)

Section Effects.
Context {SV : Service}.

(** What the process can change: the external service, the requests sent
    to it so far, each with whether it succeeded, the annotation table and
    its next primary key, and the module-level [_custom_field_cache] of
    [auto_linking.py]. *)
Record World : Type := mkWorld {
  svc : svc_state;
  trace : list (Request * bool);
  table : list DbAnnotation;
  next_pk : Z;
  _custom_field_cache : list (string * CustomField)
}.

(** A computation: [None] when a [while True] loop was cut off by its
    fuel, otherwise a result and the state it left. *)
Definition M (A : Type) : Type := World -> option (result A * World).

Definition ret {A : Type} (a : A) : M A := fun w => Some (Ok a, w).

Definition raise {A : Type} (e : exn) : M A := fun w => Some (Raise e, w).

Definition lift {A : Type} (r : result A) : M A := fun w => Some (r, w).

Definition out_of_fuel {A : Type} : M A := fun _ => None.

Definition bind {A B : Type} (m : M A) (k : A -> M B) : M B :=
  fun w =>
    match m w with
    | None => None
    | Some (Ok a, w') => k a w'
    | Some (Raise e, w') => Some (Raise e, w')
    end.

(** [for x in l: acc = body(x, acc)] *)
Fixpoint for_each {A B : Type} (l : list A) (body : A -> B -> M B) (acc : B)
    : M B :=
  match l with
  | [] => ret acc
  | x :: l' => bind (body x acc) (for_each l' body)
  end.

(** [try: m except E: handler], for the exceptions [E] that [handles]
    accepts. *)
Definition try_except {A : Type} (m : M A) (handles : exn -> bool)
    (handler : M A) : M A :=
  fun w =>
    match m w with
    | Some (Raise e, w') =>
        if handles e then handler w' else Some (Raise e, w')
    | other => other
    end.

(** A generator run to its end: the items it yields and the exception
    that ends it, if one does. *)
Definition gen (A : Type) : Type := (list A * option exn)%type.

(** [for x in g: acc = body(x, acc)] *)
Definition for_gen {A B : Type} (g : gen A) (body : A -> B -> M B) (acc : B)
    : M B :=
  bind (for_each (fst g) body acc)
       (fun acc' => match snd g with
                    | Some e => raise e
                    | None => ret acc'
                    end).

End Effects.

Declare Scope monad_scope.
Delimit Scope monad_scope with monad.
Notation "x <- m ;; k" := (bind m (fun x => k))
  (at level 61, m at next level, right associativity) : monad_scope.
Notation "m ;;; k" := (bind m (fun _ => k))
  (at level 61, right associativity) : monad_scope.

(* ===================================================================== *)
(** * The client ([paperless_api.py], class [PaperlessAPI]) *)
(* ===================================================================== *)

Section Client.
Context {SV : Service}.
Local Open Scope monad_scope.

(** [_request]: send, record, and raise [PaperlessAPIError] on failure. *)
Definition _request (rq : Request) : M Response :=
  fun w =>
    let (answer, s') := respond rq (svc w) in
    let sent (ok : bool) :=
      mkWorld s' (trace w ++ [(rq, ok)]) (table w) (next_pk w)
        (_custom_field_cache w) in
    match answer with
    | Some r => Some (Ok r, sent true)
    | None => Some (Raise PaperlessAPIError, sent false)
    end.

(** [list(self.documents_iter())]: pages are fetched until one has no
    [next]. *)
Fixpoint documents_iter (fuel : nat) (page : Z) : M (list Document) :=
  match fuel with
  | O => out_of_fuel
  | S fuel' =>
      payload <- _request (GetDocuments page) ;;
      match payload with
      | RDocuments results next =>
          if next
          then rest <- documents_iter fuel' (page + 1) ;;
               ret (results ++ rest)%list
          else ret results
      | _ => raise ValidationError
      end
  end.

(** [for doc in self.documents_custom_field_query_iter(q): ...]: the
    generator is lazy, so the loop body runs on the documents of a page
    before the next page is asked for. *)
Fixpoint documents_custom_field_query_iter {B : Type} (fuel : nat)
    (custom_field_query : cf_query) (page : Z)
    (body : Document -> B -> M B) (acc : B) : M B :=
  match fuel with
  | O => out_of_fuel
  | S fuel' =>
      payload <- _request (QueryDocuments custom_field_query page) ;;
      match payload with
      | RDocuments results next =>
          acc' <- for_each results body acc ;;
          if next
          then documents_custom_field_query_iter fuel' custom_field_query
                 (page + 1) body acc'
          else ret acc'
      | _ => raise ValidationError
      end
  end.

Definition document_notes (doc_id : Z) : M (list Note) :=
  payload <- _request (GetNotes doc_id) ;;
  match payload with
  | RNotes notes => ret notes
  | _ => raise ValidationError
  end.

(** Returns the last note of the answer, [None] when the answer is
    empty. *)
Definition add_note_to_document (doc_id : Z) (note : string)
    : M (option Note) :=
  payload <- _request (PostNote doc_id note) ;;
  match payload with
  | RNotes notes => ret (List.last (map Some notes) None)
  | _ => raise ValidationError
  end.

Definition delete_note (doc_id : Z) (note_id : option Z) : M bool :=
  _ <- _request (DeleteNote doc_id note_id) ;;
  ret true.

(** [get_custom_field_by_name] over [custom_fields_iter]: returns at the
    first match, without asking for further pages. *)
Fixpoint get_custom_field_by_name (fuel : nat) (page : Z) (name : string)
    : M (option CustomField) :=
  match fuel with
  | O => out_of_fuel
  | S fuel' =>
      payload <- _request (GetCustomFields page) ;;
      match payload with
      | RCustomFields results next =>
          match List.find (fun cf => String.eqb (CustomField_name cf) name)
                  results with
          | Some cf => ret (Some cf)
          | None =>
              if next then get_custom_field_by_name fuel' (page + 1) name
              else ret None
          end
      | _ => raise ValidationError
      end
  end.

Definition create_custom_field (name data_type : string) : M CustomField :=
  payload <- _request (PostCustomField name data_type) ;;
  match payload with
  | RCustomField cf => ret cf
  | _ => raise ValidationError
  end.

(** The first instance of the field takes the value; [None] when the
    document has no instance of it. *)
Fixpoint set_first_instance (custom_field_id : Z) (value : json)
    (insts : list CustomFieldInstance) : option (list CustomFieldInstance) :=
  match insts with
  | [] => None
  | inst :: rest =>
      if CustomFieldInstance_field inst =? custom_field_id
      then Some (mkCustomFieldInstance (Some value)
                  (CustomFieldInstance_field inst) :: rest)
      else match set_first_instance custom_field_id value rest with
           | Some rest' => Some (inst :: rest')
           | None => None
           end
  end.

Definition add_custom_field_to_document (doc : Document)
    (custom_field_id : Z) (value : string) : M Document :=
  let doc_cf_instances :=
    match set_first_instance custom_field_id (JStr value)
            (Document_custom_fields doc) with
    | Some updated => updated
    | None => (Document_custom_fields doc
               ++ [mkCustomFieldInstance (Some (JStr value)) custom_field_id])%list
    end in
  payload <- _request (PatchCustomFields (Document_id doc) doc_cf_instances) ;;
  match payload with
  | RDocument updated_doc => ret updated_doc
  | _ => raise ValidationError
  end.

End Client.

(* ===================================================================== *)
(** * Storage backends ([annostorage.py]) *)
(* ===================================================================== *)

Definition opt_Z_eqb (a b : option Z) : bool :=
  match a, b with
  | Some x, Some y => x =? y
  | None, None => true
  | _, _ => false
  end.

(** [page is None or annotation.pageIndex == page] *)
Definition on_page (page : option Z) (annotation : Annotation) : bool :=
  match page with
  | None => true
  | Some p => pageIndex annotation =? p
  end.

Section Storage.
Context {L : PyLib} {SV : Service}.
Local Open Scope monad_scope.

(** The abstract class [AnnoStorage]. *)
Record AnnoStorage : Type := mkAnnoStorage {
  get_annotations : Z -> option Z -> M (gen Annotation);
  create_annotation : Z -> Annotation -> M Annotation;
  update_annotation : Z -> Annotation -> M Annotation;
  delete_annotation_by_id : Z -> option Z -> M bool
}.

(** ** [PaperlessNotesStorage] *)

(** The body of the [try] in [get_annotations]: decode the note and set
    [db_id] on what came out, which fails on [None]. *)
Definition note_to_annotation (note : Note) : result Annotation :=
  (annotation <- _note_content_to_anno (Note_note note) ;;
   match annotation with
   | Some a => Ok (set_db_id (Some (Note_id note)) a)
   | None => Raise (AttributeError "db_id")
   end)%res.

(** One turn of the loop of [get_annotations]: [except Exception:
    continue]. *)
Definition note_yields (page : option Z) (note : Note) : list Annotation :=
  match note_to_annotation note with
  | Ok annotation => if on_page page annotation then [annotation] else []
  | Raise _ => []
  end.

Definition PaperlessNotesStorage_get_annotations (doc_id : Z)
    (page : option Z) : M (gen Annotation) :=
  notes <- document_notes doc_id ;;
  ret (flat_map (note_yields page) notes, None).

Definition PaperlessNotesStorage_delete_annotation_by_id (doc_id : Z)
    (db_id : option Z) : M bool :=
  delete_note doc_id db_id.

(** The argument [self._anno_to_note_content(annotation)] is evaluated
    before [add_note_to_document] is called. *)
Definition PaperlessNotesStorage_create_annotation (self : AnnoSerializer)
    (doc_id : Z) (annotation : Annotation) : M Annotation :=
  content <- lift (_anno_to_note_content self annotation) ;;
  note <- add_note_to_document doc_id content ;;
  match note with
  | Some n => ret (set_db_id (Some (Note_id n)) annotation)
  | None => raise (AttributeError "id")
  end.

Definition PaperlessNotesStorage_update_annotation (self : AnnoSerializer)
    (doc_id : Z) (updated_annotation : Annotation) : M Annotation :=
  match db_id updated_annotation with
  | None => raise (ValueError "Cannot update annotation without db_id")
  | Some old_note_id =>
      deleted <- PaperlessNotesStorage_delete_annotation_by_id doc_id
                   (Some old_note_id) ;;
      if negb deleted
      then raise (ValueError ("Annotation with db_id "
                              ++ Py.str_of_int old_note_id ++ " not found"))
      else
        content <- lift (_anno_to_note_content self updated_annotation) ;;
        note <- add_note_to_document doc_id content ;;
        match note with
        | Some n => ret (set_db_id (Some (Note_id n)) updated_annotation)
        | None => raise (AttributeError "id")
        end
  end.

Definition PaperlessNotesStorage (self : AnnoSerializer) : AnnoStorage :=
  mkAnnoStorage
    PaperlessNotesStorage_get_annotations
    (PaperlessNotesStorage_create_annotation self)
    (PaperlessNotesStorage_update_annotation self)
    PaperlessNotesStorage_delete_annotation_by_id.

(** ** [DatabaseAnnotationStorage], over the table of [DbAnnotation] *)

(** [DbAnnotation.objects.create(...)] *)
Definition objects_create (doc_id db_id : Z) (page_index : option Z)
    (anno_obj : json) : M DbAnnotation :=
  fun w =>
    let row := mkDbAnnotation (next_pk w) doc_id db_id page_index anno_obj in
    Some (Ok row,
          mkWorld (svc w) (trace w) (table w ++ [row]) (next_pk w + 1)
            (_custom_field_cache w)).

(** [DbAnnotation.objects.filter(doc_id=doc_id)] and
    [.filter(doc_id=doc_id, page_index=page)], evaluated. *)
Definition objects_filter (doc_id : Z) (page_index : option Z)
    : M (list DbAnnotation) :=
  fun w =>
    Some (Ok (filter
                (fun row =>
                   (DbAnnotation_doc_id row =? doc_id)
                   && match page_index with
                      | Some p => opt_Z_eqb (DbAnnotation_page_index row) (Some p)
                      | None => true
                      end)
                (table w)),
          w).

(** [DbAnnotation.objects.get(id=id, doc_id=doc_id)] *)
Definition objects_get (id : option Z) (doc_id : Z) : M DbAnnotation :=
  fun w =>
    match filter
            (fun row =>
               opt_Z_eqb (Some (DbAnnotation_id row)) id
               && (DbAnnotation_doc_id row =? doc_id))
            (table w) with
    | [] => Some (Raise DoesNotExist, w)
    | [row] => Some (Ok row, w)
    | _ => Some (Raise MultipleObjectsReturned, w)
    end.

(** [row.save()] *)
Definition row_save (row : DbAnnotation) : M unit :=
  fun w =>
    Some (Ok tt,
          mkWorld (svc w) (trace w)
            (map (fun r => if DbAnnotation_id r =? DbAnnotation_id row
                           then row else r) (table w))
            (next_pk w) (_custom_field_cache w)).

(** [row.delete()] *)
Definition row_delete (row : DbAnnotation) : M unit :=
  fun w =>
    Some (Ok tt,
          mkWorld (svc w) (trace w)
            (filter (fun r => negb (DbAnnotation_id r =? DbAnnotation_id row))
               (table w))
            (next_pk w) (_custom_field_cache w)).

Definition DatabaseAnnotationStorage_create_annotation (doc_id : Z)
    (annotation : Annotation) : M Annotation :=
  let page_index := pageIndex annotation in
  db_anno <- objects_create doc_id
               (match db_id annotation with
                | Some i => i
                | None => 0
                end)
               (Some page_index)
               (JObj (model_dump annotation)) ;;
  ret (set_db_id (Some (DbAnnotation_id db_anno)) annotation).

(** The loop of [get_annotations] over the fetched rows: a row whose
    [anno_obj] does not validate ends the generator with the exception. *)
Fixpoint rows_to_annotations (page : option Z) (rows : list DbAnnotation)
    : gen Annotation :=
  match rows with
  | [] => ([], None)
  | db_anno :: rest =>
      match Annotation_init (DbAnnotation_anno_obj db_anno) with
      | Raise e => ([], Some e)
      | Ok anno =>
          let anno := set_db_id (Some (DbAnnotation_id db_anno)) anno in
          let (items, stop) := rows_to_annotations page rest in
          if on_page page anno then (anno :: items, stop) else (items, stop)
      end
  end.

(** [if page:] holds for a page other than [None] and [0]. *)
Definition DatabaseAnnotationStorage_get_annotations (doc_id : Z)
    (page : option Z) : M (gen Annotation) :=
  rows <- objects_filter doc_id
            (match page with
             | Some 0 => None
             | _ => page
             end) ;;
  ret (rows_to_annotations page rows).

Definition DatabaseAnnotationStorage_update_annotation (doc_id : Z)
    (updated_annotation : Annotation) : M Annotation :=
  db_anno <- objects_get (db_id updated_annotation) doc_id ;;
  row_save (mkDbAnnotation (DbAnnotation_id db_anno)
              (DbAnnotation_doc_id db_anno) (DbAnnotation_db_id db_anno)
              (Some (pageIndex updated_annotation))
              (JObj (model_dump updated_annotation))) ;;;
  ret updated_annotation.

(** [try: ... except DbAnnotation.DoesNotExist: return False] *)
Definition DatabaseAnnotationStorage_delete_annotation_by_id (doc_id : Z)
    (db_id : option Z) : M bool :=
  try_except
    (db_anno <- objects_get db_id doc_id ;;
     row_delete db_anno ;;;
     ret true)
    (fun e => match e with DoesNotExist => true | _ => false end)
    (ret false).

Definition DatabaseAnnotationStorage : AnnoStorage :=
  mkAnnoStorage
    DatabaseAnnotationStorage_get_annotations
    DatabaseAnnotationStorage_create_annotation
    DatabaseAnnotationStorage_update_annotation
    DatabaseAnnotationStorage_delete_annotation_by_id.

(** [get_configured_annotation_storage], with the constructor of
    [PaperlessNotesStorage] looking up the configured serializer. *)
Definition get_configured_annotation_storage {cfg : Settings}
    : result AnnoStorage :=
  if String.eqb ANNO_STORAGE "database" then Ok DatabaseAnnotationStorage
  else if String.eqb ANNO_STORAGE "paperless_notes" then
    (default_anno_serializer <- get_serializer_by_name ANNO_SERIALIZER ;;
     Ok (PaperlessNotesStorage default_anno_serializer))%res
  else Raise (ValueError ("Unknown annotation storage type: " ++ ANNO_STORAGE)).

End Storage.

(* ===================================================================== *)
(** * Orchestration ([annotations.py], class [PaperlessAnnotator]) *)
(* ===================================================================== *)

Section Annotator.
Context {L : PyLib} {SV : Service}.
Variable annotation_storage : AnnoStorage.
Local Open Scope monad_scope.

(** [other_anno.db_id != annotation.db_id and
     getattr(other_anno, "inReplyToId", None) == annotation.id];
    the right operand of [and] is evaluated only when the left holds, and
    [annotation.id] raises when the annotation has no such field. *)
Definition is_reply (annotation other_anno : Annotation) : result bool :=
  if negb (opt_Z_eqb (db_id other_anno) (db_id annotation)) then
    match getattr_extra annotation "id" with
    | Some id =>
        Ok (py_eq (match getattr_extra other_anno "inReplyToId" with
                   | Some v => v
                   | None => JNull
                   end) id)
    | None => Raise (AttributeError "id")
    end
  else Ok false.

Definition PaperlessAnnotator_delete_anno (doc_id : Z)
    (annotation : Annotation) : M bool :=
  others <- get_annotations annotation_storage doc_id
              (Some (pageIndex annotation)) ;;
  for_gen others
    (fun other_anno (_ : unit) =>
       reply <- lift (is_reply annotation other_anno) ;;
       if (reply : bool)
       then delete_annotation_by_id annotation_storage doc_id
              (db_id other_anno) ;;;
            ret tt
       else ret tt)
    tt ;;;
  delete_annotation_by_id annotation_storage doc_id (db_id annotation).

(** [docs_to_skip and doc.id in docs_to_skip] *)
Definition skipped (docs_to_skip : list Z) (doc : Document) : bool :=
  existsb (Z.eqb (Document_id doc)) docs_to_skip.

(** [for doc in self.get_all_documents_with_annotations(docs_to_skip): ...]:
    the generator lists the documents when it starts, and probes a
    document for a first annotation just before the loop body runs on
    it. *)
Definition get_all_documents_with_annotations {B : Type} (fuel : nat)
    (docs_to_skip : list Z) (body : Document -> B -> M B) (acc : B) : M B :=
  documents <- documents_iter fuel 1 ;;
  for_each documents
    (fun doc acc =>
       if skipped docs_to_skip doc then ret acc
       else
         probe <- get_annotations annotation_storage (Document_id doc) None ;;
         match probe with
         | (_ :: _, _) => body doc acc
         | ([], Some e) => raise e
         | ([], None) => ret acc
         end)
    acc.

(** [processed_docs.add(doc_id)] on a set kept as a list. *)
Definition set_add (x : Z) (s : list Z) : list Z :=
  if existsb (Z.eqb x) s then s else (s ++ [x])%list.

Definition PaperlessAnnotator_delete_all_annotations (fuel : nat)
    (docs_to_skip : option (list Z)) : M (list Z) :=
  let docs_to_skip := match docs_to_skip with
                      | Some l => l
                      | None => []
                      end in
  _ <- documents_iter fuel 1 ;;
  get_all_documents_with_annotations fuel docs_to_skip
    (fun doc processed_docs =>
       if skipped docs_to_skip doc then ret processed_docs
       else
         annos <- get_annotations annotation_storage (Document_id doc) None ;;
         for_gen annos
           (fun anno processed_docs =>
              delete_annotation_by_id annotation_storage (Document_id doc)
                (db_id anno) ;;;
              ret (set_add (Document_id doc) processed_docs))
           processed_docs)
    [].

End Annotator.

(* ===================================================================== *)
(** * Link synchronisation ([auto_linking.py]) *)
(* ===================================================================== *)

(** Modelled from the spec: the project's root URL configuration is not
    among the sources.  [reverse("view_document", kwargs={"doc_id": doc_id})]
    for the route [path("view/<doc_id>", ...)] of [urls.py], with the
    application's routes included at the root, as the prefix
    [BASE_URL/view/] of the outdated-link query has them.  Whatever the
    mount point, [reverse] returns a path that starts with a slash. *)
Definition reverse_view_document (doc_id : Z) : string :=
  "/view/" ++ Py.str_of_int doc_id.

Section AutoLinking.
Context {SV : Service} {cfg : Settings}.
Local Open Scope monad_scope.

Definition cache_set (cf : CustomField) : M unit :=
  fun w =>
    Some (Ok tt,
          mkWorld (svc w) (trace w) (table w) (next_pk w)
            ((CUSTOM_FIELD_NAME, cf)
               :: filter (fun kv => negb (String.eqb (fst kv) CUSTOM_FIELD_NAME))
                    (_custom_field_cache w))).

Definition cache_get : M (option CustomField) :=
  fun w =>
    Some (Ok (match List.find (fun kv => String.eqb (fst kv) CUSTOM_FIELD_NAME)
                      (_custom_field_cache w) with
              | Some kv => Some (snd kv)
              | None => None
              end),
          w).

Definition _get_or_create_custom_link_field (fuel : nat) : M CustomField :=
  cached <- cache_get ;;
  match cached with
  | Some cf => ret cf
  | None =>
      found <- get_custom_field_by_name fuel 1 CUSTOM_FIELD_NAME ;;
      match found with
      | Some cf => cache_set cf ;;; ret cf
      | None =>
          cf <- create_custom_field CUSTOM_FIELD_NAME "url" ;;
          cache_set cf ;;;
          ret cf
      end
  end.

(** The value the first loop of [update_document_links] writes. *)
Definition missing_link_value (doc : Document) : string :=
  BASE_URL ++ reverse_view_document (Document_id doc).

(** The value the second loop writes. *)
Definition outdated_link_value (doc : Document) : string :=
  BASE_URL ++ "/" ++ reverse_view_document (Document_id doc).

Definition link_is_outdated_query : cf_query :=
  QNot (QIStartsWith CUSTOM_FIELD_NAME (BASE_URL ++ "/view/")).

Definition link_not_exists_query : cf_query :=
  QExists CUSTOM_FIELD_NAME false.

(** One loop of [update_document_links]: skip what [docs_to_skip] holds,
    write [value doc] and append the id to [updated_docs]. *)
Definition link_loop_body (docs_to_skip : list Z) (custom_field : CustomField)
    (value : Document -> string) (doc : Document) (updated_docs : list Z)
    : M (list Z) :=
  if existsb (Z.eqb (Document_id doc)) docs_to_skip then ret updated_docs
  else
    add_custom_field_to_document doc (CustomField_id custom_field)
      (value doc) ;;;
    ret (updated_docs ++ [Document_id doc])%list.

Definition update_document_links (fuel : nat) (docs_to_skip : option (list Z))
    : M (list Z) :=
  let docs_to_skip := match docs_to_skip with
                      | Some l => l
                      | None => []
                      end in
  custom_field <- _get_or_create_custom_link_field fuel ;;
  updated_docs <- documents_custom_field_query_iter fuel
                    link_not_exists_query 1
                    (link_loop_body docs_to_skip custom_field missing_link_value)
                    [] ;;
  documents_custom_field_query_iter fuel link_is_outdated_query 1
    (link_loop_body docs_to_skip custom_field outdated_link_value)
    updated_docs.

End AutoLinking.

(* ===================================================================== *)
(** * A reference document service *)
(* ===================================================================== *)

(** Modelled from the spec: the external document-management service is
    not code of this repository.  Section 6 of the specification lists what
    the client consumes from it (paginated document listing, plain and
    filtered by a custom-field predicate; per-document note listing,
    creation and deletion by note id; custom-field definitions; a patch
    that replaces a document's custom-field instances), and section 4.5
    says that its index is eventually consistent.  This is an in-memory
    service with that behaviour.  A request about a document or a note that
    does not exist is answered with an error status, as are a page out of
    range and a request that the fault script fails. *)
Module Mem.

Record state : Type := mk {
  (** the documents *)
  docs : list Document;
  (** what custom-field queries are answered from *)
  index : list Document;
  (** whether patches have yet to reach the index *)
  stale : bool;
  (** the notes with the document each is attached to, oldest first *)
  notes : list (Z * Note);
  next_note : Z;
  fields : list CustomField;
  next_field : Z;
  page_size : nat;
  (** one entry per coming request: [true] fails it *)
  faults : list bool
}.

Definition has_doc (doc_id : Z) (s : state) : bool :=
  existsb (fun d => Document_id d =? doc_id) (docs s).

Definition notes_of (doc_id : Z) (s : state) : list Note :=
  map snd (filter (fun dn => fst dn =? doc_id) (notes s)).

Definition has_note (doc_id note_id : Z) (s : state) : bool :=
  existsb (fun n => Note_id n =? note_id) (notes_of doc_id s).

(** Page [page] of [l], counted from 1, and whether more follows. *)
Definition page_of {A : Type} (size : nat) (page : Z) (l : list A)
    : option (list A * bool) :=
  if page <? 1 then None
  else
    let start := (Z.to_nat (page - 1) * size)%nat in
    if (1 <? page) && (List.length l <=? start)%nat then None
    else Some (firstn size (skipn start l),
               (start + size <? List.length l)%nat).

Definition lower_char (c : ascii) : ascii :=
  let n := nat_of_ascii c in
  if ((65 <=? n) && (n <=? 90))%nat then ascii_of_nat (n + 32) else c.

Fixpoint lower (s : string) : string :=
  match s with
  | EmptyString => EmptyString
  | String c s' => String (lower_char c) (lower s')
  end.

(** [istartswith]: a prefix test that ignores case. *)
Definition istartswith (p s : string) : bool :=
  Py.startswith (lower p) (lower s).

Definition field_id (name : string) (s : state) : option Z :=
  match List.find (fun cf => String.eqb (CustomField_name cf) name) (fields s) with
  | Some cf => Some (CustomField_id cf)
  | None => None
  end.

Definition instances_of (name : string) (s : state) (d : Document)
    : list CustomFieldInstance :=
  match field_id name s with
  | Some i => filter (fun inst => CustomFieldInstance_field inst =? i)
                (Document_custom_fields d)
  | None => []
  end.

Fixpoint matches (q : cf_query) (s : state) (d : Document) : bool :=
  match q with
  | QExists name b =>
      Bool.eqb (negb (match instances_of name s d with
                      | [] => true
                      | _ => false
                      end)) b
  | QIStartsWith name p =>
      existsb (fun inst => match CustomFieldInstance_value inst with
                           | Some (JStr v) => istartswith p v
                           | _ => false
                           end)
        (instances_of name s d)
  | QNot q' => negb (matches q' s d)
  end.

Definition set_custom_fields (doc_id : Z) (cfs : list CustomFieldInstance)
    (l : list Document) : list Document :=
  map (fun d => if Document_id d =? doc_id then mkDocument doc_id cfs else d) l.

(** The answer to a request that the fault script lets through. *)
Definition handle (rq : Request) (s : state) : option Response * state :=
  match rq with
  | GetDocuments page =>
      (match page_of (page_size s) page (docs s) with
       | Some (results, next) => Some (RDocuments results next)
       | None => None
       end, s)
  | QueryDocuments q page =>
      (match page_of (page_size s) page (filter (matches q s) (index s)) with
       | Some (results, next) => Some (RDocuments results next)
       | None => None
       end, s)
  | GetNotes doc_id =>
      (if has_doc doc_id s then Some (RNotes (notes_of doc_id s)) else None, s)
  | PostNote doc_id note =>
      if has_doc doc_id s then
        let s' := mk (docs s) (index s) (stale s)
                    (notes s ++ [(doc_id, mkNote (next_note s) note)])
                    (next_note s + 1) (fields s) (next_field s)
                    (page_size s) (faults s) in
        (Some (RNotes (notes_of doc_id s')), s')
      else (None, s)
  | DeleteNote doc_id (Some note_id) =>
      if has_doc doc_id s && has_note doc_id note_id s then
        let s' := mk (docs s) (index s) (stale s)
                    (filter (fun dn => negb ((fst dn =? doc_id)
                                             && (Note_id (snd dn) =? note_id)))
                       (notes s))
                    (next_note s) (fields s) (next_field s)
                    (page_size s) (faults s) in
        (Some (RNotes (notes_of doc_id s')), s')
      else (None, s)
  | DeleteNote _ None => (None, s)
  | GetCustomFields page =>
      (match page_of (page_size s) page (fields s) with
       | Some (results, next) => Some (RCustomFields results next)
       | None => None
       end, s)
  | PostCustomField name data_type =>
      match field_id name s with
      | Some _ => (None, s)
      | None =>
          let cf := mkCustomField (next_field s) name data_type in
          (Some (RCustomField cf),
           mk (docs s) (index s) (stale s) (notes s) (next_note s)
             (fields s ++ [cf]) (next_field s + 1) (page_size s) (faults s))
      end
  | PatchCustomFields doc_id cfs =>
      if has_doc doc_id s then
        (Some (RDocument (mkDocument doc_id cfs)),
         mk (set_custom_fields doc_id cfs (docs s))
           (if stale s then index s else set_custom_fields doc_id cfs (index s))
           (stale s) (notes s) (next_note s) (fields s) (next_field s)
           (page_size s) (faults s))
      else (None, s)
  end.

Definition pop_fault (s : state) : state :=
  mk (docs s) (index s) (stale s) (notes s) (next_note s) (fields s)
    (next_field s) (page_size s) (tl (faults s)).

Definition respond (rq : Request) (s : state) : option Response * state :=
  match faults s with
  | true :: _ => (None, pop_fault s)
  | _ => handle rq (pop_fault s)
  end.

End Mem.

Definition MemService : Service :=
  {| svc_state := Mem.state; respond := Mem.respond |}.

(* ===================================================================== *)
(** * Vocabulary of the properties *)
(* ===================================================================== *)

(** [sub] occurs in [s]. *)
Definition occurs (sub s : string) : Prop :=
  exists pre post, s = pre ++ sub ++ post.

(** The text of a note between the end of the first [BEGIN] delimiter and
    the first [END] delimiter, stripped. *)
Definition data_area (note_content : string) : string :=
  Py.strip
    (Py.slice (Py.find ANNOTATION_CONTENT_BEGIN note_content
               + Py.len ANNOTATION_CONTENT_BEGIN)
              (Py.find ANNOTATION_CONTENT_END note_content)
              note_content).

(** The first line of that text, stripped: the serializer name the note
    declares. *)
Definition declared_serializer_name (note_content : string) : option string :=
  match Py.splitlines (data_area note_content) with
  | [] => None
  | first_line :: _ => Some (Py.strip first_line)
  end.

(** The names under which a serializer is registered. *)
Definition registered_names {L : PyLib} : list string := map NAME subclasses.

(** The specification's [UnknownSerializer]. *)
Definition is_UnknownSerializer {L : PyLib} (e : exn) : Prop :=
  exists name, e = ValueError (unknown_serializer_message name).

(** The specification's [ReservedDelimiterCollision]. *)
Definition is_ReservedDelimiterCollision (e : exn) : Prop :=
  e = header_collision \/ e = payload_collision.

(* ===================================================================== *)
(** * Reference implementations of the library calls *)
(* ===================================================================== *)

(** Modelled from the spec: the libraries are not code of this repository.
    These definitions follow the documented behaviour of [json.dumps] (with
    its default [ensure_ascii] and separators), [json.loads],
    [base64.b85encode] and [base64.b85decode], and UTF-8 on code points
    below 256.  [gzip] is a container that stores its input behind the gzip
    magic number: no deflate stream is built.  They give an instance of
    [PyLib] on which [PyLibLaws] is proved, and they let the examples run. *)
Module PyRef.

Definition DQ : ascii := ascii_of_nat 34.
Definition BS : ascii := ascii_of_nat 92.

(** ** [json.dumps] *)

Definition hex_char (n : nat) : ascii :=
  match n with
  | 0 => "0" | 1 => "1" | 2 => "2" | 3 => "3" | 4 => "4" | 5 => "5"
  | 6 => "6" | 7 => "7" | 8 => "8" | 9 => "9" | 10 => "a" | 11 => "b"
  | 12 => "c" | 13 => "d" | 14 => "e" | _ => "f"
  end%nat%char.

(** The escape of one character under [ensure_ascii]. *)
Definition escape_char (c : ascii) : string :=
  let n := nat_of_ascii c in
  if (n =? 34)%nat then String BS (String DQ "")
  else if (n =? 92)%nat then String BS (String BS "")
  else if (n =? 10)%nat then String BS "n"
  else if (n =? 13)%nat then String BS "r"
  else if (n =? 9)%nat then String BS "t"
  else if (n =? 8)%nat then String BS "b"
  else if (n =? 12)%nat then String BS "f"
  else if ((n <? 32) || (126 <? n))%nat then
    String BS (String "u" (String "0" (String "0"
      (String (hex_char (n / 16)) (String (hex_char (n mod 16)) "")))))
  else String c "".

Fixpoint escape (s : string) : string :=
  match s with
  | EmptyString => EmptyString
  | String c s' => escape_char c ++ escape s'
  end.

Definition quote (s : string) : string :=
  String DQ (escape s ++ String DQ "").

Fixpoint spaces (n : nat) : string :=
  match n with
  | O => ""
  | S n' => String " " (spaces n')
  end.

(** What precedes an item or a closing bracket at nesting [level]: nothing
    without [indent], a line feed and the indentation with it. *)
Definition newline_indent (indent : option nat) (level : nat) : string :=
  match indent with
  | None => ""
  | Some k => NL ++ spaces (k * level)
  end.

(** What follows the comma between two items. *)
Definition after_comma (indent : option nat) (level : nat) : string :=
  match indent with
  | None => " "
  | Some k => NL ++ spaces (k * level)
  end.

Fixpoint dumps_at (indent : option nat) (level : nat) (v : json) : string :=
  match v with
  | JNull => "null"
  | JBool true => "true"
  | JBool false => "false"
  | JInt n => Py.str_of_int n
  | JStr s => quote s
  | JList [] => "[]"
  | JList (x :: l) =>
      "[" ++ newline_indent indent (S level)
      ++ dumps_at indent (S level) x
      ++ (fix items (l : list json) : string :=
            match l with
            | [] => ""
            | y :: l' =>
                "," ++ after_comma indent (S level)
                ++ dumps_at indent (S level) y ++ items l'
            end) l
      ++ newline_indent indent level ++ "]"
  | JObj [] => "{}"
  | JObj ((k, x) :: d) =>
      "{" ++ newline_indent indent (S level)
      ++ quote k ++ ": " ++ dumps_at indent (S level) x
      ++ (fix members (d : dict) : string :=
            match d with
            | [] => ""
            | (k', y) :: d' =>
                "," ++ after_comma indent (S level)
                ++ quote k' ++ ": " ++ dumps_at indent (S level) y
                ++ members d'
            end) d
      ++ newline_indent indent level ++ "}"
  end.

(** The items after the first, as [dumps_at] prints them. *)
Fixpoint dumps_items (indent : option nat) (level : nat) (l : list json)
    : string :=
  match l with
  | [] => ""
  | y :: l' =>
      "," ++ after_comma indent (S level)
      ++ dumps_at indent (S level) y ++ dumps_items indent level l'
  end.

Fixpoint dumps_members (indent : option nat) (level : nat) (d : dict)
    : string :=
  match d with
  | [] => ""
  | (k', y) :: d' =>
      "," ++ after_comma indent (S level)
      ++ quote k' ++ ": " ++ dumps_at indent (S level) y
      ++ dumps_members indent level d'
  end.

Definition json_dumps (v : json) : string := dumps_at None 0 v.
Definition json_dumps_indent2 (v : json) : string := dumps_at (Some 2%nat) 0 v.

(** ** [json.loads] *)

Definition is_ws (c : ascii) : bool :=
  let n := nat_of_ascii c in
  ((n =? 32) || (n =? 9) || (n =? 10) || (n =? 13))%nat.

Fixpoint ws_only (s : string) : bool :=
  match s with
  | EmptyString => true
  | String c r => is_ws c && ws_only r
  end.

(** What may follow a value: the end, white space, a comma or a closing
    bracket. *)
Definition ends_value (rest : string) : bool :=
  match rest with
  | EmptyString => true
  | String c _ =>
      let n := nat_of_ascii c in
      (is_ws c || (n =? 44) || (n =? 93) || (n =? 125))%nat
  end.

Fixpoint skip_ws (s : string) : string :=
  match s with
  | EmptyString => EmptyString
  | String c r => if is_ws c then skip_ws r else s
  end.

Definition hex_val (c : ascii) : option nat :=
  let n := nat_of_ascii c in
  if ((48 <=? n) && (n <=? 57))%nat then Some (n - 48)%nat
  else if ((97 <=? n) && (n <=? 102))%nat then Some (n - 87)%nat
  else if ((65 <=? n) && (n <=? 70))%nat then Some (n - 55)%nat
  else None.

(** The character an escape letter stands for. *)
Definition simple_escape (e : ascii) : option ascii :=
  let n := nat_of_ascii e in
  if (n =? 34)%nat then Some DQ
  else if (n =? 92)%nat then Some BS
  else if (n =? 47)%nat then Some "/"%char
  else if (n =? 98)%nat then Some (ascii_of_nat 8)
  else if (n =? 102)%nat then Some (ascii_of_nat 12)
  else if (n =? 110)%nat then Some (ascii_of_nat 10)
  else if (n =? 114)%nat then Some (ascii_of_nat 13)
  else if (n =? 116)%nat then Some (ascii_of_nat 9)
  else None.

Definition push (c : ascii) (r : option (string * string))
    : option (string * string) :=
  match r with
  | Some (x, rest) => Some (String c x, rest)
  | None => None
  end.

(** The body of a string literal after its opening quote, and what follows
    the closing quote.  An escape above [ÿ] has no character in this
    model and is refused, as is a raw control character. *)
Fixpoint scan_string (s : string) : option (string * string) :=
  match s with
  | EmptyString => None
  | String c r =>
      if Ascii.eqb c DQ then Some (EmptyString, r)
      else if Ascii.eqb c BS then
        match r with
        | EmptyString => None
        | String e r1 =>
            match simple_escape e with
            | Some x => push x (scan_string r1)
            | None =>
                if Ascii.eqb e "u" then
                  match r1 with
                  | String h1 (String h2 (String h3 (String h4 r2))) =>
                      match hex_val h1, hex_val h2, hex_val h3, hex_val h4 with
                      | Some 0%nat, Some 0%nat, Some a, Some b =>
                          push (ascii_of_nat (a * 16 + b)) (scan_string r2)
                      | _, _, _, _ => None
                      end
                  | _ => None
                  end
                else None
            end
        end
      else if (nat_of_ascii c <? 32)%nat then None
      else push c (scan_string r)
  end.

Definition is_number_char (c : ascii) : bool :=
  let n := nat_of_ascii c in
  ((n =? 45) || (48 <=? n) && (n <=? 57))%nat.

Definition stops_number (rest : string) : bool :=
  match rest with
  | EmptyString => true
  | String c _ => negb (is_number_char c)
  end.

(** The longest prefix of sign and digits, and the rest. *)
Fixpoint span_number (s : string) : string * string :=
  match s with
  | EmptyString => (EmptyString, EmptyString)
  | String c r =>
      if is_number_char c
      then let (d, rest) := span_number r in (String c d, rest)
      else (EmptyString, s)
  end.

Definition starts_fraction (s : string) : bool :=
  match s with
  | String c _ =>
      let n := nat_of_ascii c in ((n =? 46) || (n =? 101) || (n =? 69))%nat
  | EmptyString => false
  end.

Definition leading_zero (digits : string) : bool :=
  match digits with
  | String "0" (String _ _) => true
  | String "-" (String "0" (String _ _)) => true
  | _ => false
  end.

(** An integer literal.  A fraction or an exponent makes a float, which
    this model does not have. *)
Definition parse_number (s : string) : option (json * string) :=
  let (digits, rest) := span_number s in
  if starts_fraction rest || leading_zero digits then None
  else match NilZero.int_of_string digits with
       | Some (Decimal.Neg Decimal.Nil) => None
       | Some i => Some (JInt (Z.of_int i), rest)
       | None => None
       end.

(** [s] without the prefix [word], when it has it. *)
Fixpoint drop_prefix (word s : string) : option string :=
  match word with
  | EmptyString => Some s
  | String a word' =>
      match s with
      | String b s' => if Ascii.eqb a b then drop_prefix word' s' else None
      | EmptyString => None
      end
  end.

Definition expect (word : string) (s : string) (v : json)
    : option (json * string) :=
  match drop_prefix word s with
  | Some rest => Some (v, rest)
  | None => None
  end.

(** [d[k] = v]: a key already present keeps its place and takes the
    value. *)
Fixpoint dict_set (k : string) (v : json) (d : dict) : dict :=
  match d with
  | [] => [(k, v)]
  | (k', v') :: d' =>
      if String.eqb k k' then (k, v) :: d' else (k', v') :: dict_set k v d'
  end.

(** The dictionary built from the pairs of an object, in order. *)
Definition dict_of_pairs (pairs : dict) : dict :=
  fold_left (fun d kv => dict_set (fst kv) (snd kv) d) pairs [].

(** After white space, the character [c] and what follows it. *)
Definition next_is (c : ascii) (s : string) : option string :=
  match skip_ws s with
  | String c' r => if Ascii.eqb c' c then Some r else None
  | EmptyString => None
  end.

Fixpoint parse_value (fuel : nat) (s : string) {struct fuel}
    : option (json * string) :=
  match fuel with
  | O => None
  | S f =>
      match skip_ws s with
      | EmptyString => None
      | String c r =>
          if Ascii.eqb c "n" then expect "ull" r JNull
          else if Ascii.eqb c "t" then expect "rue" r (JBool true)
          else if Ascii.eqb c "f" then expect "alse" r (JBool false)
          else if Ascii.eqb c DQ then
            match scan_string r with
            | Some (x, r') => Some (JStr x, r')
            | None => None
            end
          else if Ascii.eqb c "[" then
            match next_is "]" r with
            | Some r' => Some (JList [], r')
            | None =>
                match parse_items f r with
                | Some (l, r') => Some (JList l, r')
                | None => None
                end
            end
          else if Ascii.eqb c "{" then
            match next_is "}" r with
            | Some r' => Some (JObj [], r')
            | None =>
                match parse_members f r with
                | Some (d, r') => Some (JObj (dict_of_pairs d), r')
                | None => None
                end
            end
          else parse_number (String c r)
      end
  end
with parse_items (fuel : nat) (s : string) {struct fuel}
    : option (list json * string) :=
  match fuel with
  | O => None
  | S f =>
      match parse_value f s with
      | Some (v, r) =>
          match next_is "," r with
          | Some r' =>
              match parse_items f r' with
              | Some (l, r'') => Some (v :: l, r'')
              | None => None
              end
          | None =>
              match next_is "]" r with
              | Some r' => Some ([v], r')
              | None => None
              end
          end
      | None => None
      end
  end
with parse_members (fuel : nat) (s : string) {struct fuel}
    : option (dict * string) :=
  match fuel with
  | O => None
  | S f =>
      match next_is DQ s with
      | Some r =>
          match scan_string r with
          | Some (k, r1) =>
              match next_is ":" r1 with
              | Some r2 =>
                  match parse_value f r2 with
                  | Some (v, r3) =>
                      match next_is "," r3 with
                      | Some r4 =>
                          match parse_members f r4 with
                          | Some (d, r5) => Some ((k, v) :: d, r5)
                          | None => None
                          end
                      | None =>
                          match next_is "}" r3 with
                          | Some r4 => Some ([(k, v)], r4)
                          | None => None
                          end
                      end
                  | None => None
                  end
              | None => None
              end
          | None => None
          end
      | None => None
      end
  end.

(** [v] is read back from what [dumps_at] prints for it, whatever the
    indentation and whatever follows it. *)
Definition parses (v : json) : Prop :=
  forall indent level rest fuel,
    ends_value rest = true ->
    (2 * String.length (dumps_at indent level v ++ rest) < fuel)%nat ->
    parse_value fuel (dumps_at indent level v ++ rest) = Some (v, rest).

(** The whole text must be one value, white space around it allowed. *)
Definition json_loads (s : string) : result json :=
  match parse_value (2 * String.length s + 2) s with
  | Some (v, rest) =>
      match skip_ws rest with
      | EmptyString => Ok v
      | _ => Raise (LibraryError "json: extra data")
      end
  | None => Raise (LibraryError "json: no value")
  end.

End PyRef.

Module PyRefBytes.
Import PyRef.

(** ** [str.encode()] and [bytes.decode()]: UTF-8, code points below 256.
    Byte strings are handled as strings whose characters are the bytes. *)

Definition utf8_encode_char (c : ascii) : string :=
  let n := nat_of_ascii c in
  if (n <? 128)%nat then String c ""
  else String (ascii_of_nat (192 + n / 64))
         (String (ascii_of_nat (128 + n mod 64)) "").

Fixpoint utf8_encode (s : string) : string :=
  match s with
  | EmptyString => EmptyString
  | String c s' => utf8_encode_char c ++ utf8_encode s'
  end.

Definition opt_cons (c : ascii) (r : option string) : option string :=
  match r with
  | Some s => Some (String c s)
  | None => None
  end.

(** Strict: one byte below 128, or the lead byte [0xC2] or [0xC3] and one
    continuation byte.  Anything else is malformed or encodes a code point
    this model does not have. *)
Fixpoint utf8_decode (b : string) : option string :=
  match b with
  | EmptyString => Some EmptyString
  | String c r =>
      let n := nat_of_ascii c in
      if (n <? 128)%nat then opt_cons c (utf8_decode r)
      else if ((n =? 194) || (n =? 195))%nat then
        match r with
        | String c2 r' =>
            let m := nat_of_ascii c2 in
            if ((128 <=? m) && (m <? 192))%nat
            then opt_cons (ascii_of_nat ((n - 192) * 64 + (m - 128)))
                   (utf8_decode r')
            else None
        | EmptyString => None
        end
      else None
  end.

(** Every character is below 128. *)
Fixpoint all_ascii (s : string) : bool :=
  match s with
  | EmptyString => true
  | String c s' => (nat_of_ascii c <? 128)%nat && all_ascii s'
  end.

Definition str_encode (s : string) : result (list byte) :=
  Ok (list_byte_of_string (utf8_encode s)).

Definition bytes_decode (b : list byte) : result string :=
  match utf8_decode (string_of_list_byte b) with
  | Some s => Ok s
  | None => Raise (LibraryError "utf-8: cannot decode")
  end.

(** ** [base64.b85encode] and [base64.b85decode] *)

Definition b85_alphabet : string :=
  "0123456789ABCDEFGHIJKLMNOPQRSTUVWXYZabcdefghijklmnopqrstuvwxyz!#$%&()*+-;<=>?@^_`{|}~".

Definition b85_char (d : N) : ascii :=
  match String.get (N.to_nat d) b85_alphabet with
  | Some c => c
  | None => "0"%char
  end.

Fixpoint index_from (c : ascii) (s : string) (i : N) : option N :=
  match s with
  | EmptyString => None
  | String c' s' => if Ascii.eqb c c' then Some i else index_from c s' (i + 1)
  end.

Definition b85_digit (c : ascii) : option N := index_from c b85_alphabet 0.

(** The big-endian 32-bit word of four bytes. *)
Definition word_of (b0 b1 b2 b3 : ascii) : N :=
  ((N_of_ascii b0 * 256 + N_of_ascii b1) * 256 + N_of_ascii b2) * 256
  + N_of_ascii b3.

Definition bytes_of_word (w : N) : string :=
  String (ascii_of_N (w / 16777216))
    (String (ascii_of_N ((w / 65536) mod 256))
       (String (ascii_of_N ((w / 256) mod 256))
          (String (ascii_of_N (w mod 256)) ""))).

Definition enc_word (w : N) : string :=
  String (b85_char (w / 52200625))
    (String (b85_char ((w / 614125) mod 85))
       (String (b85_char ((w / 7225) mod 85))
          (String (b85_char ((w / 85) mod 85))
             (String (b85_char (w mod 85)) "")))).

Definition dec_word (c0 c1 c2 c3 c4 : ascii) : option string :=
  match b85_digit c0, b85_digit c1, b85_digit c2, b85_digit c3, b85_digit c4 with
  | Some d0, Some d1, Some d2, Some d3, Some d4 =>
      let v := ((((d0 * 85 + d1) * 85 + d2) * 85 + d3) * 85 + d4)%N in
      if (v <? 4294967296)%N then Some (bytes_of_word v) else None
  | _, _, _, _, _ => None
  end.

Definition zero_byte : ascii := ascii_of_nat 0.
Definition tilde : ascii := "~"%char.

(** The input is padded with zero bytes to whole words; as many characters
    as bytes were added are then dropped from the end. *)
Fixpoint b85enc (b : string) : string :=
  match b with
  | EmptyString => EmptyString
  | String b0 EmptyString =>
      String.substring 0 2 (enc_word (word_of b0 zero_byte zero_byte zero_byte))
  | String b0 (String b1 EmptyString) =>
      String.substring 0 3 (enc_word (word_of b0 b1 zero_byte zero_byte))
  | String b0 (String b1 (String b2 EmptyString)) =>
      String.substring 0 4 (enc_word (word_of b0 b1 b2 zero_byte))
  | String b0 (String b1 (String b2 (String b3 r))) =>
      enc_word (word_of b0 b1 b2 b3) ++ b85enc r
  end.

Definition opt_take (n : nat) (r : option string) : option string :=
  match r with
  | Some s => Some (String.substring 0 n s)
  | None => None
  end.

(** The input is padded with [~] to whole groups; as many bytes as
    characters were added are then dropped from the end. *)
Fixpoint b85dec (s : string) : option string :=
  match s with
  | EmptyString => Some EmptyString
  | String c0 EmptyString => opt_take 0 (dec_word c0 tilde tilde tilde tilde)
  | String c0 (String c1 EmptyString) =>
      opt_take 1 (dec_word c0 c1 tilde tilde tilde)
  | String c0 (String c1 (String c2 EmptyString)) =>
      opt_take 2 (dec_word c0 c1 c2 tilde tilde)
  | String c0 (String c1 (String c2 (String c3 EmptyString))) =>
      opt_take 3 (dec_word c0 c1 c2 c3 tilde)
  | String c0 (String c1 (String c2 (String c3 (String c4 r)))) =>
      match dec_word c0 c1 c2 c3 c4, b85dec r with
      | Some w, Some t => Some (w ++ t)
      | _, _ => None
      end
  end.

Definition b85encode (b : list byte) : list byte :=
  list_byte_of_string (b85enc (string_of_list_byte b)).

Definition b85decode (b : list byte) : result (list byte) :=
  match b85dec (string_of_list_byte b) with
  | Some s => Ok (list_byte_of_string s)
  | None => Raise (LibraryError "base85: bad character or overflow")
  end.

(** ** [gzip]: the input stored behind the magic number *)

Definition gzip_magic : list byte := [x1f; x8b].

Definition gzip_compress (b : list byte) : list byte :=
  (gzip_magic ++ b)%list.

Definition gzip_decompress (b : list byte) : result (list byte) :=
  match b with
  | x1f :: x8b :: data => Ok data
  | _ => Raise (LibraryError "gzip: not a gzipped file")
  end.

(** ** pydantic: fields declared [int] and [str], in lax mode *)

Definition validate_int (v : json) : option Z :=
  match v with
  | JInt n => Some n
  | JBool b => Some (if b then 1 else 0)
  | JStr s =>
      match NilZero.int_of_string s with
      | Some i => Some (Z.of_int i)
      | None => None
      end
  | _ => None
  end.

Definition validate_str (v : json) : option string :=
  match v with
  | JStr s => Some s
  | _ => None
  end.

(** ** [datetime]: [YYYY-MM-DDTHH:MM...] shown as [YYYY.MM.DD HH:MM] *)

Definition is_digit (c : ascii) : bool :=
  let n := nat_of_ascii c in ((48 <=? n) && (n <=? 57))%nat.

(** [shape] is matched by a prefix of [s]: a [d] stands for a digit, any
    other character for itself. *)
Fixpoint has_shape (shape s : string) : bool :=
  match shape, s with
  | EmptyString, _ => true
  | String p shape', String c s' =>
      (if Ascii.eqb p "d" then is_digit c else Ascii.eqb p c)
      && has_shape shape' s'
  | String _ _, EmptyString => false
  end.

Definition isoformat_to_display (s : string) : option string :=
  if has_shape "dddd-dd-ddTdd:dd" s
  then Some (String.substring 0 4 s ++ "." ++ String.substring 5 2 s ++ "."
             ++ String.substring 8 2 s ++ " " ++ String.substring 11 5 s)
  else None.

(** ** A note template: author, page and comment on one line *)

Definition render_note_template (ctx : NoteContext) : result string :=
  Ok (ctx_author ctx ++ " - p. " ++ Py.str_of_int (ctx_page ctx) ++ ": "
      ++ ctx_comment ctx ++ NL).

End PyRefBytes.

(** The reference library. *)
Definition RefLib : PyLib :=
  {| json_dumps := PyRef.json_dumps;
     json_dumps_indent2 := PyRef.json_dumps_indent2;
     json_loads := PyRef.json_loads;
     gzip_compress := PyRefBytes.gzip_compress;
     gzip_decompress := PyRefBytes.gzip_decompress;
     b85encode := PyRefBytes.b85encode;
     b85decode := PyRefBytes.b85decode;
     str_encode := PyRefBytes.str_encode;
     bytes_decode := PyRefBytes.bytes_decode;
     isoformat_to_display := PyRefBytes.isoformat_to_display;
     validate_int := PyRefBytes.validate_int;
     validate_str := PyRefBytes.validate_str;
     render_note_template := PyRefBytes.render_note_template |}.

(** [getattr(other_anno, "inReplyToId", None)] *)
Definition reply_to (other_anno : Annotation) : json :=
  match getattr_extra other_anno "inReplyToId" with
  | Some v => v
  | None => JNull
  end.

(** What deleting [annotation], whose domain id is [id], removes: the
    record with its [db_id], and the records on its page that reply to
    [id]. *)
Definition removed_with (annotation : Annotation) (id : json)
    (other_anno : Annotation) : bool :=
  opt_Z_eqb (db_id other_anno) (db_id annotation)
  || on_page (Some (pageIndex annotation)) other_anno
     && py_eq (reply_to other_anno) id.

Section Contract.
Context {L : PyLib} {SV : Service}.

(** What the orchestration layer relies on from a backend, in a state that
    is [good] for a document: [stored] lists the annotations of the
    document as [get_annotations] yields them, each under its own [db_id];
    listing changes none of that; deleting a listed [db_id] succeeds and
    removes exactly the record that carries it. *)
Record storage_contract (st : AnnoStorage) (good : Z -> World -> Prop)
    (stored : Z -> World -> list Annotation) : Prop := {
  contract_ids :
    forall doc w, good doc w -> NoDup (map db_id (stored doc w));
  contract_get :
    forall doc page w, good doc w ->
      exists w',
        get_annotations st doc page w
        = Some (Ok (filter (on_page page) (stored doc w), None), w')
        /\ good doc w' /\ stored doc w' = stored doc w;
  contract_delete :
    forall doc a w, good doc w -> In a (stored doc w) ->
      exists w',
        delete_annotation_by_id st doc (db_id a) w = Some (Ok true, w')
        /\ good doc w'
        /\ stored doc w'
           = filter (fun o => negb (opt_Z_eqb (db_id o) (db_id a)))
               (stored doc w)
}.

End Contract.

Section Stored.
Context {L : PyLib} {SV : Service}.

(** The annotation a row gives when it is listed. *)
Definition row_yields (row : DbAnnotation) : list Annotation :=
  match Annotation_init (DbAnnotation_anno_obj row) with
  | Ok a => [set_db_id (Some (DbAnnotation_id row)) a]
  | Raise _ => []
  end.

(** The annotations the table holds for a document. *)
Definition db_stored (doc : Z) (w : World) : list Annotation :=
  flat_map row_yields
    (filter (fun row => DbAnnotation_doc_id row =? doc) (table w)).

(** The table as [DatabaseAnnotationStorage] keeps it: primary keys are
    unique, and every row of the document holds an annotation that
    validates, with its page in the [page_index] column. *)
Definition db_good (doc : Z) (w : World) : Prop :=
  NoDup (map DbAnnotation_id (table w))
  /\ forall row, In row (table w) -> DbAnnotation_doc_id row = doc ->
       exists a, Annotation_init (DbAnnotation_anno_obj row) = Ok a
                 /\ DbAnnotation_page_index row = Some (pageIndex a).

End Stored.

Section MemStored.
Context {L : PyLib}.

(** The annotations the reference service holds for a document, as notes. *)
Definition mem_stored (doc : Z) (w : World (SV := MemService))
    : list Annotation :=
  flat_map (note_yields None) (Mem.notes_of doc (svc w)).

(** The document exists, its notes have distinct ids, and no request is
    scripted to fail. *)
Definition mem_good (doc : Z) (w : World (SV := MemService)) : Prop :=
  Mem.faults (svc w) = []
  /\ Mem.has_doc doc (svc w) = true
  /\ NoDup (map Note_id (Mem.notes_of doc (svc w))).

End MemStored.

(** The reference service numbers its notes: ids are distinct and below
    the next id to be given. *)
Definition mem_notes_wf (s : Mem.state) : Prop :=
  NoDup (map (fun dn => Note_id (snd dn)) (Mem.notes s))
  /\ forall dn, In dn (Mem.notes s) -> Note_id (snd dn) < Mem.next_note s.

(** Every request of [t] succeeded. *)
Definition clean (t : list (Request * bool)) : bool := forallb snd t.

(** The requests [t] sent by a run that ended with [r]: either all
    succeeded, or all but the last did and the run raised the client's
    error. *)
Definition failure_is_last {A : Type} (r : result A)
    (t : list (Request * bool)) : Prop :=
  clean t = true
  \/ exists pre rq, t = (pre ++ [(rq, false)])%list /\ clean pre = true
                    /\ r = Raise PaperlessAPIError.

(** A computation that sends requests and stops at the first that fails. *)
Definition stops_at_failure {SV : Service} {A : Type} (m : M A) : Prop :=
  forall w r w',
    m w = Some (r, w') ->
    exists t, trace w' = (trace w ++ t)%list /\ failure_is_last r t.


(** The documents the requests [t] delete a note of, in order. *)
Definition deleted_docs (t : list (Request * bool)) : list Z :=
  flat_map (fun sent => match fst sent with
                        | DeleteNote doc_id _ => [doc_id]
                        | _ => []
                        end) t.



(** The state a run ends in; the state it started in when it is cut
    off. *)
Definition final_state {SV : Service} {A : Type} (m : M A) (w : World)
    : World :=
  match m w with
  | Some (_, w') => w'
  | None => w
  end.

Section Frame.
Context {SV : Service}.

(** What a backend leaves alone: listing changes nothing for any document,
    and deleting a record of one document changes nothing for the
    others. *)
Record storage_frame (st : AnnoStorage) (good : Z -> World -> Prop)
    (stored : Z -> World -> list Annotation) : Prop := {
  frame_get :
    forall doc page w r w' d,
      get_annotations st doc page w = Some (r, w') ->
      good d w -> good d w' /\ stored d w' = stored d w;
  frame_delete :
    forall doc i w r w' d,
      delete_annotation_by_id st doc i w = Some (r, w') ->
      d <> doc ->
      good d w -> good d w' /\ stored d w' = stored d w
}.

(** Listing the documents changes nothing for any document. *)
Definition listing_transparent (good : Z -> World -> Prop)
    (stored : Z -> World -> list Annotation) (fuel : nat) : Prop :=
  forall w r w' d,
    documents_iter fuel 1 w = Some (r, w') ->
    good d w -> good d w' /\ stored d w' = stored d w.

End Frame.

(* ===================================================================== *)
(** * Two sentences of the specification, as statements *)
(* ===================================================================== *)


(** Section 4.4: when the one request that fails is a deletion on document
    [doc_n], every other document the service holds and the call does not
    skip is still left without annotations. *)
Definition goes_on_after_failure {L : PyLib} (self : AnnoSerializer)
    (fuel : nat) (docs_to_skip : list Z) (w : World (SV := MemService))
    : Prop :=
  forall r w' pre doc_n i post d,
    PaperlessAnnotator_delete_all_annotations (PaperlessNotesStorage self)
      fuel (Some docs_to_skip) w = Some (r, w') ->
    trace w' = (trace w ++ pre ++ (DeleteNote doc_n i, false) :: post)%list ->
    clean pre = true -> clean post = true ->
    Mem.has_doc d (svc w) = true -> d <> doc_n -> ~ In d docs_to_skip ->
    mem_stored d w' = [].

(* ===================================================================== *)
(** * Example data *)
(* ===================================================================== *)

(** Annotations, tables and states of the reference service on which the
    definitions above are run, with the reference library calls. *)
Module Example.

#[local] Existing Instance RefLib.

Definition settings : Settings :=
  {| ANNO_SERIALIZER := "ji2";
     ANNO_STORAGE := "paperless_notes";
     BASE_URL := "http://h";
     CUSTOM_FIELD_NAME := "Annotations" |}.

(** A thread on one document: [B] and [C] reply to [A] on its page, [D]
    replies to [A] from another page, [E] replies to [B]. *)
Definition anno (id : string) (page : Z) (in_reply_to : option string)
    : Annotation :=
  mkAnnotation "2024-01-02T03:04:05" "ann" 1 page None (Some "text")
    (("id", JStr id)
       :: match in_reply_to with
          | Some parent => [("inReplyToId", JStr parent)]
          | None => []
          end).

Definition A : Annotation := anno "a" 0 None.
Definition B : Annotation := anno "b" 0 (Some "a").
Definition C : Annotation := anno "c" 0 (Some "a").
Definition D : Annotation := anno "d" 1 (Some "a").
Definition E : Annotation := anno "e" 0 (Some "b").

(** An annotation whose comment is the BEGIN delimiter. *)
Definition colliding : Annotation :=
  mkAnnotation "2024-01-02T03:04:05" "ann" 1 0 None
    (Some ANNOTATION_CONTENT_BEGIN) [].

(** Notes: one without delimiters, one that names a serializer nobody
    registered. *)
Definition plain_note : string := "see page 3".

Definition foreign_note : string :=
  "ann - p. 1: text" ++ NL
  ++ ANNOTATION_CONTENT_BEGIN ++ NL
  ++ "zz9" ++ NL
  ++ "payload" ++ NL
  ++ ANNOTATION_CONTENT_END.

(** The row [create_annotation] of the database backend stores. *)
Definition row (pk doc_id : Z) (a : Annotation) : DbAnnotation :=
  mkDbAnnotation pk doc_id 0 (Some (pageIndex a)) (JObj (model_dump a)).

(** A row whose stored object is not a mapping. *)
Definition bad_row (pk doc_id : Z) : DbAnnotation :=
  mkDbAnnotation pk doc_id 0 (Some 0) (JList []).

(** The note [create_annotation] of the note backend stores. *)
Definition note_text (a : Annotation) : string :=
  match _anno_to_note_content JsonSerializer a with
  | Ok content => content
  | Raise _ => ""
  end.

Definition plain_doc (doc_id : Z) : Document := mkDocument doc_id [].

(** Two documents, each with one annotation note. *)
Definition service (faults : list bool) : Mem.state :=
  Mem.mk [plain_doc 1; plain_doc 2] [plain_doc 1; plain_doc 2] false
    [(1, mkNote 1 (note_text A)); (2, mkNote 2 (note_text B))] 3
    [] 1 10 faults.

(** One document without the link field, behind an index that is fresh or
    stale. *)
Definition link_service (stale : bool) : Mem.state :=
  Mem.mk [plain_doc 1] [plain_doc 1] stale [] 1 [] 1 10 [].

(** One document with a link under another base URL. *)
Definition moved_service : Mem.state :=
  let doc := mkDocument 1
               [mkCustomFieldInstance (Some (JStr "http://old/view/1")) 1] in
  Mem.mk [doc] [doc] false [] 1 [mkCustomField 1 "Annotations" "url"] 2 10 [].

Definition world (s : Mem.state) (rows : list DbAnnotation)
    : World (SV := MemService) :=
  mkWorld (SV := MemService) s [] rows
    (1 + Z.of_nat (List.length rows)) [].

(** The thread in the table, and the thread around a malformed row. *)
Definition thread_table : list DbAnnotation :=
  [row 1 1 A; row 2 1 B; row 3 1 C; row 4 1 D; row 5 1 E].

Definition broken_table : list DbAnnotation :=
  [row 1 1 A; bad_row 2 1; row 3 1 B].

End Example.

(* ===================================================================== *)
(** * The rest of the client, of the link engine and of the callers *)
(* ===================================================================== *)

(** [s.lstrip(chars)] and [s.rstrip(chars)] *)
Definition in_chars (c : ascii) (chars : string) : bool :=
  existsb (Ascii.eqb c) (list_ascii_of_string chars).


Fixpoint rstrip_chars (chars s : string) : string :=
  match s with
  | EmptyString => EmptyString
  | String c s' =>
      match rstrip_chars chars s' with
      | EmptyString =>
          if in_chars c chars then EmptyString else String c EmptyString
      | r => String c r
      end
  end.




Section ClientRest.
Context {SV : Service}.
Local Open Scope monad_scope.

(** [delete_custom_field_from_document]: the document is returned as it
    is, without a request, when filtering removed nothing. *)
Definition delete_custom_field_from_document (doc : Document)
    (custom_field_id : Z) : M Document :=
  let doc_cf_instances := Document_custom_fields doc in
  let filtered :=
    filter (fun inst => negb (CustomFieldInstance_field inst =? custom_field_id))
      doc_cf_instances in
  if (List.length filtered =? List.length doc_cf_instances)%nat then ret doc
  else
    payload <- _request (PatchCustomFields (Document_id doc) filtered) ;;
    match payload with
    | RDocument updated_doc => ret updated_doc
    | _ => raise ValidationError
    end.

End ClientRest.

Section LinkRest.
Context {SV : Service} {cfg : Settings}.
Local Open Scope monad_scope.





End LinkRest.

(** The table as [DatabaseAnnotationStorage] keeps it, for every document:
    primary keys are distinct and below the next one, and every row holds
    an annotation that validates, with its page in the [page_index]
    column. *)
Definition db_wf {L : PyLib} {SV : Service} (w : World) : Prop :=
  NoDup (map DbAnnotation_id (table w))
  /\ (forall row, In row (table w) -> DbAnnotation_id row < next_pk w)
  /\ forall row, In row (table w) ->
       exists a, Annotation_init (DbAnnotation_anno_obj row) = Ok a
                 /\ DbAnnotation_page_index row = Some (pageIndex a).

(** The requests for the pages [page], [page + 1], ... ([n] of them), each
    answered. *)
Definition pages_from (rq : Z -> Request) (page : Z) (n : nat)
    : list (Request * bool) :=
  map (fun k => (rq (page + Z.of_nat k), true)) (seq 0 n).




(** Further example data. *)
Module Sample.

(** Three documents behind pages of two. *)
Definition paged_service : Mem.state :=
  Mem.mk [Example.plain_doc 1; Example.plain_doc 2; Example.plain_doc 3]
    [Example.plain_doc 1; Example.plain_doc 2; Example.plain_doc 3]
    false [] 1 [] 1 2 [].


(** A document with an instance of another field and one of the link
    field. *)
Definition linked_doc : Document :=
  mkDocument 1
    [mkCustomFieldInstance (Some (JStr "x")) 7;
     mkCustomFieldInstance (Some (JStr "http://old/view/1")) 1].

(** An annotation without extension fields, so without a domain [id]. *)
Definition bare : Annotation :=
  mkAnnotation "2024-01-02T03:04:05" "ann" 1 0 None (Some "text") [].

Definition bare_table : list DbAnnotation :=
  [Example.row 1 1 bare; Example.row 2 1 Example.B].



End Sample.

(** A service that stores nothing: it answers every request that adds a
    note with an empty list, and fails the others. *)
Definition silent_service : Service :=
  {| svc_state := unit;
     respond := fun rq s =>
       (match rq with
        | PostNote _ _ => Some (RNotes [])
        | _ => None
        end, s) |}.

(* ===================================================================== *)
(** A computation all of whose requests satisfy [Q], however it ends. *)
Definition all_sent {SV : Service} {A : Type} (Q : Request * bool -> Prop)
    (m : M A) : Prop :=
  forall w r w', m w = Some (r, w') ->
    exists t, trace w' = (trace w ++ t)%list /\ Forall Q t.

(** A request that, when it is a patch, gives the document a link to its
    own page: the value of the fill-missing loop or that of the repair
    loop, built from the id of the patched document. *)
Definition sets_own_link {cfg : Settings} (sent : Request * bool) : Prop :=
  match fst sent with
  | PatchCustomFields doc_id instances =>
      exists custom_field_id value,
        In (mkCustomFieldInstance (Some (JStr value)) custom_field_id)
          instances
        /\ (value = BASE_URL ++ reverse_view_document doc_id
            \/ value = BASE_URL ++ "/" ++ reverse_view_document doc_id)
  | _ => True
  end.

(** A request that, when it deletes a note, does so on a document outside
    [docs_to_skip]. *)
Definition spares (docs_to_skip : list Z) (sent : Request * bool) : Prop :=
  match fst sent with
  | DeleteNote doc_id _ => ~ In doc_id docs_to_skip
  | _ => True
  end.

(** A request that, when it is a patch, is for a document outside
    [docs_to_skip]. *)
Definition patches_outside (docs_to_skip : list Z) (sent : Request * bool)
    : Prop :=
  match fst sent with
  | PatchCustomFields doc_id _ => ~ In doc_id docs_to_skip
  | _ => True
  end.

(** One document without the link field, on a service that fails the
    fourth request. *)
Definition failing_link_service : Mem.state :=
  Mem.mk [Example.plain_doc 1] [Example.plain_doc 1] false [] 1 [] 1 10
    [false; false; false; true].

(** * Properties *)
(* ===================================================================== *)

(** ** Running a computation *)

Lemma bind_run {SV : Service} {A B : Type} (m : M A) (k : A -> M B)
    (w : World) :
  bind m k w
  = match m w with
    | None => None
    | Some (Ok a, w') => k a w'
    | Some (Raise e, w') => Some (Raise e, w')
    end.
Proof. reflexivity. Qed.

(** ** Strings *)

Lemma append_nil_r (s : string) : s ++ "" = s.
Proof. induction s; simpl; congruence. Qed.

Lemma append_assoc (a b c : string) : (a ++ b) ++ c = a ++ (b ++ c).
Proof. induction a; simpl; congruence. Qed.

Lemma startswith_iff (p s : string) :
  Py.startswith p s = true <-> exists post, s = p ++ post.
Proof.
  unfold Py.startswith. revert s.
  induction p as [|c p IH]; intros s; simpl.
  - split; [intros _; exists s; reflexivity | intros _; destruct s; reflexivity].
  - destruct s as [|d s].
    + split; [discriminate | intros [post H]; discriminate].
    + simpl. destruct (Ascii.ascii_dec c d) as [->|Hne].
      * rewrite IH. split; intros [post H]; exists post; congruence.
      * split; [discriminate | intros [post H]; congruence].
Qed.

Lemma startswith_app (a p s : string) :
  Py.startswith (a ++ p) (a ++ s) = Py.startswith p s.
Proof.
  unfold Py.startswith.
  induction a as [|c a IH]; simpl; [reflexivity|].
  destruct (Ascii.ascii_dec c c); [assumption | congruence].
Qed.

Lemma occurs_cons (sub : string) (c : ascii) (s : string) :
  Py.startswith sub (String c s) = false ->
  (occurs sub (String c s) <-> occurs sub s).
Proof.
  intros Hp. split; intros (pre & post & H).
  - destruct pre as [|d pre].
    + assert (Py.startswith sub (String c s) = true)
        by (apply startswith_iff; exists post; exact H).
      congruence.
    + simpl in H. injection H as _ H. exists pre, post. exact H.
  - exists (String c pre), post. simpl. congruence.
Qed.

Lemma find_from_spec (sub s : string) (i : Z) :
  0 <= i ->
  (Py.find_from sub s i = -1 <-> ~ occurs sub s) /\
  (Py.find_from sub s i = -1 \/ i <= Py.find_from sub s i).
Proof.
  revert i. induction s as [|c s IH]; intros i Hi; cbn [Py.find_from].
  - destruct (Py.startswith sub "") eqn:Hp.
    + split; [|right; lia].
      split; [intros ? ?; lia|]. intros H. exfalso. apply H.
      apply startswith_iff in Hp. destruct Hp as [post Hp].
      exists "", post. exact Hp.
    + split; [|left; reflexivity].
      split; [|reflexivity]. intros _ (pre & post & H).
      destruct pre; [|discriminate]. simpl in H.
      assert (Py.startswith sub "" = true)
        by (apply startswith_iff; exists post; exact H).
      congruence.
  - destruct (Py.startswith sub (String c s)) eqn:Hp.
    + split; [|right; lia].
      split; [intros ? ?; lia|]. intros H. exfalso. apply H.
      apply startswith_iff in Hp. destruct Hp as [post Hp].
      exists "", post. exact Hp.
    + destruct (IH (i + 1)) as [IH1 IH2]; [lia|].
      split; [|destruct IH2; [left; assumption | right; lia]].
      rewrite IH1. pose proof (occurs_cons sub c s Hp) as Hc. tauto.
Qed.

(** [s.find(sub)] is [-1] exactly when [sub] does not occur in [s]. *)
Lemma find_absent (sub s : string) :
  Py.find sub s = -1 <-> ~ occurs sub s.
Proof. unfold Py.find. apply find_from_spec. lia. Qed.

Lemma find_from_present (sub s : string) (i : Z) :
  Py.find_from sub s i <> -1 -> occurs sub s.
Proof.
  revert i. induction s as [|c s IH]; intros i; cbn [Py.find_from].
  - destruct (Py.startswith sub "") eqn:Hp; [|tauto].
    intros _. apply startswith_iff in Hp. destruct Hp as [post Hp].
    exists "", post. exact Hp.
  - destruct (Py.startswith sub (String c s)) eqn:Hp.
    + intros _. apply startswith_iff in Hp. destruct Hp as [post Hp].
      exists "", post. exact Hp.
    + intros H. apply (occurs_cons sub c s Hp). apply (IH (i + 1)). exact H.
Qed.

(** [sub in s] holds exactly when [sub] occurs in [s]. *)
Lemma contains_iff (sub s : string) :
  Py.contains sub s = true <-> occurs sub s.
Proof.
  unfold Py.contains. rewrite negb_true_iff, Z.eqb_neq. split.
  - apply find_from_present.
  - intros H E. apply find_absent in E. tauto.
Qed.

Lemma contains_false_iff (sub s : string) :
  Py.contains sub s = false <-> ~ occurs sub s.
Proof.
  rewrite <- contains_iff. destruct (Py.contains sub s); split; congruence.
Qed.

(** ** The serializer registry *)

Lemma registered_names_eq {L : PyLib} : registered_names = ["85gj"; "ji2"].
Proof. reflexivity. Qed.

Lemma get_serializer_by_name_unknown {L : PyLib} (name : string) :
  ~ In name registered_names ->
  get_serializer_by_name name = Raise (ValueError (unknown_serializer_message name)).
Proof.
  intros H. unfold get_serializer_by_name, subclasses.
  cbn [List.find NAME Base85GzipJSONSerializer JsonSerializer].
  destruct (String.eqb_spec "85gj" name) as [E|_];
    [exfalso; apply H; rewrite <- E; simpl; auto|].
  destruct (String.eqb_spec "ji2" name) as [E|_];
    [exfalso; apply H; rewrite <- E; simpl; auto|].
  reflexivity.
Qed.

Lemma get_serializer_by_name_known {L : PyLib} (name : string) :
  In name registered_names ->
  exists S, get_serializer_by_name name = Ok S /\ In S subclasses /\ NAME S = name.
Proof.
  simpl. intros [<-|[<-|[]]].
  - exists Base85GzipJSONSerializer. simpl. auto.
  - exists JsonSerializer. simpl. auto.
Qed.

(** The message of the error names every registered serializer. *)
Lemma unknown_serializer_message_enumerates {L : PyLib} (name known : string) :
  In known registered_names -> occurs known (unknown_serializer_message name).
Proof.
  unfold unknown_serializer_message. simpl. intros [<-|[<-|[]]].
  - exists ("Serializer with name '" ++ name ++ "' not found. Known serializers: "),
      ", ji2".
    rewrite !append_assoc. reflexivity.
  - exists ("Serializer with name '" ++ name
            ++ "' not found. Known serializers: 85gj, "), "".
    rewrite !append_assoc. reflexivity.
Qed.

(** ** Decoding a note *)

Lemma note_without_delimiter {L : PyLib} (note_content : string) :
  ~ occurs ANNOTATION_CONTENT_BEGIN note_content
  \/ ~ occurs ANNOTATION_CONTENT_END note_content ->
  _note_content_to_anno note_content = Ok None.
Proof.
  intros H. unfold _note_content_to_anno.
  destruct H as [H|H]; apply find_absent in H; rewrite H; simpl.
  - reflexivity.
  - rewrite orb_true_r. reflexivity.
Qed.

Lemma note_with_unknown_serializer {L : PyLib} (note_content name : string) :
  occurs ANNOTATION_CONTENT_BEGIN note_content ->
  occurs ANNOTATION_CONTENT_END note_content ->
  declared_serializer_name note_content = Some name ->
  name <> "" ->
  ~ In name registered_names ->
  _note_content_to_anno note_content
  = Raise (ValueError (unknown_serializer_message name)).
Proof.
  intros Hb He Hn Hne Hun. unfold _note_content_to_anno.
  destruct (Py.find ANNOTATION_CONTENT_BEGIN note_content =? -1) eqn:Eb.
  { apply Z.eqb_eq, find_absent in Eb. tauto. }
  destruct (Py.find ANNOTATION_CONTENT_END note_content =? -1) eqn:Ee.
  { apply Z.eqb_eq, find_absent in Ee. tauto. }
  cbn [orb]. unfold declared_serializer_name, data_area in Hn.
  destruct (Py.splitlines _) as [|first_line payload_lines]; [discriminate|].
  injection Hn as Hn. rewrite Hn.
  destruct (String.eqb_spec name "") as [E|_]; [tauto|].
  rewrite (get_serializer_by_name_unknown name Hun). reflexivity.
Qed.

(** C2.  A note in which the BEGIN or the END delimiter does not occur
    decodes to [None] without an error; a note in which both occur and whose
    first line between them is a non-empty name that no serializer is
    registered under makes the decoder raise the unknown-serializer error,
    whose message names every registered serializer. *)
Theorem decode_discrimination {L : PyLib} (note_content : string) :
  (~ occurs ANNOTATION_CONTENT_BEGIN note_content
   \/ ~ occurs ANNOTATION_CONTENT_END note_content ->
   _note_content_to_anno note_content = Ok None)
  /\
  (forall name,
     occurs ANNOTATION_CONTENT_BEGIN note_content ->
     occurs ANNOTATION_CONTENT_END note_content ->
     declared_serializer_name note_content = Some name ->
     name <> "" ->
     ~ In name registered_names ->
     exists e,
       _note_content_to_anno note_content = Raise e
       /\ is_UnknownSerializer e
       /\ e = ValueError (unknown_serializer_message name)
       /\ forall known, In known registered_names ->
                        occurs known (unknown_serializer_message name)).
Proof.
  split.
  - apply note_without_delimiter.
  - intros name Hb He Hn Hne Hun.
    exists (ValueError (unknown_serializer_message name)).
    split; [apply note_with_unknown_serializer; assumption|].
    split; [exists name; reflexivity|].
    split; [reflexivity|].
    intros known Hk. apply unknown_serializer_message_enumerates. exact Hk.
Qed.

(** ** Encoding a note *)

Lemma append_last_inj (s t : string) (c d : ascii) :
  s ++ String c "" = t ++ String d "" -> s = t /\ c = d.
Proof.
  revert t. induction s as [|x s IH]; intros [|y t] H; simpl in H.
  - injection H as H. auto.
  - injection H as _ H. destruct t; discriminate.
  - injection H as _ H. destruct s; discriminate.
  - injection H as Hxy H. apply IH in H. destruct H. split; congruence.
Qed.

Lemma string_last_cases (s : string) :
  s = "" \/ exists s' c, s = s' ++ String c "".
Proof.
  induction s as [|x s IH]; [left; reflexivity|right].
  destruct IH as [->|(s' & c & ->)].
  - exists "", x. reflexivity.
  - exists (String x s'), c. reflexivity.
Qed.

(** A delimiter that does not end in a line feed occurs in [payload + "\n"]
    only where it occurs in [payload]. *)
Lemma occurs_before_newline (d' : string) (c : ascii) (payload : string) :
  c <> ascii_of_nat 10 ->
  (occurs (d' ++ String c "") (payload ++ NL)
   <-> occurs (d' ++ String c "") payload).
Proof.
  intros Hc. split; intros (pre & post & H).
  - destruct (string_last_cases post) as [->|(post' & x & ->)].
    + rewrite append_nil_r, <- append_assoc in H.
      apply append_last_inj in H. destruct H as [_ H]. congruence.
    + exists pre, post'.
      rewrite <- !append_assoc in H. apply append_last_inj in H.
      destruct H as [H _]. rewrite H, !append_assoc. reflexivity.
  - exists pre, (post ++ NL). rewrite H, !append_assoc. reflexivity.
Qed.

Lemma occurs_BEGIN_before_newline (payload : string) :
  occurs ANNOTATION_CONTENT_BEGIN (payload ++ NL)
  <-> occurs ANNOTATION_CONTENT_BEGIN payload.
Proof.
  apply (occurs_before_newline "------------ DATA BEGIN -----------" "-").
  discriminate.
Qed.

Lemma occurs_END_before_newline (payload : string) :
  occurs ANNOTATION_CONTENT_END (payload ++ NL)
  <-> occurs ANNOTATION_CONTENT_END payload.
Proof.
  apply (occurs_before_newline "------------ DATA END -----------" "-").
  discriminate.
Qed.

Lemma anno_to_note_content_collision {L : PyLib} (self : AnnoSerializer)
    (annotation : Annotation) (header payload : string) :
  serialize self (JObj (model_dump annotation)) = Ok payload ->
  _build_note_header annotation = Ok header ->
  occurs ANNOTATION_CONTENT_BEGIN header
  \/ occurs ANNOTATION_CONTENT_END header
  \/ occurs ANNOTATION_CONTENT_BEGIN payload
  \/ occurs ANNOTATION_CONTENT_END payload ->
  exists e, is_ReservedDelimiterCollision e
            /\ _anno_to_note_content self annotation = Raise e.
Proof.
  intros Hs Hh Hc. unfold _anno_to_note_content.
  rewrite Hs. cbn [rbind]. rewrite Hh. cbn [rbind].
  destruct (Py.contains ANNOTATION_CONTENT_BEGIN header
            || Py.contains ANNOTATION_CONTENT_END header) eqn:Eh.
  - exists header_collision. split; [left|]; reflexivity.
  - apply orb_false_iff in Eh. destruct Eh as [E1 E2].
    apply contains_false_iff in E1, E2.
    destruct (Py.contains ANNOTATION_CONTENT_BEGIN (payload ++ NL)
              || Py.contains ANNOTATION_CONTENT_END (payload ++ NL)) eqn:Ep.
    + exists payload_collision. split; [right|]; reflexivity.
    + apply orb_false_iff in Ep. destruct Ep as [E3 E4].
      apply contains_false_iff in E3, E4.
      rewrite occurs_BEGIN_before_newline in E3.
      rewrite occurs_END_before_newline in E4.
      tauto.
Qed.

(** C3.  When the rendered header or the serialized payload of an
    annotation contains the BEGIN or the END delimiter, encoding raises the
    reserved-delimiter error, and [create_annotation] of the note backend
    raises it with the state as it was: no request has been sent and the
    stored notes are unchanged. *)
Theorem delimiter_collision_fails_before_write {L : PyLib} {SV : Service}
    (self : AnnoSerializer) (doc_id : Z) (annotation : Annotation)
    (header payload : string) (w : World) :
  serialize self (JObj (model_dump annotation)) = Ok payload ->
  _build_note_header annotation = Ok header ->
  occurs ANNOTATION_CONTENT_BEGIN header
  \/ occurs ANNOTATION_CONTENT_END header
  \/ occurs ANNOTATION_CONTENT_BEGIN payload
  \/ occurs ANNOTATION_CONTENT_END payload ->
  exists e,
    is_ReservedDelimiterCollision e
    /\ _anno_to_note_content self annotation = Raise e
    /\ create_annotation (PaperlessNotesStorage self) doc_id annotation w
       = Some (Raise e, w).
Proof.
  intros Hs Hh Hc.
  destruct (anno_to_note_content_collision self annotation header payload
              Hs Hh Hc) as (e & He & Henc).
  exists e. split; [exact He|]. split; [exact Henc|].
  cbn [create_annotation PaperlessNotesStorage].
  unfold PaperlessNotesStorage_create_annotation, bind, lift.
  rewrite Henc. reflexivity.
Qed.

(** ** Round trip through the serializers *)

Lemma filter_all {A : Type} (f : A -> bool) (l : list A) :
  (forall x, In x l -> f x = true) -> filter f l = l.
Proof.
  induction l as [|a l IH]; intros H; simpl; [reflexivity|].
  rewrite (H a (or_introl eq_refl)), IH; [reflexivity|].
  intros x Hx. apply H. right. exact Hx.
Qed.

Lemma model_dump_wf (x : Annotation) :
  valid_annotation x -> json_wf (JObj (model_dump x)).
Proof.
  intros [[Hnd Hall] Hk]. unfold model_dump.
  assert (Hfix : forall k, str_in k FIELDS = true -> ~ In k (keys (extra x))).
  { intros k E Hin. apply Hk in Hin. congruence. }
  split.
  - cbn [map fst app].
    repeat (apply NoDup_cons;
            [cbn [In]; intros Hin;
             repeat (destruct Hin as [Hin|Hin]; [discriminate Hin|]);
             revert Hin; apply Hfix; reflexivity|]).
    exact Hnd.
  - cbn [app]. destruct (db_id x), (contents x); cbn; tauto.
Qed.

Lemma Annotation_of_model_dump {L : PyLib} (HL : PyLibLaws L) (x : Annotation) :
  valid_annotation x -> Annotation_init (JObj (model_dump x)) = Ok x.
Proof.
  intros [_ Hk]. cbn [Annotation_init]. unfold Annotation_of_dict.
  unfold field_required, field_default, field_optional.
  change (dict_get "created" (model_dump x)) with (Some (JStr (created x))).
  change (dict_get "author" (model_dump x)) with (Some (JStr (author x))).
  change (dict_get "type" (model_dump x)) with (Some (JInt (type x))).
  change (dict_get "pageIndex" (model_dump x)) with (Some (JInt (pageIndex x))).
  change (dict_get "db_id" (model_dump x))
    with (Some (json_of_opt_int (db_id x))).
  change (dict_get "contents" (model_dump x))
    with (Some (json_of_opt_str (contents x))).
  cbv beta iota. rewrite !validate_str_str, !validate_int_int. cbn [rbind].
  assert (Hf : filter (fun kv => negb (str_in (fst kv) FIELDS)) (model_dump x)
               = extra x).
  { unfold model_dump. rewrite filter_app.
    change (filter _ [_; _; _; _; _; _]) with (@nil (string * json)).
    cbn [app]. apply filter_all. intros [k v] Hin. cbn [fst].
    rewrite (Hk k); [reflexivity|]. apply (in_map fst) in Hin. exact Hin. }
  rewrite Hf.
  destruct x as [c a t p i s e]. cbn.
  destruct i as [i|]; cbn; [rewrite validate_int_int|];
    (destruct s as [s|]; cbn; [rewrite validate_str_str|]); reflexivity.
Qed.

Lemma JsonSerializer_roundtrip {L : PyLib} (HL : PyLibLaws L) (v : json) :
  json_wf v ->
  exists s, serialize JsonSerializer v = Ok s
            /\ deserialize JsonSerializer s = Ok v.
Proof.
  intros Hv. exists (json_dumps_indent2 v). split; [reflexivity|].
  apply json_loads_dumps_indent2. exact Hv.
Qed.

Lemma Base85GzipJSONSerializer_roundtrip {L : PyLib} (HL : PyLibLaws L)
    (v : json) :
  json_wf v ->
  exists s, serialize Base85GzipJSONSerializer v = Ok s
            /\ deserialize Base85GzipJSONSerializer s = Ok v.
Proof.
  intros Hv. cbn [serialize deserialize Base85GzipJSONSerializer].
  unfold Base85GzipJSONSerializer_serialize,
    Base85GzipJSONSerializer_deserialize.
  destruct (json_dumps_encodes v) as [b Hb].
  destruct (b85encode_decodes (gzip_compress b)) as [s Hs].
  exists s. rewrite Hb. cbn [rbind]. split; [exact Hs|].
  rewrite (str_encode_decode _ _ Hs). cbn [rbind].
  rewrite b85decode_encode. cbn [rbind].
  rewrite gzip_decompress_compress. cbn [rbind].
  rewrite (bytes_decode_encode _ _ Hb). cbn [rbind].
  apply json_loads_dumps. exact Hv.
Qed.


(** ** The reference JSON codec *)

Module PyRefFacts.
Import PyRef.

Lemma length_app (a b : string) :
  String.length (a ++ b) = (String.length a + String.length b)%nat.
Proof. induction a; simpl; congruence. Qed.

Lemma scan_escape_char (c : ascii) (t : string) :
  scan_string (escape_char c ++ t) = push c (scan_string t).
Proof.
  destruct c as [[] [] [] [] [] [] [] []]; reflexivity.
Qed.

Lemma scan_escape (s rest : string) :
  scan_string (escape s ++ String DQ rest) = Some (s, rest).
Proof.
  induction s as [|c s IH]; [reflexivity|].
  cbn [escape]. rewrite append_assoc, scan_escape_char, IH. reflexivity.
Qed.

Lemma scan_quote (s rest : string) :
  exists t, quote s ++ rest = String DQ t /\ scan_string t = Some (s, rest).
Proof.
  exists (escape s ++ String DQ rest). split.
  - unfold quote. cbn [append]. rewrite append_assoc. reflexivity.
  - apply scan_escape.
Qed.

Lemma skip_ws_app (w s : string) :
  ws_only w = true -> skip_ws (w ++ s) = skip_ws s.
Proof.
  induction w as [|c w IH]; [reflexivity|].
  cbn [ws_only append skip_ws]. intros H.
  apply andb_true_iff in H. destruct H as [Hc Hw].
  rewrite Hc. apply IH. exact Hw.
Qed.

Lemma ws_only_spaces (n : nat) : ws_only (spaces n) = true.
Proof. induction n; [reflexivity|exact IHn]. Qed.

Lemma ws_only_newline_indent (indent : option nat) (level : nat) :
  ws_only (newline_indent indent level) = true.
Proof. destruct indent; [apply ws_only_spaces|reflexivity]. Qed.

Lemma ws_only_after_comma (indent : option nat) (level : nat) :
  ws_only (after_comma indent level) = true.
Proof. destruct indent; [apply ws_only_spaces|reflexivity]. Qed.

Lemma parse_value_skip (fuel : nat) (w s : string) :
  ws_only w = true -> parse_value fuel (w ++ s) = parse_value fuel s.
Proof.
  intros H. destruct fuel; [reflexivity|].
  cbn [parse_value]. rewrite (skip_ws_app w s H). reflexivity.
Qed.

Lemma parse_items_skip (fuel : nat) (w s : string) :
  ws_only w = true -> parse_items fuel (w ++ s) = parse_items fuel s.
Proof.
  intros H. destruct fuel; [reflexivity|].
  cbn [parse_items]. rewrite (parse_value_skip fuel w s H). reflexivity.
Qed.

Lemma parse_members_skip (fuel : nat) (w s : string) :
  ws_only w = true -> parse_members fuel (w ++ s) = parse_members fuel s.
Proof.
  intros H. destruct fuel; [reflexivity|].
  cbn [parse_members]. unfold next_is. rewrite (skip_ws_app w s H).
  reflexivity.
Qed.

Lemma next_is_here (c : ascii) (w r : string) :
  ws_only w = true -> is_ws c = false ->
  next_is c (w ++ String c r) = Some r.
Proof.
  intros Hw Hc. unfold next_is. rewrite (skip_ws_app _ _ Hw).
  cbn [skip_ws]. rewrite Hc, Ascii.eqb_refl. reflexivity.
Qed.

Lemma next_is_other (c c' : ascii) (w r : string) :
  ws_only w = true -> is_ws c' = false -> c' <> c ->
  next_is c (w ++ String c' r) = None.
Proof.
  intros Hw Hc Hne. unfold next_is. rewrite (skip_ws_app _ _ Hw).
  cbn [skip_ws]. rewrite Hc.
  destruct (Ascii.eqb_spec c' c); [contradiction|reflexivity].
Qed.

(** *** Integers *)

Lemma number_chars_uint (d : Decimal.uint) (rest : string) :
  span_number (NilEmpty.string_of_uint d ++ rest)
  = let (x, r) := span_number rest in (NilEmpty.string_of_uint d ++ x, r).
Proof.
  induction d; cbn [NilEmpty.string_of_uint append];
    try (cbn [span_number]; rewrite IHd; cbn;
         destruct (span_number rest); reflexivity).
  destruct (span_number rest); reflexivity.
Qed.

Lemma span_number_stop (rest : string) :
  stops_number rest = true -> span_number rest = ("", rest).
Proof.
  destruct rest as [|c r]; [reflexivity|]. cbn [stops_number span_number].
  intros H. apply negb_true_iff in H. rewrite H. reflexivity.
Qed.

Lemma span_string_of_uint (d : Decimal.uint) (rest : string) :
  stops_number rest = true ->
  span_number (NilZero.string_of_uint d ++ rest)
  = (NilZero.string_of_uint d, rest).
Proof.
  intros H.
  assert (E : forall d, span_number (NilEmpty.string_of_uint d ++ rest)
                        = (NilEmpty.string_of_uint d, rest)).
  { intros d'. rewrite number_chars_uint, (span_number_stop rest H).
    rewrite append_nil_r. reflexivity. }
  destruct d; try apply E.
  cbn. rewrite (span_number_stop rest H). reflexivity.
Qed.

Lemma span_str_of_int (n : Z) (rest : string) :
  stops_number rest = true ->
  span_number (Py.str_of_int n ++ rest) = (Py.str_of_int n, rest).
Proof.
  intros H. unfold Py.str_of_int, NilZero.string_of_int.
  destruct (Z.to_int n) as [d|d].
  - apply span_string_of_uint. exact H.
  - cbn [append span_number].
    change (is_number_char "-") with true. cbv iota.
    rewrite (span_string_of_uint d rest H). reflexivity.
Qed.

Lemma to_uint_no_leading_zero (p : positive) (u : Decimal.uint) :
  Pos.to_uint p <> Decimal.D0 u.
Proof.
  intros E.
  pose proof (DecimalPos.Unsigned.to_of (Pos.to_uint p)) as H.
  rewrite DecimalPos.Unsigned.of_to in H. cbn [N.to_uint] in H.
  rewrite E in H. rewrite DecimalFacts.unorm_D0 in H. unfold Decimal.unorm in H.
  destruct (Decimal.nzhead u) eqn:Hu;
    try (symmetry in H; revert H; rewrite <- Hu;
         apply DecimalFacts.nzhead_nonzero).
  injection H as H. subst u.
  apply (DecimalPos.Unsigned.to_uint_nonzero p). exact E.
Qed.

Lemma leading_zero_uint (u : Decimal.uint) :
  (forall u', u <> Decimal.D0 u') -> u <> Decimal.Nil ->
  leading_zero (NilZero.string_of_uint u) = false
  /\ leading_zero (String "-" (NilZero.string_of_uint u)) = false.
Proof.
  intros H0 Hn. destruct u; try tauto; try (split; reflexivity).
  exfalso. apply (H0 u). reflexivity.
Qed.

Lemma leading_zero_str_of_int (n : Z) :
  leading_zero (Py.str_of_int n) = false.
Proof.
  unfold Py.str_of_int. destruct n as [|p|p]; [reflexivity| |];
    cbn [Z.to_int NilZero.string_of_int];
    apply leading_zero_uint;
    auto using to_uint_no_leading_zero, DecimalPos.Unsigned.to_uint_nonnil.
Qed.

Lemma int_of_str_of_int (n : Z) :
  NilZero.int_of_string (Py.str_of_int n) = Some (Z.to_int n)
  /\ Z.to_int n <> Decimal.Neg Decimal.Nil.
Proof.
  unfold Py.str_of_int.
  assert (H : Z.to_int n <> Decimal.Pos Decimal.Nil
              /\ Z.to_int n <> Decimal.Neg Decimal.Nil).
  { destruct n as [|p|p]; cbn [Z.to_int]; split; try discriminate;
      intros E; injection E as E;
      apply (DecimalPos.Unsigned.to_uint_nonnil p E). }
  destruct H as [H1 H2]. split; [|exact H2].
  apply NilZero.isi; assumption.
Qed.

Lemma ends_value_stops (rest : string) :
  ends_value rest = true ->
  stops_number rest = true /\ starts_fraction rest = false.
Proof.
  destruct rest as [|c r]; [split; reflexivity|].
  cbn [ends_value stops_number starts_fraction].
  destruct c as [[] [] [] [] [] [] [] []]; cbn; intros H;
    try discriminate H; split; reflexivity.
Qed.

Lemma parse_number_str_of_int (n : Z) (rest : string) :
  ends_value rest = true ->
  parse_number (Py.str_of_int n ++ rest) = Some (JInt n, rest).
Proof.
  intros H. apply ends_value_stops in H. destruct H as [Hs Hf].
  unfold parse_number. rewrite (span_str_of_int n rest Hs).
  rewrite Hf, leading_zero_str_of_int. cbn [orb].
  destruct (int_of_str_of_int n) as [E Hn]. rewrite E.
  destruct (Z.to_int n) as [u|u] eqn:Ei.
  - rewrite <- Ei, DecimalZ.of_to. reflexivity.
  - destruct u; try tauto; rewrite <- Ei, DecimalZ.of_to; reflexivity.
Qed.

(** The first character of a printed integer is a sign or a digit. *)
Lemma str_of_int_head (n : Z) :
  exists c r, Py.str_of_int n = String c r /\ is_number_char c = true.
Proof.
  unfold Py.str_of_int, NilZero.string_of_int.
  assert (H : forall u, exists c r,
             NilZero.string_of_uint u = String c r /\ is_number_char c = true).
  { intros u. destruct u; cbn; eauto. }
  destruct (Z.to_int n) as [u|u].
  - apply H.
  - exists "-"%char, (NilZero.string_of_uint u). split; reflexivity.
Qed.

(** *** Values *)

Lemma json_induction (P : json -> Prop)
    (Hnull : P JNull) (Hbool : forall b, P (JBool b))
    (Hint : forall n, P (JInt n)) (Hstr : forall s, P (JStr s))
    (Hlist : forall l, Forall P l -> P (JList l))
    (Hobj : forall d, Forall (fun kv => P (snd kv)) d -> P (JObj d)) :
  forall v, P v.
Proof.
  fix IH 1. intros [ | b | n | s | l | d].
  - exact Hnull.
  - apply Hbool.
  - apply Hint.
  - apply Hstr.
  - apply Hlist.
    revert l. fix IHl 1. intros [|x l]; constructor; [apply IH | apply IHl].
  - apply Hobj.
    revert d. fix IHd 1. intros [|[k x] d]; constructor;
      [apply IH | apply IHd].
Qed.

Lemma json_wf_list (l : list json) :
  json_wf (JList l) <-> Forall json_wf l.
Proof.
  induction l as [|x l IH]; cbn.
  - split; [constructor | tauto].
  - cbn in IH. rewrite IH. split.
    + intros [H1 H2]. constructor; assumption.
    + intros H. inversion H; subst. tauto.
Qed.

Lemma json_wf_obj (d : dict) :
  json_wf (JObj d)
  <-> NoDup (map fst d) /\ Forall (fun kv => json_wf (snd kv)) d.
Proof.
  cbn. apply and_iff_compat_l.
  induction d as [|[k x] d IH]; cbn.
  - split; [constructor | tauto].
  - rewrite IH. split.
    + intros [H1 H2]. constructor; assumption.
    + intros H. inversion H; subst. tauto.
Qed.

Lemma dumps_list_eq (indent : option nat) (level : nat) (x : json)
    (l : list json) :
  dumps_at indent level (JList (x :: l))
  = "[" ++ newline_indent indent (S level) ++ dumps_at indent (S level) x
    ++ dumps_items indent level l ++ newline_indent indent level ++ "]".
Proof.
  cbn [dumps_at]. do 3 f_equal.
  induction l as [|y l IH]; [reflexivity|].
  cbn [dumps_items]. rewrite !append_assoc. do 3 f_equal.
  rewrite <- IH. reflexivity.
Qed.

Lemma dumps_obj_eq (indent : option nat) (level : nat) (k : string)
    (x : json) (d : dict) :
  dumps_at indent level (JObj ((k, x) :: d))
  = "{" ++ newline_indent indent (S level) ++ quote k ++ ": "
    ++ dumps_at indent (S level) x
    ++ dumps_members indent level d ++ newline_indent indent level ++ "}".
Proof.
  cbn [dumps_at]. do 5 f_equal.
  induction d as [|[k' y] d IH]; [reflexivity|].
  cbn [dumps_members]. rewrite !append_assoc. do 5 f_equal.
  rewrite <- IH. reflexivity.
Qed.

Lemma number_char_dispatch (c : ascii) :
  is_number_char c = true ->
  is_ws c = false
  /\ Ascii.eqb c "n" = false /\ Ascii.eqb c "t" = false
  /\ Ascii.eqb c "f" = false /\ Ascii.eqb c DQ = false
  /\ Ascii.eqb c "[" = false /\ Ascii.eqb c "{" = false
  /\ c <> "]"%char /\ c <> "}"%char.
Proof.
  destruct c as [[] [] [] [] [] [] [] []]; cbn; intros H;
    try discriminate H; repeat split; try reflexivity; discriminate.
Qed.

(** A printed value starts with a character that is neither white space
    nor a closing bracket. *)
Lemma dumps_head (indent : option nat) (level : nat) (v : json) :
  exists c r, dumps_at indent level v = String c r
              /\ is_ws c = false /\ c <> "]"%char /\ c <> "}"%char.
Proof.
  destruct v as [ | [] | n | s | [|x l] | [|[k x] d]];
    try (eexists _, _; split; [reflexivity|];
         repeat split; try reflexivity; discriminate).
  - destruct (str_of_int_head n) as (c & r & E & Hc).
    exists c, r. cbn [dumps_at]. split; [exact E|].
    apply number_char_dispatch in Hc. tauto.
Qed.

Lemma dumps_length (indent : option nat) (level : nat) (v : json) :
  (1 <= String.length (dumps_at indent level v))%nat.
Proof.
  destruct (dumps_head indent level v) as (c & r & E & _).
  rewrite E. cbn. lia.
Qed.

Lemma dict_set_fresh (k : string) (v : json) (d : dict) :
  ~ In k (map fst d) -> dict_set k v d = (d ++ [(k, v)])%list.
Proof.
  induction d as [|[k' v'] d IH]; [reflexivity|].
  cbn [map fst In dict_set app]. intros H.
  destruct (String.eqb_spec k k') as [E|_]; [exfalso; auto|].
  rewrite IH; [reflexivity|tauto].
Qed.

Lemma dict_of_pairs_nodup (d : dict) :
  NoDup (map fst d) -> dict_of_pairs d = d.
Proof.
  unfold dict_of_pairs.
  assert (H : forall acc, NoDup (map fst (acc ++ d)%list) ->
                fold_left (fun d kv => dict_set (fst kv) (snd kv) d) d acc
                = (acc ++ d)%list).
  { induction d as [|[k v] d IH]; intros acc Hnd; cbn [fold_left fst snd].
    - rewrite app_nil_r. reflexivity.
    - rewrite dict_set_fresh.
      + rewrite IH; rewrite <- app_assoc; [reflexivity|exact Hnd].
      + rewrite map_app in Hnd. cbn [map fst] in Hnd.
        apply NoDup_remove_2 in Hnd. intros Hin. apply Hnd.
        apply in_or_app. left. exact Hin. }
  intros Hnd. apply (H []). exact Hnd.
Qed.

Lemma ends_value_close (indent : option nat) (level : nat) (c : ascii)
    (rest : string) :
  c = "]"%char \/ c = "}"%char ->
  ends_value (newline_indent indent level ++ String c rest) = true.
Proof.
  intros [-> | ->]; destruct indent; reflexivity.
Qed.

Ltac len_norm :=
  repeat (progress
            (cbn [String.length dumps_items dumps_members append] in *;
             repeat match goal with
                    | H : context [String.length (_ ++ _)] |- _ =>
                        rewrite length_app in H
                    | |- context [String.length (_ ++ _)] => rewrite length_app
                    end)).

Lemma parse_value_head (f : nat) (c : ascii) (r : string) :
  is_ws c = false ->
  parse_value (S f) (String c r)
  = if Ascii.eqb c "n" then expect "ull" r JNull
    else if Ascii.eqb c "t" then expect "rue" r (JBool true)
    else if Ascii.eqb c "f" then expect "alse" r (JBool false)
    else if Ascii.eqb c DQ then
      match scan_string r with
      | Some (x, r') => Some (JStr x, r')
      | None => None
      end
    else if Ascii.eqb c "[" then
      match next_is "]" r with
      | Some r' => Some (JList [], r')
      | None =>
          match parse_items f r with
          | Some (l, r') => Some (JList l, r')
          | None => None
          end
      end
    else if Ascii.eqb c "{" then
      match next_is "}" r with
      | Some r' => Some (JObj [], r')
      | None =>
          match parse_members f r with
          | Some (d, r') => Some (JObj (dict_of_pairs d), r')
          | None => None
          end
      end
    else parse_number (String c r).
Proof.
  intros H. cbn [parse_value skip_ws]. rewrite H. reflexivity.
Qed.

Lemma parse_items_dumps (l : list json) :
  Forall parses l ->
  forall x, parses x ->
  forall indent level rest fuel w,
    ws_only w = true ->
    ends_value rest = true ->
    (2 * String.length
           (w ++ dumps_at indent (S level) x ++ dumps_items indent level l
              ++ newline_indent indent level ++ String "]" rest) + 1
     < fuel)%nat ->
    parse_items fuel
      (w ++ dumps_at indent (S level) x ++ dumps_items indent level l
         ++ newline_indent indent level ++ String "]" rest)
    = Some (x :: l, rest).
Proof.
  induction 1 as [|y l Hy Hl IH];
    intros x Hx indent level rest fuel w Hw Hr Hf;
    (destruct fuel as [|f]; [lia|]);
    rewrite (parse_items_skip _ _ _ Hw); cbn [parse_items dumps_items].
  - cbn [append]. rewrite Hx.
    + rewrite next_is_other, next_is_here;
        auto using ws_only_newline_indent; discriminate.
    + apply ends_value_close. left; reflexivity.
    + len_norm. lia.
  - rewrite !append_assoc. cbn [append]. rewrite Hx.
    + change (next_is "," (String "," ?r)) with (Some r).
      cbv iota. 
      rewrite (IH y Hy indent level rest f (after_comma indent (S level)));
        auto using ws_only_after_comma.
      len_norm. lia.
    + reflexivity.
    + len_norm. lia.
Qed.

Lemma next_is_dumps (c : ascii) (indent : option nat) (level : nat)
    (v : json) (w rest : string) :
  ws_only w = true -> c = "]"%char \/ c = "}"%char ->
  next_is c (w ++ dumps_at indent level v ++ rest) = None.
Proof.
  intros Hw Hc.
  destruct (dumps_head indent level v) as (c' & r & E & Hws & H1 & H2).
  rewrite E. cbn [append]. apply next_is_other; try assumption.
  destruct Hc as [-> | ->]; assumption.
Qed.

Lemma parse_members_dumps (d : dict) :
  Forall (fun kv => parses (snd kv)) d ->
  forall k x, parses x ->
  forall indent level rest fuel w,
    ws_only w = true ->
    ends_value rest = true ->
    (2 * String.length
           (w ++ quote k ++ ": " ++ dumps_at indent (S level) x
              ++ dumps_members indent level d
              ++ newline_indent indent level ++ String "}" rest) + 1
     < fuel)%nat ->
    parse_members fuel
      (w ++ quote k ++ ": " ++ dumps_at indent (S level) x
         ++ dumps_members indent level d
         ++ newline_indent indent level ++ String "}" rest)
    = Some ((k, x) :: d, rest).
Proof.
  induction 1 as [|[k' y] d Hy Hd IH];
    intros k x Hx indent level rest fuel w Hw Hr Hf;
    (destruct fuel as [|f]; [lia|]);
    rewrite (parse_members_skip _ _ _ Hw); cbn [parse_members dumps_members];
    unfold quote at 1; cbn [append]; rewrite !append_assoc; cbn [append];
    change (next_is DQ (String DQ ?t)) with (Some t); cbv iota;
    rewrite scan_escape;
    change (next_is ":" (String ":" ?t)) with (Some t); cbv iota;
    match goal with
    | |- context [parse_value f (String " " ?t)] =>
        replace (parse_value f (String " " t)) with (parse_value f t)
          by (symmetry; exact (parse_value_skip f " " t eq_refl))
    end.
  - rewrite Hx.
    + rewrite next_is_other, next_is_here;
        auto using ws_only_newline_indent; discriminate.
    + apply ends_value_close. right; reflexivity.
    + unfold quote in Hf. len_norm. lia.
  - cbn [snd] in Hy. rewrite Hx.
    + change (next_is "," (String "," ?r)) with (Some r).
      cbv iota.
      pose proof (IH k' y Hy indent level rest f
                    (after_comma indent (S level))
                    (ws_only_after_comma _ _) Hr) as IH'.
      cbn [append] in IH'. rewrite !append_assoc.
      rewrite IH'; [reflexivity|].
      unfold quote in Hf. len_norm. lia.
    + reflexivity.
    + unfold quote in Hf. len_norm. lia.
Qed.

Theorem parse_dumps (v : json) : json_wf v -> parses v.
Proof.
  induction v as [ | b | n | s | l IHl | d IHd] using json_induction;
    intros Hwf indent level rest fuel Hr Hf;
    (destruct fuel as [|f]; [lia|]).
  - reflexivity.
  - destruct b; reflexivity.
  - cbn [dumps_at] in *.
    destruct (str_of_int_head n) as (c & r & E & Hc).
    pose proof (parse_number_str_of_int n rest Hr) as Hn.
    rewrite E in *. cbn [append] in *.
    apply number_char_dispatch in Hc.
    destruct Hc as (H0 & H1 & H2 & H3 & H4 & H5 & H6 & _).
    rewrite (parse_value_head f c _ H0), H1, H2, H3, H4, H5, H6.
    exact Hn.
  - cbn [dumps_at]. unfold quote. cbn [append]. rewrite append_assoc.
    rewrite parse_value_head by reflexivity.
    change (Ascii.eqb DQ "n") with false. change (Ascii.eqb DQ "t") with false.
    change (Ascii.eqb DQ "f") with false. change (Ascii.eqb DQ DQ) with true.
    cbv iota. cbn [append]. rewrite scan_escape. reflexivity.
  - destruct l as [|x l]; [reflexivity|].
    apply json_wf_list in Hwf.
    assert (Hp : Forall parses (x :: l)).
    { apply Forall_forall. intros y Hy.
      rewrite Forall_forall in IHl, Hwf. auto. }
    inversion Hp as [|? ? Hx Hl]; subst.
    rewrite dumps_list_eq in *. rewrite !append_assoc in *.
    cbn [append] in *.
    rewrite parse_value_head by reflexivity.
    change (Ascii.eqb "[" "n") with false. change (Ascii.eqb "[" "t") with false.
    change (Ascii.eqb "[" "f") with false. change (Ascii.eqb "[" DQ) with false.
    change (Ascii.eqb "[" "[") with true. cbv iota.
    rewrite next_is_dumps;
      [|apply ws_only_newline_indent|left; reflexivity].
    rewrite (parse_items_dumps l Hl x Hx indent level rest f);
      auto using ws_only_newline_indent.
    len_norm. lia.
  - destruct d as [|[k x] d]; [reflexivity|].
    apply json_wf_obj in Hwf. destruct Hwf as [Hnd Hwf].
    assert (Hp : Forall (fun kv => parses (snd kv)) ((k, x) :: d)).
    { apply Forall_forall. intros y Hy.
      rewrite Forall_forall in IHd, Hwf. auto. }
    inversion Hp as [|? ? Hx Hd]; subst. cbn [snd] in Hx.
    rewrite dumps_obj_eq in *. rewrite !append_assoc in *.
    cbn [append] in *.
    rewrite parse_value_head by reflexivity.
    change (Ascii.eqb "{" "n") with false. change (Ascii.eqb "{" "t") with false.
    change (Ascii.eqb "{" "f") with false. change (Ascii.eqb "{" DQ) with false.
    change (Ascii.eqb "{" "[") with false. change (Ascii.eqb "{" "{") with true.
    cbv iota.
    assert (Hq : next_is "}" (newline_indent indent (S level) ++ quote k
                   ++ String ":" (String " " (dumps_at indent (S level) x
                   ++ dumps_members indent level d
                   ++ newline_indent indent level ++ String "}" rest)))
                 = None).
    { unfold quote. cbn [append]. apply next_is_other;
        [apply ws_only_newline_indent|reflexivity|discriminate]. }
    rewrite Hq.
    pose proof (parse_members_dumps d Hd k x Hx indent level rest f
                  (newline_indent indent (S level))
                  (ws_only_newline_indent _ _) Hr) as Hm.
    rewrite ?append_assoc in Hm. cbn [append] in Hm.
    rewrite ?append_assoc. rewrite Hm.
    + rewrite (dict_of_pairs_nodup _ Hnd). reflexivity.
    + len_norm. lia.
Qed.

Lemma json_loads_dumps_at (indent : option nat) (v : json) :
  json_wf v -> json_loads (dumps_at indent 0 v) = Ok v.
Proof.
  intros Hwf. unfold json_loads.
  pose proof (parse_dumps v Hwf indent 0%nat "" 
                (2 * String.length (dumps_at indent 0 v) + 2)%nat eq_refl) as H.
  rewrite append_nil_r in H. rewrite H; [reflexivity|lia].
Qed.

End PyRefFacts.

(** ** The reference byte codecs *)

Module PyRefBytesFacts.
Import PyRefBytes.

(** *** UTF-8 *)

Lemma utf8_decode_encode_char (c : ascii) (t : string) :
  utf8_decode (utf8_encode_char c ++ t) = opt_cons c (utf8_decode t).
Proof.
  destruct c as [[] [] [] [] [] [] [] []]; reflexivity.
Qed.

Lemma utf8_decode_encode (s : string) : utf8_decode (utf8_encode s) = Some s.
Proof.
  induction s as [|c s IH]; [reflexivity|].
  cbn [utf8_encode]. rewrite utf8_decode_encode_char, IH. reflexivity.
Qed.

Lemma utf8_decode_one (c : ascii) (r s : string) :
  (nat_of_ascii c <? 128)%nat = true ->
  utf8_decode (String c r) = Some s ->
  exists s', s = String c s' /\ utf8_decode r = Some s'.
Proof.
  intros Hc. cbn [utf8_decode]. rewrite Hc.
  destruct (utf8_decode r) as [s'|]; cbn; [|discriminate].
  intros [= <-]. eauto.
Qed.

Lemma utf8_decode_two (c c2 : ascii) (r s : string) :
  (nat_of_ascii c <? 128)%nat = false ->
  utf8_decode (String c (String c2 r)) = Some s ->
  exists x s', s = String x s' /\ utf8_decode r = Some s'
               /\ utf8_encode_char x = String c (String c2 "").
Proof.
  intros Hc. cbn [utf8_decode]. rewrite Hc.
  destruct ((nat_of_ascii c =? 194) || (nat_of_ascii c =? 195))%nat eqn:E1;
    [|discriminate].
  destruct ((128 <=? nat_of_ascii c2) && (nat_of_ascii c2 <? 192))%nat eqn:E2;
    [|discriminate].
  destruct (utf8_decode r) as [s'|]; cbn; [|discriminate].
  intros [= <-]. eexists _, s'. split; [reflexivity|]. split; [reflexivity|].
  clear Hc.
  assert (Hc : c = ascii_of_nat 194 \/ c = ascii_of_nat 195).
  { apply orb_true_iff in E1. destruct E1 as [E1|E1];
      apply Nat.eqb_eq in E1; rewrite <- E1, ascii_nat_embedding; auto. }
  clear E1.
  destruct c2 as [[] [] [] [] [] [] [] []]; try discriminate E2;
    destruct Hc as [-> | ->]; reflexivity.
Qed.

Lemma utf8_encode_decode_bounded (n : nat) :
  forall b s, (String.length b <= n)%nat ->
              utf8_decode b = Some s -> utf8_encode s = b.
Proof.
  induction n as [|n IH]; intros b s Hlen H.
  - destruct b; [|cbn in Hlen; lia]. cbn in H. injection H as <-. reflexivity.
  - destruct b as [|c r]; [cbn in H; injection H as <-; reflexivity|].
    cbn [String.length] in Hlen.
    destruct (nat_of_ascii c <? 128)%nat eqn:Hc.
    + destruct (utf8_decode_one c r s Hc H) as (s' & -> & Hr).
      cbn [utf8_encode]. unfold utf8_encode_char. rewrite Hc.
      cbn [append]. f_equal. apply IH; [lia|exact Hr].
    + destruct r as [|c2 r].
      { cbn [utf8_decode] in H. rewrite Hc in H.
        destruct ((_ =? _) || _)%nat; discriminate. }
      destruct (utf8_decode_two c c2 r s Hc H) as (x & s' & -> & Hr & Hx).
      cbn [utf8_encode]. rewrite Hx. cbn [append]. do 2 f_equal.
      apply IH; [cbn [String.length] in Hlen; lia|exact Hr].
Qed.

Lemma utf8_encode_decode (b s : string) :
  utf8_decode b = Some s -> utf8_encode s = b.
Proof. apply (utf8_encode_decode_bounded (String.length b)). lia. Qed.

Lemma utf8_decode_ascii (s : string) :
  all_ascii s = true -> utf8_decode s = Some s.
Proof.
  induction s as [|c s IH]; [reflexivity|].
  cbn [all_ascii utf8_decode]. intros H.
  apply andb_true_iff in H. destruct H as [Hc Hs].
  rewrite Hc, (IH Hs). reflexivity.
Qed.

Lemma all_ascii_app (a b : string) :
  all_ascii (a ++ b) = all_ascii a && all_ascii b.
Proof.
  induction a as [|c a IH]; [reflexivity|].
  cbn [append all_ascii]. rewrite IH, andb_assoc. reflexivity.
Qed.

(** *** Base85 *)

Lemma b85_digit_char (d : N) :
  (d < 85)%N -> b85_digit (b85_char d) = Some d.
Proof.
  intros H. rewrite <- (N2Nat.id d).
  assert (Hn : (N.to_nat d < 85)%nat) by lia.
  remember (N.to_nat d) as n eqn:En. clear En H d.
  do 85 (destruct n as [|n]; [reflexivity|]). lia.
Qed.

Lemma b85_char_ascii (d : N) :
  (nat_of_ascii (b85_char d) <? 128)%nat = true.
Proof.
  unfold b85_char. generalize (N.to_nat d). intros n.
  do 86 (destruct n as [|n]; [reflexivity|]). reflexivity.
Qed.

Lemma word_of_bound (b0 b1 b2 b3 : ascii) :
  (word_of b0 b1 b2 b3 < 4294967296)%N.
Proof.
  unfold word_of.
  pose proof (N_ascii_bounded b0). pose proof (N_ascii_bounded b1).
  pose proof (N_ascii_bounded b2). pose proof (N_ascii_bounded b3). lia.
Qed.

Ltac divmod := zify; Z.to_euclidean_division_equations; lia.

Lemma bytes_of_word_of (b0 b1 b2 b3 : ascii) :
  bytes_of_word (word_of b0 b1 b2 b3)
  = String b0 (String b1 (String b2 (String b3 ""))).
Proof.
  unfold bytes_of_word, word_of.
  pose proof (N_ascii_bounded b0). pose proof (N_ascii_bounded b1).
  pose proof (N_ascii_bounded b2). pose proof (N_ascii_bounded b3).
  set (n0 := N_of_ascii b0) in *. set (n1 := N_of_ascii b1) in *.
  set (n2 := N_of_ascii b2) in *. set (n3 := N_of_ascii b3) in *.
  set (w := (((n0 * 256 + n1) * 256 + n2) * 256 + n3)%N).
  assert (E0 : (w / 16777216 = n0)%N) by (subst w; divmod).
  assert (E1 : ((w / 65536) mod 256 = n1)%N) by (subst w; divmod).
  assert (E2 : ((w / 256) mod 256 = n2)%N) by (subst w; divmod).
  assert (E3 : (w mod 256 = n3)%N) by (subst w; divmod).
  rewrite E0, E1, E2, E3. subst n0 n1 n2 n3.
  rewrite !ascii_N_embedding. reflexivity.
Qed.

(** The five digits of a word decode to the word. *)
Lemma dec_enc_word (w : N) :
  (w < 4294967296)%N ->
  dec_word (b85_char (w / 52200625)) (b85_char ((w / 614125) mod 85))
    (b85_char ((w / 7225) mod 85)) (b85_char ((w / 85) mod 85))
    (b85_char (w mod 85))
  = Some (bytes_of_word w).
Proof.
  intros Hw. unfold dec_word.
  rewrite !b85_digit_char by divmod.
  replace ((((w / 52200625 * 85 + (w / 614125) mod 85) * 85
             + (w / 7225) mod 85) * 85 + (w / 85) mod 85) * 85
           + w mod 85)%N with w by divmod.
  apply N.ltb_lt in Hw. rewrite Hw. reflexivity.
Qed.

Lemma dec_word_digits (d0 d1 d2 d3 d4 : N) :
  (d0 < 85)%N -> (d1 < 85)%N -> (d2 < 85)%N -> (d3 < 85)%N -> (d4 < 85)%N ->
  dec_word (b85_char d0) (b85_char d1) (b85_char d2) (b85_char d3)
    (b85_char d4)
  = let v := ((((d0 * 85 + d1) * 85 + d2) * 85 + d3) * 85 + d4)%N in
    if (v <? 4294967296)%N then Some (bytes_of_word v) else None.
Proof.
  intros. unfold dec_word. rewrite !b85_digit_char by assumption. reflexivity.
Qed.

Lemma N_of_zero_byte : N_of_ascii zero_byte = 0%N.
Proof. reflexivity. Qed.

Lemma recompose (a : N) : (a / 85 * 85 + a mod 85 = a)%N.
Proof. divmod. Qed.

Lemma div_85_1 (w : N) : (w / 7225 = w / 85 / 85)%N.
Proof. rewrite N.Div0.div_div. reflexivity. Qed.
Lemma div_85_2 (w : N) : (w / 614125 = w / 7225 / 85)%N.
Proof. rewrite N.Div0.div_div. reflexivity. Qed.
Lemma div_85_3 (w : N) : (w / 52200625 = w / 614125 / 85)%N.
Proof. rewrite N.Div0.div_div. reflexivity. Qed.

(** The leading digits of a word make its quotient. *)
Lemma digits2 (w : N) :
  (w / 52200625 * 85 + (w / 614125) mod 85 = w / 614125)%N.
Proof. rewrite div_85_3. apply recompose. Qed.

Lemma digits3 (w : N) :
  ((w / 52200625 * 85 + (w / 614125) mod 85) * 85 + (w / 7225) mod 85
   = w / 7225)%N.
Proof. rewrite digits2, div_85_2. apply recompose. Qed.

Lemma digits4 (w : N) :
  (((w / 52200625 * 85 + (w / 614125) mod 85) * 85 + (w / 7225) mod 85) * 85
   + (w / 85) mod 85 = w / 85)%N.
Proof. rewrite digits3, div_85_1. apply recompose. Qed.

Lemma digits5 (w : N) :
  ((((w / 52200625 * 85 + (w / 614125) mod 85) * 85 + (w / 7225) mod 85) * 85
    + (w / 85) mod 85) * 85 + w mod 85 = w)%N.
Proof. rewrite digits4. apply recompose. Qed.

Lemma digits_bound (w : N) :
  (w < 4294967296)%N ->
  (w / 52200625 < 85)%N /\ ((w / 614125) mod 85 < 85)%N
  /\ ((w / 7225) mod 85 < 85)%N /\ ((w / 85) mod 85 < 85)%N
  /\ (w mod 85 < 85)%N.
Proof.
  intros H. repeat split; try (apply N.mod_lt; discriminate).
  apply N.Div0.div_lt_upper_bound. lia.
Qed.

(** Padding the dropped digits with 84 stays within the same multiple of
    [m], when [c <= m]. *)
Lemma padded_quotient (b m c q : N) :
  (0 < c)%N -> (c <= m)%N ->
  q = (b * m / c)%N ->
  ((q * c + (c - 1)) / m = b)%N.
Proof.
  intros Hc Hm ->. symmetry.
  apply (N.div_unique _ _ _ ((b * m / c) * c + (c - 1) - b * m)%N).
  - pose proof (N.Div0.mul_div_le (b * m) c).
    pose proof (N.mul_succ_div_gt (b * m) c ltac:(lia)). lia.
  - pose proof (N.Div0.mul_div_le (b * m) c).
    pose proof (N.mul_succ_div_gt (b * m) c ltac:(lia)). lia.
Qed.

Lemma take_bytes_1 (v n0 : N) :
  (v / 16777216 = n0)%N ->
  String.substring 0 1 (bytes_of_word v) = String (ascii_of_N n0) "".
Proof. intros <-. reflexivity. Qed.

Lemma take_bytes_2 (v n0 n1 : N) :
  (v / 16777216 = n0)%N -> ((v / 65536) mod 256 = n1)%N ->
  String.substring 0 2 (bytes_of_word v)
  = String (ascii_of_N n0) (String (ascii_of_N n1) "").
Proof. intros <- <-. reflexivity. Qed.

Lemma take_bytes_3 (v n0 n1 n2 : N) :
  (v / 16777216 = n0)%N -> ((v / 65536) mod 256 = n1)%N ->
  ((v / 256) mod 256 = n2)%N ->
  String.substring 0 3 (bytes_of_word v)
  = String (ascii_of_N n0) (String (ascii_of_N n1) (String (ascii_of_N n2) "")).
Proof. intros <- <- <-. reflexivity. Qed.

Lemma b85_partial1 (b0 : ascii) :
  b85dec (b85enc (String b0 "")) = Some (String b0 "").
Proof.
  cbn [b85enc]. unfold enc_word. cbn [String.substring b85dec].
  change tilde with (b85_char 84).
  set (w := word_of b0 zero_byte zero_byte zero_byte).
  pose proof (N_ascii_bounded b0) as H0.
  assert (Hw : w = (N_of_ascii b0 * 16777216)%N).
  { subst w. unfold word_of. rewrite N_of_zero_byte. lia. }
  assert (Hb : (w < 4294967296)%N) by lia.
  destruct (digits_bound w Hb) as (D0 & D1 & _).
  rewrite dec_word_digits by (assumption || reflexivity). cbv zeta.
  rewrite digits2.
  set (v := (((w / 614125 * 85 + 84) * 85 + 84) * 85 + 84)%N).
  assert (Ev : v = (w / 614125 * 614125 + (614125 - 1))%N) by (subst v; lia).
  assert (E0 : (v / 16777216 = N_of_ascii b0)%N).
  { rewrite Ev. apply padded_quotient; [lia|lia|rewrite Hw; reflexivity]. }
  assert (Hv : (v <? 4294967296)%N = true).
  { apply N.ltb_lt.
    pose proof (N.mul_succ_div_gt v 16777216 ltac:(lia)). lia. }
  rewrite Hv. cbn [opt_take].
  rewrite (take_bytes_1 v _ E0), ascii_N_embedding. reflexivity.
Qed.

Lemma b85_partial2 (b0 b1 : ascii) :
  b85dec (b85enc (String b0 (String b1 "")))
  = Some (String b0 (String b1 "")).
Proof.
  cbn [b85enc]. unfold enc_word. cbn [String.substring b85dec].
  change tilde with (b85_char 84).
  set (w := word_of b0 b1 zero_byte zero_byte).
  pose proof (N_ascii_bounded b0) as H0.
  pose proof (N_ascii_bounded b1) as H1.
  set (b := (N_of_ascii b0 * 256 + N_of_ascii b1)%N).
  assert (Hw : w = (b * 65536)%N).
  { subst w b. unfold word_of. rewrite N_of_zero_byte. lia. }
  assert (Hb : (w < 4294967296)%N) by (subst b; lia).
  destruct (digits_bound w Hb) as (D0 & D1 & D2 & _).
  rewrite dec_word_digits by (assumption || reflexivity). cbv zeta.
  rewrite digits3.
  set (v := ((w / 7225 * 85 + 84) * 85 + 84)%N).
  assert (Ev : v = (w / 7225 * 7225 + (7225 - 1))%N) by (subst v; lia).
  assert (Eb : (v / 65536 = b)%N).
  { rewrite Ev. apply padded_quotient; [lia|lia|rewrite Hw; reflexivity]. }
  assert (E0 : (v / 16777216 = N_of_ascii b0)%N).
  { change 16777216%N with (65536 * 256)%N.
    rewrite <- N.Div0.div_div, Eb. subst b.
    symmetry. apply (N.div_unique _ _ _ (N_of_ascii b1)); lia. }
  assert (E1 : ((v / 65536) mod 256 = N_of_ascii b1)%N).
  { rewrite Eb. subst b.
    symmetry. apply (N.mod_unique _ _ (N_of_ascii b0)); lia. }
  assert (Hv : (v <? 4294967296)%N = true).
  { apply N.ltb_lt.
    pose proof (N.mul_succ_div_gt v 16777216 ltac:(lia)). lia. }
  rewrite Hv. cbn [opt_take].
  rewrite (take_bytes_2 v _ _ E0 E1), !ascii_N_embedding. reflexivity.
Qed.

Lemma b85_partial3 (b0 b1 b2 : ascii) :
  b85dec (b85enc (String b0 (String b1 (String b2 ""))))
  = Some (String b0 (String b1 (String b2 ""))).
Proof.
  cbn [b85enc]. unfold enc_word. cbn [String.substring b85dec].
  change tilde with (b85_char 84).
  set (w := word_of b0 b1 b2 zero_byte).
  pose proof (N_ascii_bounded b0) as H0.
  pose proof (N_ascii_bounded b1) as H1.
  pose proof (N_ascii_bounded b2) as H2.
  set (b := ((N_of_ascii b0 * 256 + N_of_ascii b1) * 256 + N_of_ascii b2)%N).
  assert (Hw : w = (b * 256)%N).
  { subst w b. unfold word_of. rewrite N_of_zero_byte. lia. }
  assert (Hb : (w < 4294967296)%N) by (subst b; lia).
  destruct (digits_bound w Hb) as (D0 & D1 & D2 & D3 & _).
  rewrite dec_word_digits by (assumption || reflexivity). cbv zeta.
  rewrite digits4.
  set (v := (w / 85 * 85 + 84)%N).
  assert (Ev : v = (w / 85 * 85 + (85 - 1))%N) by (subst v; lia).
  assert (Eb : (v / 256 = b)%N).
  { rewrite Ev. apply padded_quotient; [lia|lia|rewrite Hw; reflexivity]. }
  assert (Eb2 : (v / 65536 = N_of_ascii b0 * 256 + N_of_ascii b1)%N).
  { change 65536%N with (256 * 256)%N.
    rewrite <- N.Div0.div_div, Eb. subst b.
    symmetry. apply (N.div_unique _ _ _ (N_of_ascii b2)); lia. }
  assert (E0 : (v / 16777216 = N_of_ascii b0)%N).
  { change 16777216%N with (65536 * 256)%N.
    rewrite <- N.Div0.div_div, Eb2.
    symmetry. apply (N.div_unique _ _ _ (N_of_ascii b1)); lia. }
  assert (E1 : ((v / 65536) mod 256 = N_of_ascii b1)%N).
  { rewrite Eb2.
    symmetry. apply (N.mod_unique _ _ (N_of_ascii b0)); lia. }
  assert (E2 : ((v / 256) mod 256 = N_of_ascii b2)%N).
  { rewrite Eb. subst b.
    symmetry.
    apply (N.mod_unique _ _ (N_of_ascii b0 * 256 + N_of_ascii b1)); lia. }
  assert (Hv : (v <? 4294967296)%N = true).
  { apply N.ltb_lt.
    pose proof (N.mul_succ_div_gt v 16777216 ltac:(lia)). lia. }
  rewrite Hv. cbn [opt_take].
  rewrite (take_bytes_3 v _ _ _ E0 E1 E2), !ascii_N_embedding. reflexivity.
Qed.

Lemma string_ind4 (P : string -> Prop) :
  P "" ->
  (forall a, P (String a "")) ->
  (forall a b, P (String a (String b ""))) ->
  (forall a b c, P (String a (String b (String c "")))) ->
  (forall a b c d r, P r -> P (String a (String b (String c (String d r))))) ->
  forall s, P s.
Proof.
  intros H0 H1 H2 H3 H4. fix IH 1.
  intros [|a [|b [|c [|d r]]]];
    [exact H0 | apply H1 | apply H2 | apply H3 | apply H4; apply IH].
Qed.

Lemma b85dec_enc (b : string) : b85dec (b85enc b) = Some b.
Proof.
  induction b as [ | a | a b | a b c | a b c d r IH] using string_ind4.
  - reflexivity.
  - apply b85_partial1.
  - apply b85_partial2.
  - apply b85_partial3.
  - change (b85enc (String a (String b (String c (String d r)))))
      with (enc_word (word_of a b c d) ++ b85enc r).
    unfold enc_word. cbn [append b85dec].
    rewrite dec_enc_word by apply word_of_bound.
    rewrite IH, bytes_of_word_of. reflexivity.
Qed.

Lemma b85enc_ascii (b : string) : all_ascii (b85enc b) = true.
Proof.
  induction b as [ | a | a b | a b c | a b c d r IH] using string_ind4.
  - reflexivity.
  - cbn [b85enc enc_word String.substring all_ascii].
    rewrite !b85_char_ascii. reflexivity.
  - cbn [b85enc enc_word String.substring all_ascii].
    rewrite !b85_char_ascii. reflexivity.
  - cbn [b85enc enc_word String.substring all_ascii].
    rewrite !b85_char_ascii. reflexivity.
  - change (b85enc (String a (String b (String c (String d r)))))
      with (enc_word (word_of a b c d) ++ b85enc r).
    rewrite all_ascii_app, IH. unfold enc_word. cbn [all_ascii].
    rewrite !b85_char_ascii. reflexivity.
Qed.


End PyRefBytesFacts.

(** ** The reference library satisfies the laws *)

Lemma RefLib_laws : PyLibLaws RefLib.
Proof.
  constructor; cbn [json_dumps json_dumps_indent2 json_loads gzip_compress
                    gzip_decompress b85encode b85decode str_encode
                    bytes_decode validate_int validate_str RefLib].
  - intros v Hv. apply PyRefFacts.json_loads_dumps_at. exact Hv.
  - intros v Hv. apply PyRefFacts.json_loads_dumps_at. exact Hv.
  - reflexivity.
  - intros b. unfold PyRefBytes.b85decode, PyRefBytes.b85encode.
    rewrite string_of_list_byte_of_string, PyRefBytesFacts.b85dec_enc.
    rewrite list_byte_of_string_of_list_byte. reflexivity.
  - intros s b [= <-]. unfold PyRefBytes.bytes_decode.
    rewrite string_of_list_byte_of_string,
      PyRefBytesFacts.utf8_decode_encode.
    reflexivity.
  - intros b s. unfold PyRefBytes.bytes_decode, PyRefBytes.str_encode.
    destruct (PyRefBytes.utf8_decode (string_of_list_byte b)) as [s'|] eqn:E;
      [|discriminate].
    intros [= <-]. apply PyRefBytesFacts.utf8_encode_decode in E.
    rewrite E, list_byte_of_string_of_list_byte. reflexivity.
  - intros v. eexists. reflexivity.
  - intros b. exists (PyRefBytes.b85enc (string_of_list_byte b)).
    unfold PyRefBytes.bytes_decode, PyRefBytes.b85encode.
    rewrite string_of_list_byte_of_string,
      PyRefBytesFacts.utf8_decode_ascii;
      [reflexivity|apply PyRefBytesFacts.b85enc_ascii].
  - reflexivity.
  - reflexivity.
Qed.

(** ** Link values *)

Lemma append_inj_l (a x y : string) : a ++ x = a ++ y -> x = y.
Proof. induction a as [|c a IH]; cbn; intros H; [exact H|]. injection H. exact IH. Qed.

Lemma lower_app (a b : string) : Mem.lower (a ++ b) = Mem.lower a ++ Mem.lower b.
Proof. induction a as [|c a IH]; cbn; [reflexivity|]. rewrite IH. reflexivity. Qed.

(** C5.  The value the repair loop writes is not the value the
    fill-missing loop writes for the same document, and it does not start
    with the prefix the outdated-link query tests for, with or without
    regard to case; the value of the fill-missing loop does. *)
Theorem repair_writes_a_different_value {cfg : Settings} (doc : Document) :
  outdated_link_value doc <> missing_link_value doc
  /\ Py.startswith (BASE_URL ++ "/view/") (outdated_link_value doc) = false
  /\ Mem.istartswith (BASE_URL ++ "/view/") (outdated_link_value doc) = false
  /\ Py.startswith (BASE_URL ++ "/view/") (missing_link_value doc) = true.
Proof.
  unfold outdated_link_value, missing_link_value, reverse_view_document,
    Mem.istartswith.
  repeat split.
  - intros H. apply append_inj_l in H. discriminate H.
  - rewrite startswith_app. reflexivity.
  - rewrite !lower_app, startswith_app. reflexivity.
  - rewrite startswith_app. apply startswith_iff. eexists. reflexivity.
Qed.

(** ** Deleting one record *)

(** C6.  [delete_annotation_by_id] of the note backend sends one delete
    request and then either returns [True] or raises the client's error:
    whatever the service holds, it never returns [False]. *)
Theorem notes_delete_never_returns_false {L : PyLib} {SV : Service}
    (self : AnnoSerializer) (doc_id : Z) (db_id : option Z) (w : World) :
  exists ok w',
    trace w' = (trace w ++ [(DeleteNote doc_id db_id, ok)])%list
    /\ delete_annotation_by_id (PaperlessNotesStorage self) doc_id db_id w
       = Some ((if ok then Ok true else Raise PaperlessAPIError), w').
Proof.
  cbn [delete_annotation_by_id PaperlessNotesStorage].
  unfold PaperlessNotesStorage_delete_annotation_by_id, delete_note, bind,
    _request, ret.
  destruct (respond (DeleteNote doc_id db_id) (svc w)) as [[r|] s'].
  - exists true. eexists. split; [|reflexivity]. reflexivity.
  - exists false. eexists. split; [|reflexivity]. reflexivity.
Qed.

Lemma database_delete_absent {L : PyLib} {SV : Service} (doc_id : Z)
    (db_id : option Z) (w : World) :
  (forall row, In row (table w) ->
               ~ (Some (DbAnnotation_id row) = db_id
                  /\ DbAnnotation_doc_id row = doc_id)) ->
  delete_annotation_by_id DatabaseAnnotationStorage doc_id db_id w
  = Some (Ok false, w).
Proof.
  intros H. cbn [delete_annotation_by_id DatabaseAnnotationStorage].
  unfold DatabaseAnnotationStorage_delete_annotation_by_id, try_except, bind,
    objects_get.
  assert (E : filter (fun row => opt_Z_eqb (Some (DbAnnotation_id row)) db_id
                                 && (DbAnnotation_doc_id row =? doc_id))
                (table w) = []).
  { induction (table w) as [|r t IH]; [reflexivity|]. cbn [filter].
    destruct (opt_Z_eqb (Some (DbAnnotation_id r)) db_id
              && (DbAnnotation_doc_id r =? doc_id)) eqn:E.
    - exfalso. apply (H r (or_introl eq_refl)).
      apply andb_true_iff in E. destruct E as [E1 E2].
      apply Z.eqb_eq in E2. split; [|exact E2].
      destruct db_id as [i|]; [|discriminate].
      cbn in E1. apply Z.eqb_eq in E1. congruence.
    - apply IH. intros row Hin. apply H. right. exact Hin. }
  rewrite E. reflexivity.
Qed.

Lemma filter_pk_absent (i d : Z) (t : list DbAnnotation) :
  ~ In i (map DbAnnotation_id t) ->
  filter (fun r => opt_Z_eqb (Some (DbAnnotation_id r)) (Some i)
                   && (DbAnnotation_doc_id r =? d)) t = [].
Proof.
  induction t as [|r t IH]; [reflexivity|]. cbn [map In filter opt_Z_eqb].
  intros H. destruct (Z.eqb_spec (DbAnnotation_id r) i) as [E|_]; [tauto|].
  cbn [andb]. apply IH. tauto.
Qed.

Lemma filter_unique_pk (i d : Z) (t : list DbAnnotation) (row : DbAnnotation) :
  NoDup (map DbAnnotation_id t) -> In row t ->
  DbAnnotation_id row = i -> DbAnnotation_doc_id row = d ->
  filter (fun r => opt_Z_eqb (Some (DbAnnotation_id r)) (Some i)
                   && (DbAnnotation_doc_id r =? d)) t = [row].
Proof.
  intros Hnd Hin Hi Hd. induction t as [|r t IH]; [contradiction|].
  cbn [map] in Hnd. inversion Hnd as [|? ? Hnotin Hnd']; subst.
  cbn [filter opt_Z_eqb]. destruct Hin as [->|Hin].
  - rewrite !Z.eqb_refl. cbn [andb]. f_equal.
    apply (filter_pk_absent _ _ t Hnotin).
  - destruct (Z.eqb_spec (DbAnnotation_id r) (DbAnnotation_id row)) as [E|_].
    + exfalso. apply Hnotin. rewrite E. apply in_map. exact Hin.
    + cbn [andb]. apply IH; assumption.
Qed.

Lemma database_delete_present {L : PyLib} {SV : Service} (doc_id i : Z)
    (w : World) (row : DbAnnotation) :
  NoDup (map DbAnnotation_id (table w)) -> In row (table w) ->
  DbAnnotation_id row = i -> DbAnnotation_doc_id row = doc_id ->
  delete_annotation_by_id DatabaseAnnotationStorage doc_id (Some i) w
  = Some (Ok true,
          mkWorld (svc w) (trace w)
            (filter (fun r => negb (DbAnnotation_id r =? i)) (table w))
            (next_pk w) (_custom_field_cache w)).
Proof.
  intros Hnd Hin Hi Hd. cbn [delete_annotation_by_id DatabaseAnnotationStorage].
  unfold DatabaseAnnotationStorage_delete_annotation_by_id, try_except, bind,
    objects_get.
  rewrite (filter_unique_pk i doc_id (table w) row Hnd Hin Hi Hd).
  unfold row_delete, ret. cbn. rewrite Hi. reflexivity.
Qed.

(** ** Listing the records of a document *)

(** The note backend passes over a note that does not decode and goes on
    with the notes after it. *)
Lemma notes_listing_skips {L : PyLib} {SV : Service} (self : AnnoSerializer)
    (doc_id : Z) (page : option Z) (w : World)
    (pre post : list Note) (bad : Note) (e : exn) (w' : World) :
  document_notes doc_id w = Some (Ok (pre ++ bad :: post)%list, w') ->
  note_to_annotation bad = Raise e ->
  get_annotations (PaperlessNotesStorage self) doc_id page w
  = Some (Ok ((flat_map (note_yields page) pre
               ++ flat_map (note_yields page) post)%list, None), w').
Proof.
  intros Hn Hbad. cbn [get_annotations PaperlessNotesStorage].
  unfold PaperlessNotesStorage_get_annotations, bind. rewrite Hn.
  unfold ret. rewrite flat_map_app. cbn [flat_map].
  unfold note_yields at 2. rewrite Hbad. reflexivity.
Qed.

Lemma rows_to_annotations_malformed {L : PyLib} (page : option Z)
    (pre post : list DbAnnotation) (bad : DbAnnotation) (e : exn) :
  (forall row, In row pre ->
               exists a, Annotation_init (DbAnnotation_anno_obj row) = Ok a) ->
  Annotation_init (DbAnnotation_anno_obj bad) = Raise e ->
  rows_to_annotations page (pre ++ bad :: post)
  = (fst (rows_to_annotations page pre), Some e).
Proof.
  intros Hpre Hbad. induction pre as [|r pre IH]; cbn [app rows_to_annotations].
  - rewrite Hbad. reflexivity.
  - destruct (Hpre r (or_introl eq_refl)) as [a Ha]. rewrite Ha.
    rewrite IH by (intros row Hin; apply Hpre; right; exact Hin).
    destruct (rows_to_annotations page pre) as [items stop].
    cbn [fst]. destruct (on_page page _); reflexivity.
Qed.

(** C7, database backend.  When the rows of the document are [pre], then a
    row whose stored object does not validate, then [post], the generator
    of [get_annotations] yields what the rows of [pre] give and then ends
    with the validation exception: nothing of [post] is yielded, and a
    loop over the generator raises. *)
Theorem database_listing_aborts_on_malformed {L : PyLib} {SV : Service}
    (doc_id : Z) (w : World) (pre post : list DbAnnotation)
    (bad : DbAnnotation) (e : exn) :
  filter (fun row => DbAnnotation_doc_id row =? doc_id) (table w)
  = (pre ++ bad :: post)%list ->
  (forall row, In row pre ->
               exists a, Annotation_init (DbAnnotation_anno_obj row) = Ok a) ->
  Annotation_init (DbAnnotation_anno_obj bad) = Raise e ->
  get_annotations DatabaseAnnotationStorage doc_id None w
  = Some (Ok (fst (rows_to_annotations None pre), Some e), w)
  /\ forall (B : Type) (body : Annotation -> B -> M B) (acc : B) r w',
       for_gen (fst (rows_to_annotations None pre), Some e) body acc w
       = Some (r, w') ->
       exists e', r = Raise e'.
Proof.
  intros Hrows Hpre Hbad. split.
  - cbn [get_annotations DatabaseAnnotationStorage].
    unfold DatabaseAnnotationStorage_get_annotations, bind, objects_filter, ret.
    assert (E : filter (fun row => (DbAnnotation_doc_id row =? doc_id) && true)
                  (table w)
                = filter (fun row => DbAnnotation_doc_id row =? doc_id) (table w)).
    { apply filter_ext. intros row. apply andb_true_r. }
    rewrite E, Hrows.
    rewrite (rows_to_annotations_malformed None pre post bad e Hpre Hbad).
    reflexivity.
  - intros B body acc r w'. unfold for_gen, bind. cbn [fst snd].
    destruct (for_each _ body acc w) as [[[acc'|e'] w1]|]; unfold raise.
    + intros [= <- <-]. eauto.
    + intros [= <- <-]. eauto.
    + discriminate.
Qed.

(** ** Cascade deletion *)

Lemma opt_Z_eqb_eq (a b : option Z) : opt_Z_eqb a b = true <-> a = b.
Proof.
  destruct a as [x|], b as [y|]; cbn; try (split; congruence).
  rewrite Z.eqb_eq. split; congruence.
Qed.

Lemma opt_Z_eqb_refl (a : option Z) : opt_Z_eqb a a = true.
Proof. apply opt_Z_eqb_eq. reflexivity. Qed.

Lemma opt_Z_eqb_sym (a b : option Z) : opt_Z_eqb a b = opt_Z_eqb b a.
Proof.
  destruct (opt_Z_eqb a b) eqn:E1, (opt_Z_eqb b a) eqn:E2; try reflexivity.
  - apply opt_Z_eqb_eq in E1. subst. rewrite opt_Z_eqb_refl in E2. discriminate.
  - apply opt_Z_eqb_eq in E2. subst. rewrite opt_Z_eqb_refl in E1. discriminate.
Qed.

Lemma filter_filter (A : Type) (f g : A -> bool) (l : list A) :
  filter f (filter g l) = filter (fun x => g x && f x) l.
Proof.
  induction l as [|x l IH]; [reflexivity|]. cbn [filter].
  destruct (g x); cbn [filter andb]; [destruct (f x)|]; rewrite IH; reflexivity.
Qed.

Lemma nodup_map_inj {A B : Type} (f : A -> B) (l : list A) (x y : A) :
  NoDup (map f l) -> In x l -> In y l -> f x = f y -> x = y.
Proof.
  induction l as [|a l IH]; [contradiction|]. cbn [map].
  intros Hnd Hx Hy E. inversion Hnd as [|? ? Hn Hnd']; subst.
  destruct Hx as [->|Hx], Hy as [->|Hy]; auto.
  - exfalso. apply Hn. rewrite E. apply in_map. exact Hy.
  - exfalso. apply Hn. rewrite <- E. apply in_map. exact Hx.
Qed.

Section Cascade.
Context {L : PyLib} {SV : Service}.
Variable st : AnnoStorage.
Variable good : Z -> World -> Prop.
Variable stored : Z -> World -> list Annotation.
Hypothesis contract : storage_contract st good stored.
Variable doc : Z.
Variable annotation : Annotation.
Variable id : json.
Hypothesis annotation_id : getattr_extra annotation "id" = Some id.

(** Whether the loop of [delete_anno] deletes [o]. *)
Let replies (o : Annotation) : bool :=
  negb (opt_Z_eqb (db_id o) (db_id annotation)) && py_eq (reply_to o) id.

Lemma is_reply_replies (o : Annotation) :
  is_reply annotation o = Ok (replies o).
Proof.
  unfold is_reply, replies, reply_to. rewrite annotation_id.
  destruct (negb _); reflexivity.
Qed.

Let body (other_anno : Annotation) (_ : unit) : M unit :=
  bind (lift (is_reply annotation other_anno))
    (fun reply : bool =>
       if reply
       then bind (delete_annotation_by_id st doc (db_id other_anno))
              (fun _ => ret tt)
       else ret tt).

Lemma cascade_loop (items : list Annotation) :
  forall w,
    good doc w ->
    (forall o, In o items -> In o (stored doc w)) ->
    NoDup (map db_id items) ->
    exists w',
      for_each items body tt w = Some (Ok tt, w')
      /\ good doc w'
      /\ stored doc w'
         = filter (fun o => negb (existsb
                                    (fun r => opt_Z_eqb (db_id o) (db_id r))
                                    (filter replies items)))
             (stored doc w).
Proof.
  induction items as [|x items IH]; intros w Hg Hin Hnd.
  - exists w. split; [reflexivity|]. split; [exact Hg|].
    cbn. symmetry. apply filter_all. reflexivity.
  - cbn [map] in Hnd. inversion Hnd as [|? ? Hx Hnd']; subst.
    cbn [for_each]. unfold bind at 1. unfold body at 1.
    unfold bind at 1, lift. rewrite is_reply_replies.
    cbn [filter]. destruct (replies x) eqn:Er.
    + destruct (contract_delete _ _ _ contract doc x w Hg
                  (Hin x (or_introl eq_refl))) as (w1 & Hd & Hg1 & Hs1).
      unfold bind at 1. rewrite Hd. unfold ret at 1.
      destruct (IH w1 Hg1) as (w' & Hrun & Hg' & Hs'); [|exact Hnd'|].
      * intros o Ho. rewrite Hs1. apply filter_In. split.
        -- apply Hin. right. exact Ho.
        -- apply negb_true_iff.
           destruct (opt_Z_eqb (db_id o) (db_id x)) eqn:E; [|reflexivity].
           apply opt_Z_eqb_eq in E. exfalso. apply Hx. rewrite <- E.
           apply in_map. exact Ho.
      * exists w'. split; [exact Hrun|]. split; [exact Hg'|].
        rewrite Hs', Hs1, filter_filter. apply filter_ext.
        intros o. cbn [existsb]. rewrite negb_orb. reflexivity.
    + unfold ret at 1.
      destruct (IH w Hg) as (w' & Hrun & Hg' & Hs'); [|exact Hnd'|].
      * intros o Ho. apply Hin. right. exact Ho.
      * exists w'. auto.
Qed.

(** What [delete_anno] leaves stored. *)
Lemma delete_anno_removes (w : World) :
  good doc w ->
  (exists a, In a (stored doc w) /\ db_id a = db_id annotation) ->
  exists w',
    PaperlessAnnotator_delete_anno st doc annotation w = Some (Ok true, w')
    /\ good doc w'
    /\ stored doc w'
       = filter (fun o => negb (removed_with annotation id o)) (stored doc w).
Proof.
  intros Hg (a & Ha & Hida).
  unfold PaperlessAnnotator_delete_anno.
  destruct (contract_get _ _ _ contract doc (Some (pageIndex annotation)) w Hg)
    as (w1 & Hget & Hg1 & Hs1).
  unfold bind at 1. rewrite Hget. unfold for_gen. cbn [fst snd].
  pose proof (contract_ids _ _ _ contract doc w1 Hg1) as Hnd.
  set (items := filter (on_page (Some (pageIndex annotation))) (stored doc w)).
  destruct (cascade_loop items w1 Hg1) as (w2 & Hrun & Hg2 & Hs2).
  { intros o Ho. rewrite Hs1. apply filter_In in Ho. tauto. }
  { rewrite Hs1 in Hnd. clear -Hnd. subst items.
    induction (stored doc w) as [|o l IH]; [constructor|].
    cbn [map] in Hnd. inversion Hnd; subst. cbn [filter].
    destruct (on_page _ o); auto. cbn [map]. constructor; auto.
    intros Hin. apply in_map_iff in Hin. destruct Hin as (y & Ey & Hy).
    apply filter_In in Hy. destruct Hy as [Hy _].
    match goal with H : ~ In _ _ |- _ => apply H end.
    rewrite <- Ey. apply in_map. exact Hy. }
  unfold bind at 1. unfold bind at 1. fold body. rewrite Hrun.
  unfold ret at 1.
  assert (Ha2 : In a (stored doc w2)).
  { rewrite Hs2, Hs1. apply filter_In. split; [exact Ha|].
    apply negb_true_iff. apply not_true_is_false. intros E.
    apply existsb_exists in E. destruct E as (r & Hr & E).
    apply filter_In in Hr. destruct Hr as [_ Hr]. unfold replies in Hr.
    apply opt_Z_eqb_eq in E. rewrite <- E, Hida, opt_Z_eqb_refl in Hr.
    discriminate. }
  destruct (contract_delete _ _ _ contract doc a w2 Hg2 Ha2)
    as (w3 & Hd & Hg3 & Hs3).
  rewrite <- Hida, Hd. exists w3. split; [reflexivity|]. split; [exact Hg3|].
  rewrite Hs3, Hs2, Hs1, filter_filter. rewrite Hs1 in Hnd.
  apply filter_ext_in. intros o Ho.
  unfold removed_with. rewrite <- Hida.
  destruct (opt_Z_eqb (db_id o) (db_id a)) eqn:Et;
    [rewrite andb_false_r; reflexivity|].
  rewrite andb_true_r. cbn [orb negb]. f_equal.
  destruct (on_page (Some (pageIndex annotation)) o && py_eq (reply_to o) id)
    eqn:Ec.
  - apply existsb_exists. exists o. split; [|apply opt_Z_eqb_refl].
    apply andb_true_iff in Ec. destruct Ec as [Ep Eq].
    apply filter_In. split.
    + apply filter_In. auto.
    + unfold replies. rewrite <- Hida, Et, Eq. reflexivity.
  - apply not_true_is_false. intros E.
    apply existsb_exists in E. destruct E as (r & Hr & E).
    apply filter_In in Hr. destruct Hr as [Hr Hrep].
    apply filter_In in Hr. destruct Hr as [Hr Hp].
    apply opt_Z_eqb_eq in E.
    assert (o = r) by (apply (nodup_map_inj db_id _ _ _ Hnd Ho Hr E)).
    subst r. unfold replies in Hrep. apply andb_true_iff in Hrep.
    destruct Hrep as [_ Hq]. rewrite Hp, Hq in Ec. discriminate.
Qed.

End Cascade.

(** ** The database backend keeps the contract *)

Section DatabaseContract.
Context {L : PyLib} {SV : Service}.

Lemma on_page_set_db_id (page i : option Z) (a : Annotation) :
  on_page page (set_db_id i a) = on_page page a.
Proof. destruct page; reflexivity. Qed.

Lemma rows_to_annotations_valid (page : option Z) (rows : list DbAnnotation) :
  (forall row, In row rows ->
               exists a, Annotation_init (DbAnnotation_anno_obj row) = Ok a) ->
  rows_to_annotations page rows
  = (filter (on_page page) (flat_map row_yields rows), None).
Proof.
  induction rows as [|r rows IH]; intros H; [reflexivity|].
  cbn [rows_to_annotations flat_map]. unfold row_yields at 1.
  destruct (H r (or_introl eq_refl)) as [a Ha]. rewrite Ha.
  rewrite IH by (intros row Hin; apply H; right; exact Hin).
  cbn [app filter]. destruct (on_page page _); reflexivity.
Qed.

Lemma row_yields_db_id (row : DbAnnotation) (a : Annotation) :
  In a (row_yields row) -> db_id a = Some (DbAnnotation_id row).
Proof.
  unfold row_yields. destruct (Annotation_init _); [|contradiction].
  intros [<-|[]]. reflexivity.
Qed.

Lemma yields_filter_pk (i : Z) (rows : list DbAnnotation) :
  flat_map row_yields (filter (fun r => negb (DbAnnotation_id r =? i)) rows)
  = filter (fun o => negb (opt_Z_eqb (db_id o) (Some i)))
      (flat_map row_yields rows).
Proof.
  induction rows as [|r rows IH]; [reflexivity|].
  cbn [filter flat_map]. rewrite filter_app, <- IH.
  assert (E : filter (fun o => negb (opt_Z_eqb (db_id o) (Some i)))
                (row_yields r)
              = if negb (DbAnnotation_id r =? i) then row_yields r else []).
  { unfold row_yields. destruct (Annotation_init _);
      [|destruct (negb _); reflexivity].
    cbn. destruct (DbAnnotation_id r =? i); reflexivity. }
  rewrite E. destruct (negb (DbAnnotation_id r =? i)); reflexivity.
Qed.

(** Records kept apart by a key stay so when some are dropped. *)
Lemma nodup_filter_map {Rec Key : Type} (key : Rec -> Key)
    (keep : Rec -> bool) :
  forall records,
    NoDup (map key records) -> NoDup (map key (filter keep records)).
Proof.
  intros records. induction records as [|x l IH]; [auto|].
  cbn [map filter]. intros H.
  inversion H as [|? ? Hn Hnd]; subst.
  destruct (keep x); [|auto]. cbn [map]. constructor; [|auto].
  intros Hin. apply Hn. apply in_map_iff in Hin.
  destruct Hin as (y & E & Hy). apply filter_In in Hy.
  rewrite <- E. apply in_map. tauto.
Qed.

Lemma yields_nodup (rows : list DbAnnotation) :
  NoDup (map DbAnnotation_id rows) ->
  NoDup (map db_id (flat_map row_yields rows)).
Proof.
  induction rows as [|r rows IH]; [constructor|]. cbn [map flat_map].
  intros H. inversion H as [|? ? Hn Hnd]; subst.
  rewrite map_app. unfold row_yields at 1.
  destruct (Annotation_init _); cbn [map app]; [|auto].
  constructor; [|auto]. intros Hin. apply in_map_iff in Hin.
  destruct Hin as (o & E & Ho). apply in_flat_map in Ho.
  destruct Ho as (r' & Hr' & Ho). apply row_yields_db_id in Ho.
  rewrite Ho in E. injection E as E. apply Hn. rewrite <- E.
  apply in_map. exact Hr'.
Qed.

Lemma page_column_filter (p : Z) (rows : list DbAnnotation) :
  (forall row, In row rows ->
     exists a, Annotation_init (DbAnnotation_anno_obj row) = Ok a
               /\ DbAnnotation_page_index row = Some (pageIndex a)) ->
  filter (on_page (Some p))
    (flat_map row_yields
       (filter (fun row => opt_Z_eqb (DbAnnotation_page_index row) (Some p))
          rows))
  = filter (on_page (Some p)) (flat_map row_yields rows).
Proof.
  induction rows as [|r rows IH]; intros H; [reflexivity|].
  cbn [filter flat_map].
  destruct (H r (or_introl eq_refl)) as (a & Ha & Hp).
  assert (IH' := IH (fun row Hin => H row (or_intror Hin))).
  rewrite Hp. cbn [opt_Z_eqb].
  destruct (pageIndex a =? p) eqn:E.
  - cbn [flat_map]. rewrite !filter_app, IH'. reflexivity.
  - rewrite filter_app, IH'. unfold row_yields. rewrite Ha.
    cbn [filter on_page set_db_id pageIndex]. rewrite E. reflexivity.
Qed.

Lemma database_contract :
  storage_contract DatabaseAnnotationStorage db_good db_stored.
Proof.
  constructor.
  - intros doc w [Hnd _]. unfold db_stored.
    apply yields_nodup, nodup_filter_map. exact Hnd.
  - intros doc page w Hg. exists w. split; [|auto].
    destruct Hg as [Hnd Hrows].
    cbn [get_annotations DatabaseAnnotationStorage].
    unfold DatabaseAnnotationStorage_get_annotations, bind, objects_filter, ret.
    unfold db_stored.
    set (rows := filter (fun row => DbAnnotation_doc_id row =? doc) (table w)).
    assert (Hvalid : forall row, In row rows ->
              exists a, Annotation_init (DbAnnotation_anno_obj row) = Ok a
                        /\ DbAnnotation_page_index row = Some (pageIndex a)).
    { intros row Hin. apply filter_In in Hin. destruct Hin as [Hin E].
      apply Z.eqb_eq in E. auto. }
    assert (Hplain : filter (fun row => (DbAnnotation_doc_id row =? doc) && true)
                       (table w) = rows).
    { apply filter_ext. intros row. apply andb_true_r. }
    assert (Hrun : forall rows', (forall row, In row rows' -> In row rows) ->
              rows_to_annotations page rows'
              = (filter (on_page page) (flat_map row_yields rows'), None)).
    { intros rows' Hsub. apply rows_to_annotations_valid.
      intros row Hin. destruct (Hvalid row (Hsub row Hin)) as (a & Ha & _).
      eauto. }
    destruct page as [p|].
    + destruct (Z.eq_dec p 0) as [->|Hp].
      * rewrite Hplain, Hrun by auto. reflexivity.
      * assert (Hcol : filter
                  (fun row => (DbAnnotation_doc_id row =? doc)
                              && opt_Z_eqb (DbAnnotation_page_index row) (Some p))
                  (table w)
                = filter (fun row => opt_Z_eqb (DbAnnotation_page_index row)
                                       (Some p)) rows).
        { subst rows. rewrite filter_filter. reflexivity. }
        destruct p; try contradiction; rewrite Hcol, Hrun;
          try (intros row Hin; apply filter_In in Hin; tauto);
          rewrite page_column_filter by exact Hvalid; reflexivity.
    + rewrite Hplain, Hrun by auto. reflexivity.
  - intros doc a w Hg Ha. destruct Hg as [Hnd Hrows].
    unfold db_stored in Ha. apply in_flat_map in Ha.
    destruct Ha as (row & Hrow & Ha). apply filter_In in Hrow.
    destruct Hrow as [Hrow Hdoc]. apply Z.eqb_eq in Hdoc.
    pose proof (row_yields_db_id row a Ha) as Hid.
    rewrite Hid.
    rewrite (database_delete_present doc (DbAnnotation_id row) w row
               Hnd Hrow eq_refl Hdoc).
    eexists. split; [reflexivity|]. split.
    + split; cbn [table].
      * apply nodup_filter_map. exact Hnd.
      * intros r Hr. apply filter_In in Hr. apply Hrows. tauto.
    + unfold db_stored. cbn [table].
      rewrite filter_filter.
      replace (filter (fun x => negb (DbAnnotation_id x =? DbAnnotation_id row)
                                && (DbAnnotation_doc_id x =? doc)) (table w))
        with (filter (fun r => negb (DbAnnotation_id r =? DbAnnotation_id row))
                (filter (fun row => DbAnnotation_doc_id row =? doc) (table w))).
      * apply yields_filter_pk.
      * rewrite filter_filter. apply filter_ext. intros x. apply andb_comm.
Qed.

End DatabaseContract.

(** ** The note backend keeps the contract on the reference service *)

Section NotesContract.
Context {L : PyLib}.
Existing Instance MemService.

Lemma pop_fault_none (s : Mem.state) :
  Mem.faults s = [] -> Mem.pop_fault s = s.
Proof. destruct s. cbn. intros ->. reflexivity. Qed.

Lemma mem_respond_no_fault (rq : Request) (s : Mem.state) :
  Mem.faults s = [] -> Mem.respond rq s = Mem.handle rq s.
Proof.
  intros H. unfold Mem.respond. rewrite H, pop_fault_none by exact H.
  reflexivity.
Qed.

Lemma note_yields_db_id (page : option Z) (note : Note) (a : Annotation) :
  In a (note_yields page note) -> db_id a = Some (Note_id note).
Proof.
  unfold note_yields, note_to_annotation, rbind.
  destruct (_note_content_to_anno (Note_note note)) as [[a'|]|];
    try contradiction.
  destruct (on_page page _); [|contradiction].
  intros [<-|[]]. reflexivity.
Qed.

Lemma note_yields_page (page : option Z) (note : Note) :
  note_yields page note = filter (on_page page) (note_yields None note).
Proof.
  unfold note_yields. destruct (note_to_annotation note); [|reflexivity].
  cbn [on_page filter]. destruct (on_page page a); reflexivity.
Qed.

Lemma yields_page (page : option Z) (notes : list Note) :
  flat_map (note_yields page) notes
  = filter (on_page page) (flat_map (note_yields None) notes).
Proof.
  induction notes as [|n notes IH]; [reflexivity|].
  cbn [flat_map]. rewrite filter_app, <- IH, <- note_yields_page. reflexivity.
Qed.

Lemma note_yields_filter_id (i : Z) (notes : list Note) :
  flat_map (note_yields None)
    (filter (fun n => negb (Note_id n =? i)) notes)
  = filter (fun o => negb (opt_Z_eqb (db_id o) (Some i)))
      (flat_map (note_yields None) notes).
Proof.
  induction notes as [|n notes IH]; [reflexivity|].
  cbn [filter flat_map]. rewrite filter_app, <- IH.
  assert (E : filter (fun o => negb (opt_Z_eqb (db_id o) (Some i)))
                (note_yields None n)
              = if negb (Note_id n =? i) then note_yields None n else []).
  { unfold note_yields, note_to_annotation, rbind.
    destruct (_note_content_to_anno (Note_note n)) as [[a'|]|];
      try (destruct (negb _); reflexivity).
    cbn. destruct (Note_id n =? i); reflexivity. }
  rewrite E. destruct (negb (Note_id n =? i)); reflexivity.
Qed.

Lemma note_yields_nodup (notes : list Note) :
  NoDup (map Note_id notes) ->
  NoDup (map db_id (flat_map (note_yields None) notes)).
Proof.
  induction notes as [|n notes IH]; [constructor|]. cbn [map flat_map].
  intros H. inversion H as [|? ? Hn Hnd]; subst.
  rewrite map_app.
  assert (Hrest : forall o, In o (flat_map (note_yields None) notes) ->
                            db_id o <> Some (Note_id n)).
  { intros o Ho E. apply in_flat_map in Ho. destruct Ho as (n' & Hn' & Ho).
    apply note_yields_db_id in Ho. rewrite Ho in E. injection E as E.
    apply Hn. rewrite <- E. apply in_map. exact Hn'. }
  destruct (note_yields None n) as [|a [|b l]] eqn:Ey; cbn [map app].
  - auto.
  - constructor; [|auto]. intros Hin. apply in_map_iff in Hin.
    destruct Hin as (o & E & Ho). apply (Hrest o Ho).
    rewrite E. apply (note_yields_db_id None n). rewrite Ey. left. reflexivity.
  - exfalso. unfold note_yields in Ey.
    destruct (note_to_annotation n); [|discriminate].
    destruct (on_page None a0); discriminate.
Qed.

Lemma notes_of_delete (doc i : Z) (notes : list (Z * Note)) :
  map snd (filter (fun dn => fst dn =? doc)
             (filter (fun dn => negb ((fst dn =? doc)
                                      && (Note_id (snd dn) =? i))) notes))
  = filter (fun n => negb (Note_id n =? i))
      (map snd (filter (fun dn => fst dn =? doc) notes)).
Proof.
  induction notes as [|[d n] notes IH]; [reflexivity|].
  cbn [filter fst snd]. destruct (d =? doc) eqn:Ed; cbn [andb negb].
  - destruct (Note_id n =? i) eqn:Ei; cbn [negb filter fst map snd];
      rewrite ?Ed; cbn [map snd filter]; rewrite ?Ei; cbn [negb];
      rewrite IH; reflexivity.
  - cbn [filter fst]. rewrite Ed. exact IH.
Qed.

Lemma notes_contract (self : AnnoSerializer) :
  storage_contract (PaperlessNotesStorage self) mem_good mem_stored.
Proof.
  constructor.
  - intros doc w (_ & _ & Hnd). apply note_yields_nodup. exact Hnd.
  - intros doc page w (Hf & Hd & Hnd).
    cbn [get_annotations PaperlessNotesStorage].
    unfold PaperlessNotesStorage_get_annotations, document_notes, bind,
      _request, ret.
    cbn [respond MemService]. rewrite mem_respond_no_fault by exact Hf.
    cbn [Mem.handle]. rewrite Hd.
    eexists. split; [rewrite yields_page; reflexivity|].
    split; [|reflexivity]. repeat split; assumption.
  - intros doc a w (Hf & Hd & Hnd) Ha.
    unfold mem_stored in Ha. apply in_flat_map in Ha.
    destruct Ha as (n & Hn & Ha).
    rewrite (note_yields_db_id None n a Ha).
    cbn [delete_annotation_by_id PaperlessNotesStorage].
    unfold PaperlessNotesStorage_delete_annotation_by_id, delete_note, bind,
      _request, ret.
    cbn [respond MemService]. rewrite mem_respond_no_fault by exact Hf.
    cbn [Mem.handle]. rewrite Hd.
    assert (Hhas : Mem.has_note doc (Note_id n) (svc w) = true).
    { unfold Mem.has_note. apply existsb_exists. exists n.
      split; [exact Hn|apply Z.eqb_refl]. }
    rewrite Hhas. cbn [andb].
    eexists. split; [reflexivity|].
    unfold mem_good, mem_stored, Mem.notes_of. cbn [svc Mem.faults Mem.notes
      Mem.has_doc Mem.docs].
    rewrite notes_of_delete. split.
    + split; [exact Hf|]. split; [exact Hd|].
      apply nodup_filter_map. exact Hnd.
    + apply note_yields_filter_id.
Qed.

End NotesContract.

(** C9.  On a backend that keeps the storage contract, as both backends do,
    deleting [A] through the orchestration layer removes [A] and the
    replies [B] and [C] on [A]'s page whose [inReplyToId] equals [A]'s
    domain id; it leaves stored [D], which replies to [A] from another
    page, and [E], which replies to [B]: the cascade has one level. *)
Theorem cascade_deletion {SV : Service} (st : AnnoStorage)
    (good : Z -> World -> Prop) (stored : Z -> World -> list Annotation)
    (doc : Z) (A B C D E : Annotation) (id_A id_B : json) (w : World) :
  storage_contract st good stored ->
  good doc w ->
  In A (stored doc w) -> In B (stored doc w) -> In C (stored doc w) ->
  In D (stored doc w) -> In E (stored doc w) ->
  getattr_extra A "id" = Some id_A ->
  getattr_extra B "id" = Some id_B ->
  pageIndex B = pageIndex A -> py_eq (reply_to B) id_A = true ->
  pageIndex C = pageIndex A -> py_eq (reply_to C) id_A = true ->
  pageIndex D <> pageIndex A -> py_eq (reply_to D) id_A = true ->
  E <> A -> py_eq (reply_to E) id_B = true ->
  py_eq (reply_to E) id_A = false ->
  exists w',
    PaperlessAnnotator_delete_anno st doc A w = Some (Ok true, w')
    /\ ~ In A (stored doc w') /\ ~ In B (stored doc w')
    /\ ~ In C (stored doc w')
    /\ In D (stored doc w') /\ In E (stored doc w').
Proof.
  intros Hc Hg HA HB HC HD HE Hid _ HpB HrB HpC HrC HpD HrD HEA _ HrE.
  destruct (delete_anno_removes st good stored Hc doc A id_A Hid w Hg)
    as (w' & Hrun & _ & Hs); [exists A; auto|].
  pose proof (contract_ids _ _ _ Hc doc w Hg) as Hnd.
  exists w'. split; [exact Hrun|]. rewrite Hs.
  assert (Hne : forall X, In X (stored doc w) -> X <> A ->
                          opt_Z_eqb (db_id X) (db_id A) = false).
  { intros X HX Hne. apply not_true_is_false. intros E'.
    apply opt_Z_eqb_eq in E'. apply Hne.
    apply (nodup_map_inj db_id _ _ _ Hnd HX HA E'). }
  assert (Hpage : forall X, pageIndex X = pageIndex A ->
                            on_page (Some (pageIndex A)) X = true).
  { intros X HX. cbn [on_page]. apply Z.eqb_eq. exact HX. }
  repeat split.
  - intros H. apply filter_In in H. destruct H as [_ H].
    unfold removed_with in H. rewrite opt_Z_eqb_refl in H. discriminate.
  - intros H. apply filter_In in H. destruct H as [_ H].
    unfold removed_with in H. rewrite (Hpage B HpB), HrB, orb_true_r in H.
    discriminate.
  - intros H. apply filter_In in H. destruct H as [_ H].
    unfold removed_with in H. rewrite (Hpage C HpC), HrC, orb_true_r in H.
    discriminate.
  - apply filter_In. split; [exact HD|]. unfold removed_with.
    rewrite (Hne D HD) by congruence. cbn [on_page orb].
    destruct (Z.eqb_spec (pageIndex D) (pageIndex A)); [contradiction|].
    reflexivity.
  - apply filter_In. split; [exact HE|]. unfold removed_with.
    rewrite (Hne E HE HEA), HrE, andb_false_r. reflexivity.
Qed.

(** ** Updating through the note backend *)

Section NotesUpdate.
Context {L : PyLib}.
Existing Instance MemService.

Lemma mem_request_ok (rq : Request) (w w' : World) (r : Response) :
  _request rq w = Some (Ok r, w') ->
  Mem.handle rq (Mem.pop_fault (svc w)) = (Some r, svc w')
  /\ trace w' = (trace w ++ [(rq, true)])%list.
Proof.
  unfold _request. cbn [respond MemService]. unfold Mem.respond.
  destruct (Mem.faults (svc w)) as [|[] f].
  - destruct (Mem.handle rq _) as [[r'|] s']; intros [= <- <-]; auto.
  - intros [=].
  - destruct (Mem.handle rq _) as [[r'|] s']; intros [= <- <-]; auto.
Qed.

Lemma notes_of_app (doc : Z) (l1 l2 : list (Z * Note)) (s : Mem.state) :
  map snd (filter (fun dn => fst dn =? doc) (l1 ++ l2))
  = (map snd (filter (fun dn => fst dn =? doc) l1)
     ++ map snd (filter (fun dn => fst dn =? doc) l2))%list.
Proof. rewrite filter_app, map_app. reflexivity. Qed.

Lemma last_map_some {A : Type} (l : list A) (x : A) :
  List.last (map Some (l ++ [x])) None = Some x.
Proof.
  induction l as [|a l IH]; [reflexivity|].
  cbn [app map]. cbn [List.last].
  destruct (map Some (l ++ [x])) eqn:E; [|exact IH].
  destruct l; discriminate.
Qed.

Lemma mem_delete_ok (doc old : Z) (s s' : Mem.state) (r : Response) :
  Mem.handle (DeleteNote doc (Some old)) s = (Some r, s') ->
  Mem.has_note doc old s = true
  /\ Mem.notes s'
     = filter (fun dn => negb ((fst dn =? doc) && (Note_id (snd dn) =? old)))
         (Mem.notes s)
  /\ Mem.next_note s' = Mem.next_note s.
Proof.
  cbn [Mem.handle].
  destruct (Mem.has_doc doc s && Mem.has_note doc old s) eqn:E; [|intros [=]].
  intros [= _ <-]. apply andb_true_iff in E. cbn. tauto.
Qed.

Lemma mem_post_ok (doc : Z) (content : string) (s s' : Mem.state)
    (r : Response) :
  Mem.handle (PostNote doc content) s = (Some r, s') ->
  r = RNotes (Mem.notes_of doc s')
  /\ Mem.notes s'
     = (Mem.notes s ++ [(doc, mkNote (Mem.next_note s) content)])%list.
Proof.
  cbn [Mem.handle]. destruct (Mem.has_doc doc s); [|intros [=]].
  intros [= <- <-]. cbn. auto.
Qed.

(** C10.  On the reference service, when [update_annotation] of the note
    backend succeeds, the annotation it returns carries the id the service
    gave to the note just created, which holds the new content; that id is
    not the [db_id] passed in, and no note stored afterwards has the
    [db_id] passed in. *)
Theorem notes_update_assigns_new_db_id (self : AnnoSerializer)
    (doc_id : Z) (updated_annotation returned : Annotation) (w w' : World) :
  mem_notes_wf (svc w) ->
  update_annotation (PaperlessNotesStorage self) doc_id updated_annotation w
  = Some (Ok returned, w') ->
  exists old new content,
    db_id updated_annotation = Some old
    /\ _anno_to_note_content self updated_annotation = Ok content
    /\ new = Mem.next_note (svc w)
    /\ returned = set_db_id (Some new) updated_annotation
    /\ new <> old
    /\ In (doc_id, mkNote new content) (Mem.notes (svc w'))
    /\ forall dn, In dn (Mem.notes (svc w')) -> Note_id (snd dn) <> old.
Proof.
  intros [Hnd Hlt].
  cbn [update_annotation PaperlessNotesStorage].
  unfold PaperlessNotesStorage_update_annotation.
  destruct (db_id updated_annotation) as [old|]; [|intros [=]].
  unfold PaperlessNotesStorage_delete_annotation_by_id, delete_note.
  rewrite !bind_run.
  destruct (_request (DeleteNote doc_id (Some old)) w)
    as [[[r1|e1] w1]|] eqn:Hdel; [|intros [=]|intros [=]].
  apply mem_request_ok in Hdel. destruct Hdel as [Hdel _].
  cbv beta iota. unfold ret, raise. cbv beta iota. cbn [negb].
  rewrite bind_run. unfold lift.
  destruct (_anno_to_note_content self updated_annotation) as [content|e2];
    [|intros [=]].
  unfold add_note_to_document. rewrite !bind_run.
  destruct (_request (PostNote doc_id content) w1)
    as [[[r2|e3] w2]|] eqn:Hadd; [|intros [=]|intros [=]].
  apply mem_request_ok in Hadd. destruct Hadd as [Hadd _].
  (* the delete request *)
  apply mem_delete_ok in Hdel. destruct Hdel as (Hnote & Hn1 & Hk1).
  cbn [Mem.notes Mem.next_note Mem.pop_fault] in Hn1, Hk1.
  unfold Mem.has_note, Mem.notes_of in Hnote.
  cbn [Mem.notes Mem.pop_fault] in Hnote.
  apply existsb_exists in Hnote. destruct Hnote as (n0 & Hn0 & En0).
  apply Z.eqb_eq in En0. apply in_map_iff in Hn0.
  destruct Hn0 as ([d0 n0'] & E0 & Hn0). cbn [snd] in E0. subst n0'.
  apply filter_In in Hn0. destruct Hn0 as [Hn0 Ed0]. cbn [fst] in Ed0.
  apply Z.eqb_eq in Ed0. subst d0.
  (* the post request *)
  apply mem_post_ok in Hadd. destruct Hadd as (Hr2 & Hn2).
  cbn [Mem.notes Mem.next_note Mem.pop_fault] in Hn2.
  rewrite Hk1 in Hn2. subst r2.
  unfold Mem.notes_of. rewrite Hn2, filter_app, map_app.
  cbn [filter fst]. rewrite Z.eqb_refl. cbn [map snd].
  rewrite last_map_some. cbv beta iota. intros [= <- <-].
  exists old, (Mem.next_note (svc w)), content.
  assert (Hold : old < Mem.next_note (svc w)).
  { rewrite <- En0. apply (Hlt (doc_id, n0) Hn0). }
  repeat split; try reflexivity.
  - lia.
  - rewrite Hn2. apply in_or_app. right. left. reflexivity.
  - rewrite Hn2, Hn1. intros [d n] Hin. cbn [snd].
    apply in_app_or in Hin. destruct Hin as [Hin|[Hin|[]]].
    + apply filter_In in Hin. destruct Hin as [Hin Hf]. cbn [fst snd] in Hf.
      intros E. apply negb_true_iff, andb_false_iff in Hf.
      destruct Hf as [Hf|Hf]; [|apply Z.eqb_neq in Hf; contradiction].
      apply Z.eqb_neq in Hf. apply Hf.
      assert (Hsame : (d, n) = (doc_id, n0)).
      { apply (nodup_map_inj (fun dn => Note_id (snd dn)) _ _ _ Hnd Hin Hn0).
        cbn [snd]. congruence. }
      congruence.
    + injection Hin as _ <-. cbn [Note_id]. lia.
Qed.

End NotesUpdate.

(** ** Requests and failures *)

Section Failures.
Context {SV : Service}.

Lemma clean_app (t1 t2 : list (Request * bool)) :
  clean (t1 ++ t2) = clean t1 && clean t2.
Proof. apply forallb_app. Qed.

Lemma failure_is_last_ok {A : Type} (a : A) (t : list (Request * bool)) :
  failure_is_last (Ok a) t -> clean t = true.
Proof. intros [H|(pre & rq & _ & _ & H)]; [exact H|discriminate H]. Qed.

Lemma failure_is_last_raise {A B : Type} (e : exn)
    (t : list (Request * bool)) :
  failure_is_last (@Raise A e) t -> failure_is_last (@Raise B e) t.
Proof.
  intros [H|(pre & rq & H1 & H2 & H3)]; [left; exact H|right].
  exists pre, rq. repeat split; try assumption. congruence.
Qed.

Lemma failure_is_last_app {A : Type} (r : result A)
    (t1 t2 : list (Request * bool)) :
  clean t1 = true -> failure_is_last r t2 -> failure_is_last r (t1 ++ t2).
Proof.
  intros H1 [H2|(pre & rq & E & H2 & H3)].
  - left. rewrite clean_app, H1, H2. reflexivity.
  - right. exists (t1 ++ pre)%list, rq. subst t2.
    rewrite app_assoc, clean_app, H1, H2. auto.
Qed.

Lemma stops_ret {A : Type} (a : A) : stops_at_failure (ret a).
Proof.
  intros w r w' [= <- <-]. exists []. rewrite app_nil_r.
  split; [reflexivity|left; reflexivity].
Qed.

Lemma stops_raise {A : Type} (e : exn) : stops_at_failure (@raise _ A e).
Proof.
  intros w r w' [= <- <-]. exists []. rewrite app_nil_r.
  split; [reflexivity|left; reflexivity].
Qed.

Lemma stops_lift {A : Type} (x : result A) : stops_at_failure (lift x).
Proof.
  intros w r w' [= <- <-]. exists []. rewrite app_nil_r.
  split; [reflexivity|left; reflexivity].
Qed.

Lemma stops_request (rq : Request) : stops_at_failure (_request rq).
Proof.
  intros w r w'. unfold _request.
  destruct (respond rq (svc w)) as [[x|] s']; intros [= <- <-]; cbn [trace].
  - exists [(rq, true)]. split; [reflexivity|left; reflexivity].
  - exists [(rq, false)]. split; [reflexivity|right].
    exists [], rq. auto.
Qed.

Lemma stops_bind {A B : Type} (m : M A) (k : A -> M B) :
  stops_at_failure m -> (forall a, stops_at_failure (k a)) ->
  stops_at_failure (bind m k).
Proof.
  intros Hm Hk w r w'. unfold bind.
  destruct (m w) as [[[a|e] w1]|] eqn:E; [| |discriminate].
  - destruct (Hm _ _ _ E) as (t1 & Ht1 & H1).
    apply failure_is_last_ok in H1. intros Hrun.
    destruct (Hk a _ _ _ Hrun) as (t2 & Ht2 & H2).
    exists (t1 ++ t2)%list. split.
    + rewrite Ht2, Ht1, app_assoc. reflexivity.
    + apply failure_is_last_app; assumption.
  - destruct (Hm _ _ _ E) as (t1 & Ht1 & H1).
    intros [= <- <-]. exists t1. split; [exact Ht1|].
    apply (failure_is_last_raise e t1 H1).
Qed.

Lemma stops_for_each {A B : Type} (l : list A) (body : A -> B -> M B) :
  (forall x acc, stops_at_failure (body x acc)) ->
  forall acc, stops_at_failure (for_each l body acc).
Proof.
  intros Hb. induction l as [|x l IH]; intros acc; cbn [for_each].
  - apply stops_ret.
  - apply stops_bind; [apply Hb|exact IH].
Qed.

Lemma stops_for_gen {A B : Type} (g : gen A) (body : A -> B -> M B) :
  (forall x acc, stops_at_failure (body x acc)) ->
  forall acc, stops_at_failure (for_gen g body acc).
Proof.
  intros Hb acc. unfold for_gen. apply stops_bind.
  - apply stops_for_each. exact Hb.
  - intros acc'. destruct (snd g); [apply stops_raise|apply stops_ret].
Qed.

Lemma stops_documents_iter (fuel : nat) :
  forall page, stops_at_failure (documents_iter fuel page).
Proof.
  induction fuel as [|fuel IH]; intros page; cbn [documents_iter].
  - intros w r w' [=].
  - apply stops_bind; [apply stops_request|].
    intros [results next| | | | |]; try apply stops_raise.
    destruct next; [|apply stops_ret].
    apply stops_bind; [apply IH|]. intros rest. apply stops_ret.
Qed.

End Failures.

Section FailuresInNotes.
Context {L : PyLib} {SV : Service}.
Variable self : AnnoSerializer.

Lemma stops_notes_get (doc_id : Z) (page : option Z) :
  stops_at_failure
    (get_annotations (PaperlessNotesStorage self) doc_id page).
Proof.
  cbn [get_annotations PaperlessNotesStorage].
  unfold PaperlessNotesStorage_get_annotations, document_notes.
  apply stops_bind.
  - apply stops_bind; [apply stops_request|].
    intros []; try apply stops_raise. apply stops_ret.
  - intros notes. apply stops_ret.
Qed.

Lemma stops_notes_delete (doc_id : Z) (db_id : option Z) :
  stops_at_failure
    (delete_annotation_by_id (PaperlessNotesStorage self) doc_id db_id).
Proof.
  cbn [delete_annotation_by_id PaperlessNotesStorage].
  unfold PaperlessNotesStorage_delete_annotation_by_id, delete_note.
  apply stops_bind; [apply stops_request|]. intros _. apply stops_ret.
Qed.

Lemma stops_delete_all (fuel : nat) (docs_to_skip : option (list Z)) :
  stops_at_failure
    (PaperlessAnnotator_delete_all_annotations (PaperlessNotesStorage self)
       fuel docs_to_skip).
Proof.
  unfold PaperlessAnnotator_delete_all_annotations,
    get_all_documents_with_annotations.
  apply stops_bind; [apply stops_documents_iter|]. intros _.
  apply stops_bind; [apply stops_documents_iter|]. intros documents.
  apply stops_for_each. intros doc acc.
  assert (Hbody : forall acc',
            stops_at_failure
              (bind (get_annotations (PaperlessNotesStorage self)
                       (Document_id doc) None)
                 (fun annos =>
                    for_gen annos
                      (fun anno processed_docs =>
                         bind (delete_annotation_by_id
                                 (PaperlessNotesStorage self)
                                 (Document_id doc) (db_id anno))
                           (fun _ => ret (set_add (Document_id doc)
                                            processed_docs)))
                      acc'))).
  { intros acc'. apply stops_bind; [apply stops_notes_get|]. intros annos.
    apply stops_for_gen. intros anno acc''.
    apply stops_bind; [apply stops_notes_delete|]. intros _. apply stops_ret. }
  match goal with
  | |- context [skipped ?l doc] => destruct (skipped l doc)
  end; [apply stops_ret|].
  apply stops_bind; [apply stops_notes_get|].
  intros [[|x items] [e|]]; cbv beta iota;
    try apply stops_raise; try apply stops_ret; apply Hbody.
Qed.

(** A request that failed is the last one the call sent, and the call
    raised the client's error. *)
Lemma failed_request_ends_delete_all (fuel : nat)
    (docs_to_skip : option (list Z)) (w w' : World) (r : result (list Z))
    (t pre post : list (Request * bool)) (rq : Request) :
  PaperlessAnnotator_delete_all_annotations (PaperlessNotesStorage self)
    fuel docs_to_skip w = Some (r, w') ->
  trace w' = (trace w ++ pre ++ (rq, false) :: post)%list ->
  post = [] /\ r = Raise PaperlessAPIError.
Proof.
  intros Hrun Ht.
  destruct (stops_delete_all fuel docs_to_skip _ _ _ Hrun) as (t' & Ht' & H).
  rewrite Ht' in Ht. apply app_inv_head in Ht. subst t'.
  destruct H as [H|(pre' & rq' & E & Hc & Hr)].
  - rewrite clean_app in H. cbn in H. rewrite andb_false_r in H. discriminate.
  - split; [|exact Hr].
    destruct post as [|p post] using rev_ind; [reflexivity|].
    exfalso. clear IHpost.
    change ((rq, false) :: post ++ [p])%list
      with (((rq, false) :: post) ++ [p])%list in E.
    rewrite app_assoc in E. apply app_inj_tail in E. destruct E as [E _].
    rewrite <- E, clean_app in Hc. cbn in Hc. rewrite andb_false_r in Hc.
    discriminate.
Qed.

End FailuresInNotes.

(** ** Deleting every annotation *)

Lemma set_add_In (x d : Z) (s : list Z) :
  In x (set_add d s) <-> x = d \/ In x s.
Proof.
  unfold set_add. destruct (existsb (Z.eqb d) s) eqn:E.
  - apply existsb_exists in E. destruct E as (y & Hy & E).
    apply Z.eqb_eq in E. subst y. split; [auto|]. intros [->|H]; auto.
  - rewrite in_app_iff. cbn. split; intros [H|H]; auto.
    destruct H as [H|[]]; auto.
Qed.

Lemma set_add_idem (d : Z) (s : list Z) :
  set_add d (set_add d s) = set_add d s.
Proof.
  unfold set_add at 1.
  assert (E : existsb (Z.eqb d) (set_add d s) = true).
  { apply existsb_exists. exists d. split; [|apply Z.eqb_refl].
    apply set_add_In. left. reflexivity. }
  rewrite E. reflexivity.
Qed.

Lemma filter_none {A : Type} (f : A -> bool) (l : list A) :
  (forall x, In x l -> f x = false) -> filter f l = [].
Proof.
  induction l as [|a l IH]; intros H; [reflexivity|]. cbn [filter].
  rewrite (H a (or_introl eq_refl)). apply IH.
  intros x Hx. apply H. right. exact Hx.
Qed.

Lemma filter_self_ids (l : list Annotation) :
  filter (fun o => negb (existsb (fun r => opt_Z_eqb (db_id o) (db_id r)) l)) l
  = [].
Proof.
  apply filter_none. intros o Ho. apply negb_false_iff, existsb_exists.
  exists o. split; [exact Ho|apply opt_Z_eqb_refl].
Qed.

Section DeleteAll.
Context {SV : Service}.
Variable st : AnnoStorage.
Variable good : Z -> World -> Prop.
Variable stored : Z -> World -> list Annotation.
Hypothesis contract : storage_contract st good stored.
Hypothesis frame : storage_frame st good stored.

(** The inner loop of [delete_all_annotations] on document [d]. *)
Let delete_body (d : Z) (anno : Annotation) (processed_docs : list Z)
    : M (list Z) :=
  bind (delete_annotation_by_id st d (db_id anno))
    (fun _ => ret (set_add d processed_docs)).

Lemma delete_each (d : Z) (items : list Annotation) :
  forall w acc,
    good d w ->
    (forall o, In o items -> In o (stored d w)) ->
    NoDup (map db_id items) ->
    exists w',
      for_each items (delete_body d) acc w
      = Some (Ok (match items with [] => acc | _ => set_add d acc end), w')
      /\ good d w'
      /\ stored d w'
         = filter (fun o => negb (existsb
                                    (fun r => opt_Z_eqb (db_id o) (db_id r))
                                    items))
             (stored d w)
      /\ forall d', d' <> d -> good d' w ->
                    good d' w' /\ stored d' w' = stored d' w.
Proof.
  induction items as [|x items IH]; intros w acc Hg Hin Hnd.
  - exists w. split; [reflexivity|]. split; [exact Hg|]. split; [|auto].
    cbn. symmetry. apply filter_all. reflexivity.
  - cbn [map] in Hnd. inversion Hnd as [|? ? Hx Hnd']; subst.
    cbn [for_each]. unfold bind at 1. unfold delete_body at 1.
    unfold bind at 1.
    destruct (contract_delete _ _ _ contract d x w Hg
                (Hin x (or_introl eq_refl))) as (w1 & Hd & Hg1 & Hs1).
    rewrite Hd. unfold ret at 1.
    destruct (IH w1 (set_add d acc) Hg1) as (w' & Hrun & Hg' & Hs' & Hf');
      [|exact Hnd'|].
    + intros o Ho. rewrite Hs1. apply filter_In. split.
      * apply Hin. right. exact Ho.
      * apply negb_true_iff.
        destruct (opt_Z_eqb (db_id o) (db_id x)) eqn:E; [|reflexivity].
        apply opt_Z_eqb_eq in E. exfalso. apply Hx. rewrite <- E.
        apply in_map. exact Ho.
    + exists w'. split.
      { rewrite Hrun. destruct items; [reflexivity|].
        rewrite set_add_idem. reflexivity. }
      split; [exact Hg'|]. split.
      * rewrite Hs', Hs1, filter_filter. apply filter_ext.
        intros o. cbn [existsb]. rewrite negb_orb. reflexivity.
      * intros d' Hd' Hgd'.
        destruct (frame_delete _ _ _ frame d (db_id x) w _ w1 d' Hd Hd' Hgd')
          as [Hg1' Hs1'].
        destruct (Hf' d' Hd' Hg1') as [Hg2' Hs2'].
        split; [exact Hg2'|]. congruence.
Qed.

(** One turn of the outer loop, on a document that is not skipped. *)
Let process (d : Z) (processed_docs : list Z) : M (list Z) :=
  bind (get_annotations st d None)
    (fun probe =>
       match probe with
       | (_ :: _, _) =>
           bind (get_annotations st d None)
             (fun annos => for_gen annos (delete_body d) processed_docs)
       | ([], Some e) => raise e
       | ([], None) => ret processed_docs
       end).

Lemma filter_on_page_none (l : list Annotation) :
  filter (on_page None) l = l.
Proof. apply filter_all. reflexivity. Qed.

Lemma process_deletes (d : Z) (w : World) (acc : list Z) :
  good d w ->
  exists w',
    process d acc w
    = Some (Ok (match stored d w with [] => acc | _ => set_add d acc end), w')
    /\ good d w' /\ stored d w' = []
    /\ forall d', d' <> d -> good d' w ->
                  good d' w' /\ stored d' w' = stored d' w.
Proof.
  intros Hg. unfold process.
  destruct (contract_get _ _ _ contract d None w Hg) as (w1 & Hget & Hg1 & Hs1).
  rewrite filter_on_page_none in Hget.
  unfold bind at 1. rewrite Hget.
  destruct (stored d w) as [|x items] eqn:Es.
  - exists w1. split; [reflexivity|]. split; [exact Hg1|].
    split; [exact Hs1|]. intros d' _ Hgd'.
    apply (frame_get _ _ _ frame d None w _ w1 d' Hget Hgd').
  - destruct (contract_get _ _ _ contract d None w1 Hg1)
      as (w2 & Hget2 & Hg2 & Hs2).
    rewrite filter_on_page_none in Hget2.
    unfold bind at 1. rewrite Hget2. unfold for_gen. cbn [fst snd].
    pose proof (contract_ids _ _ _ contract d w2 Hg2) as Hnd.
    destruct (delete_each d (stored d w1) w2 acc Hg2)
      as (w3 & Hrun & Hg3 & Hs3 & Hf3).
    { intros o Ho. rewrite Hs2. exact Ho. }
    { rewrite Hs2 in Hnd. exact Hnd. }
    unfold bind at 1. rewrite Hrun. rewrite Hs1. unfold ret.
    exists w3. split; [reflexivity|]. split; [exact Hg3|]. split.
    + rewrite Hs3, Hs2. apply filter_self_ids.
    + intros d' Hd' Hgd'.
      destruct (frame_get _ _ _ frame d None w _ w1 d' Hget Hgd') as [G1 S1].
      destruct (frame_get _ _ _ frame d None w1 _ w2 d' Hget2 G1) as [G2 S2].
      destruct (Hf3 d' Hd' G2) as [G3 S3].
      split; [exact G3|]. congruence.
Qed.

Lemma set_add_NoDup (d : Z) (s : list Z) : NoDup s -> NoDup (set_add d s).
Proof.
  intros H. unfold set_add. destruct (existsb (Z.eqb d) s) eqn:E; [exact H|].
  apply NoDup_app; [exact H|repeat constructor; intros []|].
  intros x Hx [Hd|[]]. subst x.
  assert (existsb (Z.eqb d) s = true); [|congruence].
  apply existsb_exists. exists d. split; [exact Hx|apply Z.eqb_refl].
Qed.

Variable docs_to_skip : list Z.

Let step (doc : Document) (processed_docs : list Z) : M (list Z) :=
  if skipped docs_to_skip doc then ret processed_docs
  else process (Document_id doc) processed_docs.

Lemma outer_loop (docs : list Document) :
  forall w acc,
    NoDup acc ->
    (forall doc, In doc docs -> skipped docs_to_skip doc = false ->
                 good (Document_id doc) w) ->
    exists acc' w',
      for_each docs step acc w = Some (Ok acc', w')
      /\ NoDup acc'
      /\ (forall x, In x acc' <->
                    In x acc
                    \/ exists doc, In doc docs
                                   /\ skipped docs_to_skip doc = false
                                   /\ Document_id doc = x
                                   /\ stored x w <> [])
      /\ (forall doc, In doc docs -> skipped docs_to_skip doc = false ->
                      stored (Document_id doc) w' = [])
      /\ (forall d, good d w -> good d w')
      /\ (forall d, good d w ->
                    (forall doc, In doc docs ->
                                 skipped docs_to_skip doc = false ->
                                 Document_id doc <> d) ->
                    stored d w' = stored d w).
Proof.
  induction docs as [|doc docs IH]; intros w acc Hnd Hgood.
  - exists acc, w. split; [reflexivity|]. split; [exact Hnd|].
    split; [|split; [intros ? []|split; auto]].
    intros x. split; [auto|]. intros [H|(doc & [] & _)]. exact H.
  - cbn [for_each]. unfold bind at 1. unfold step at 1.
    destruct (skipped docs_to_skip doc) eqn:Esk.
    + unfold ret at 1.
      destruct (IH w acc Hnd) as (acc' & w' & Hrun & Hnd' & Hin & Hst & Hg & Hfr).
      { intros doc' H1 H2. apply Hgood; [right; exact H1|exact H2]. }
      exists acc', w'. split; [exact Hrun|]. split; [exact Hnd'|].
      split; [|split; [|split; [exact Hg|]]].
      * intros x. rewrite Hin. split; intros [H|(doc' & H1 & H2 & H3 & H4)];
          auto; right; exists doc'.
        -- split; [right; exact H1|auto].
        -- destruct H1 as [<-|H1]; [congruence|auto].
      * intros doc' [<-|H1] H2; [congruence|]. apply Hst; assumption.
      * intros d Hd Hno. apply Hfr; [exact Hd|].
        intros doc' H1 H2. apply Hno; [right; exact H1|exact H2].
    + set (d := Document_id doc).
      assert (Hgd : good d w) by (apply Hgood; [left; reflexivity|exact Esk]).
      destruct (process_deletes d w acc Hgd) as (w1 & Hp & Hg1 & Hs1 & Hf1).
      rewrite Hp.
      set (acc1 := match stored d w with [] => acc | _ => set_add d acc end).
      assert (Hnd1 : NoDup acc1).
      { subst acc1. destruct (stored d w); [exact Hnd|].
        apply set_add_NoDup. exact Hnd. }
      assert (Hstep : forall d', good d' w -> good d' w1).
      { intros d' Hgd'. destruct (Z.eq_dec d' d) as [->|Hne]; [exact Hg1|].
        apply (Hf1 d' Hne Hgd'). }
      destruct (IH w1 acc1 Hnd1)
        as (acc' & w' & Hrun & Hnd' & Hin & Hst & Hg & Hfr).
      { intros doc' H1 H2. apply Hstep. apply Hgood; [right; exact H1|exact H2]. }
      exists acc', w'. split; [exact Hrun|]. split; [exact Hnd'|].
      assert (Hacc1 : forall x, In x acc1 <->
                                In x acc \/ (x = d /\ stored d w <> [])).
      { intros x. subst acc1. destruct (stored d w) as [|o l].
        - split; [auto|]. intros [H|[_ H]]; [exact H|contradiction].
        - rewrite set_add_In. split; intros [H|H]; auto.
          + right. split; [exact H|discriminate].
          + left. tauto. }
      split; [|split].
      * intros x. rewrite Hin, Hacc1. split.
        -- intros [[H|[-> H]]|(doc' & H1 & H2 & H3 & H4)].
           ++ auto.
           ++ right. exists doc. split; [left; reflexivity|]. auto.
           ++ right. exists doc'. split; [right; exact H1|].
              split; [exact H2|]. split; [exact H3|].
              destruct (Z.eq_dec x d) as [->|Hne]; [congruence|].
              assert (Hgx : good x w).
              { rewrite <- H3. apply Hgood; [right; exact H1|exact H2]. }
              destruct (Hf1 x Hne Hgx) as [_ E]. rewrite <- E. exact H4.
        -- intros [H|(doc' & [<-|H1] & H2 & H3 & H4)].
           ++ auto.
           ++ left. right. subst x. auto.
           ++ destruct (Z.eq_dec x d) as [->|Hne]; [left; right; auto|].
              right. exists doc'. repeat split; try assumption.
              assert (Hgx : good x w).
              { rewrite <- H3. apply Hgood; [right; exact H1|exact H2]. }
              destruct (Hf1 x Hne Hgx) as [_ E]. rewrite E. exact H4.
      * intros doc' [<-|H1] H2; [|apply Hst; assumption].
        fold d.
        destruct (existsb (fun doc' => negb (skipped docs_to_skip doc')
                                       && (Document_id doc' =? d)) docs)
          eqn:Ex.
        -- apply existsb_exists in Ex. destruct Ex as (doc' & H1 & E).
           apply andb_true_iff in E. destruct E as [E1 E2].
           apply negb_true_iff in E1. apply Z.eqb_eq in E2.
           rewrite <- E2. apply Hst; assumption.
        -- rewrite (Hfr d Hg1); [exact Hs1|].
           intros doc' H1 H3 E.
           assert (existsb (fun doc' => negb (skipped docs_to_skip doc')
                                        && (Document_id doc' =? d)) docs
                   = true); [|congruence].
           apply existsb_exists. exists doc'. split; [exact H1|].
           rewrite H3, E, Z.eqb_refl. reflexivity.
      * split; [intros d' Hgd'; apply Hg, Hstep, Hgd'|].
        intros d' Hgd' Hno.
        assert (Hne : d' <> d).
        { intros ->. apply (Hno doc); [left; reflexivity|exact Esk|reflexivity]. }
        destruct (Hf1 d' Hne Hgd') as [G1 S1].
        rewrite (Hfr d' G1); [exact S1|].
        intros doc' H1 H2. apply Hno; [right; exact H1|exact H2].
Qed.

End DeleteAll.

(** ** Both backends leave the other documents alone *)

Section DatabaseFrame.
Context {L : PyLib} {SV : Service}.

Lemma request_table (rq : Request) (w w' : World) (r : result Response) :
  _request rq w = Some (r, w') -> table w' = table w.
Proof.
  unfold _request. destruct (respond rq (svc w)) as [[a|] s'];
    intros [= _ <-]; reflexivity.
Qed.

Lemma documents_iter_table (fuel : nat) :
  forall page w r w',
    documents_iter fuel page w = Some (r, w') -> table w' = table w.
Proof.
  induction fuel as [|fuel IH]; intros page w r w'; [discriminate|].
  cbn [documents_iter]. rewrite bind_run.
  destruct (_request (GetDocuments page) w) as [[[p|e] w1]|] eqn:E;
    [|intros [= _ <-]; eapply request_table; exact E|discriminate].
  apply request_table in E.
  destruct p as [results next| | | | |]; try (intros [= _ <-]; exact E).
  destruct next; [|intros [= _ <-]; exact E].
  rewrite bind_run.
  destruct (documents_iter fuel (page + 1) w1) as [[[rest|e] w2]|] eqn:E2;
    [| |discriminate]; intros [= _ <-]; apply IH in E2; congruence.
Qed.

Lemma database_listing_transparent (fuel : nat) :
  listing_transparent db_good db_stored fuel.
Proof.
  intros w r w' d Hrun Hg. apply documents_iter_table in Hrun.
  unfold db_good, db_stored. rewrite Hrun. split; [exact Hg|reflexivity].
Qed.

Lemma filter_other_pk (d : Z) (row : DbAnnotation) (t : list DbAnnotation) :
  NoDup (map DbAnnotation_id t) -> In row t -> DbAnnotation_doc_id row <> d ->
  filter (fun r => DbAnnotation_doc_id r =? d)
    (filter (fun r => negb (DbAnnotation_id r =? DbAnnotation_id row)) t)
  = filter (fun r => DbAnnotation_doc_id r =? d) t.
Proof.
  intros Hnd Hin Hne. rewrite filter_filter. apply filter_ext_in.
  intros r Hr. destruct (Z.eqb_spec (DbAnnotation_id r) (DbAnnotation_id row))
    as [E|_]; [|reflexivity].
  cbn [negb andb]. symmetry. apply Z.eqb_neq.
  assert (r = row); [|congruence].
  clear Hne. induction t as [|x t IH]; [contradiction|].
  cbn [map] in Hnd. inversion Hnd as [|? ? Hn Hnd']; subst.
  destruct Hr as [->|Hr], Hin as [->|Hin]; auto.
  - exfalso. apply Hn. rewrite E. apply in_map. exact Hin.
  - exfalso. apply Hn. rewrite <- E. apply in_map. exact Hr.
Qed.

Lemma database_frame :
  storage_frame DatabaseAnnotationStorage db_good db_stored.
Proof.
  constructor.
  - intros doc page w r w' d.
    cbn [get_annotations DatabaseAnnotationStorage].
    unfold DatabaseAnnotationStorage_get_annotations, bind, objects_filter, ret.
    intros [= _ <-]. auto.
  - intros doc i w r w' d.
    cbn [delete_annotation_by_id DatabaseAnnotationStorage].
    unfold DatabaseAnnotationStorage_delete_annotation_by_id, try_except, bind,
      objects_get.
    destruct (filter _ (table w)) as [|row [|row' rest]] eqn:Ef.
    + cbn. intros [= _ <-]. auto.
    + unfold row_delete, ret. intros [= _ <-] Hne [Hnd Hrows].
      assert (Hrow : In row (table w) /\ DbAnnotation_doc_id row = doc).
      { assert (Hin : In row [row]) by (left; reflexivity).
        rewrite <- Ef in Hin. apply filter_In in Hin.
        destruct Hin as [Hin E]. apply andb_true_iff in E.
        destruct E as [_ E]. apply Z.eqb_eq in E. auto. }
      destruct Hrow as [Hin Hdoc].
      unfold db_good, db_stored. cbn [table]. split; [split|].
      * apply nodup_filter_map. exact Hnd.
      * intros r0 Hr0. apply filter_In in Hr0. apply Hrows. tauto.
      * rewrite filter_other_pk; [reflexivity|exact Hnd|exact Hin|congruence].
    + cbn. intros [= _ <-]. auto.
Qed.

End DatabaseFrame.

Section NotesFrame.
Context {L : PyLib}.
Existing Instance MemService.

Lemma mem_request_state (rq : Request) (w w' : World) (r : result Response) :
  Mem.faults (svc w) = [] ->
  _request rq w = Some (r, w') ->
  svc w' = snd (Mem.handle rq (svc w)).
Proof.
  intros Hf. unfold _request. cbn [respond MemService].
  rewrite mem_respond_no_fault by exact Hf.
  destruct (Mem.handle rq (svc w)) as [[a|] s']; intros [= _ <-]; reflexivity.
Qed.

Lemma mem_documents_iter_state (fuel : nat) :
  forall page w r w',
    Mem.faults (svc w) = [] ->
    documents_iter fuel page w = Some (r, w') -> svc w' = svc w.
Proof.
  induction fuel as [|fuel IH]; intros page w r w' Hf; [discriminate|].
  cbn [documents_iter]. rewrite bind_run.
  destruct (_request (GetDocuments page) w) as [[[p|e] w1]|] eqn:E;
    [| |discriminate]; apply (mem_request_state _ _ _ _ Hf) in E;
    cbn [Mem.handle snd] in E; [|intros [= _ <-]; exact E].
  destruct p as [results next| | | | |]; try (intros [= _ <-]; exact E).
  destruct next; [|intros [= _ <-]; exact E].
  rewrite bind_run.
  destruct (documents_iter fuel (page + 1) w1) as [[[rest|e] w2]|] eqn:E2;
    [| |discriminate]; intros [= _ <-]; apply IH in E2; congruence.
Qed.

Lemma notes_listing_transparent (fuel : nat) :
  listing_transparent mem_good mem_stored fuel.
Proof.
  intros w r w' d Hrun Hg. pose proof Hg as (Hf & _).
  apply (mem_documents_iter_state _ _ _ _ _ Hf) in Hrun.
  unfold mem_good, mem_stored. rewrite Hrun. split; [exact Hg|reflexivity].
Qed.

Lemma notes_of_other (d doc i : Z) (notes : list (Z * Note)) :
  d <> doc ->
  map snd (filter (fun dn => fst dn =? d)
             (filter (fun dn => negb ((fst dn =? doc)
                                      && (Note_id (snd dn) =? i))) notes))
  = map snd (filter (fun dn => fst dn =? d) notes).
Proof.
  intros Hne. f_equal. rewrite filter_filter. apply filter_ext.
  intros [x n]. cbn [fst snd]. destruct (Z.eqb_spec x d) as [->|_].
  - destruct (Z.eqb_spec d doc); [contradiction|]. reflexivity.
  - apply andb_false_r.
Qed.

Lemma mem_document_notes_state (doc : Z) (w w' : World)
    (r : result (list Note)) :
  Mem.faults (svc w) = [] ->
  document_notes doc w = Some (r, w') -> svc w' = svc w.
Proof.
  intros Hf. unfold document_notes. rewrite bind_run.
  destruct (_request (GetNotes doc) w) as [[[p|e] w1]|] eqn:E;
    [| |discriminate]; apply (mem_request_state _ _ _ _ Hf) in E;
    cbn [Mem.handle snd] in E.
  - destruct p; intros [= _ <-]; exact E.
  - intros [= _ <-]. exact E.
Qed.

Lemma mem_delete_note_state (doc : Z) (i : option Z) (w w' : World)
    (r : result bool) :
  Mem.faults (svc w) = [] ->
  delete_note doc i w = Some (r, w') ->
  svc w' = snd (Mem.handle (DeleteNote doc i) (svc w)).
Proof.
  intros Hf. unfold delete_note. rewrite bind_run.
  destruct (_request (DeleteNote doc i) w) as [[[p|e] w1]|] eqn:E;
    [| |discriminate]; apply (mem_request_state _ _ _ _ Hf) in E;
    intros [= _ <-]; exact E.
Qed.

Lemma notes_frame (self : AnnoSerializer) :
  storage_frame (PaperlessNotesStorage self) mem_good mem_stored.
Proof.
  constructor.
  - intros doc page w r w' d.
    cbn [get_annotations PaperlessNotesStorage].
    unfold PaperlessNotesStorage_get_annotations.
    rewrite bind_run. intros Hrun Hg. pose proof Hg as (Hf & _).
    destruct (document_notes doc w) as [[[p|e] w1]|] eqn:E;
      [| |discriminate]; apply (mem_document_notes_state _ _ _ _ Hf) in E;
      injection Hrun as _ <-; unfold mem_good, mem_stored; rewrite E; auto.
  - intros doc i w r w' d.
    cbn [delete_annotation_by_id PaperlessNotesStorage].
    unfold PaperlessNotesStorage_delete_annotation_by_id.
    intros Hrun Hne Hg. pose proof Hg as (Hf & Hd & Hnd).
    apply (mem_delete_note_state _ _ _ _ _ Hf) in Hrun.
    unfold mem_good, mem_stored. rewrite Hrun.
    destruct i as [i|]; cbn [Mem.handle snd]; [|auto].
    destruct (Mem.has_doc doc (svc w) && Mem.has_note doc i (svc w));
      cbn [snd]; [|auto].
    unfold Mem.notes_of, Mem.has_doc.
    cbn [Mem.faults Mem.docs Mem.notes].
    rewrite notes_of_other by exact Hne. auto.
Qed.

End NotesFrame.

(** ** [delete_all_annotations] when nothing fails *)

Section DeleteAllRuns.
Context {L : PyLib} {SV : Service}.

Lemma for_each_ext {A B : Type} (l : list A) (f g : A -> B -> M B) :
  (forall x acc w, f x acc w = g x acc w) ->
  forall acc w, for_each l f acc w = for_each l g acc w.
Proof.
  intros H. induction l as [|x l IH]; intros acc w; [reflexivity|].
  cbn [for_each]. rewrite !bind_run, H.
  destruct (g x acc w) as [[[a|e] w1]|]; auto.
Qed.

(** On a backend that keeps the storage contract and leaves the other
    documents alone, a call in a state that is good for the listed
    documents it does not skip returns the ids of those that had an
    annotation, each once, leaves none of them with an annotation, and
    leaves the annotations of a document it skips or that is not listed
    as they were. *)
Lemma delete_all_deletes (st : AnnoStorage) (good : Z -> World -> Prop)
    (stored : Z -> World -> list Annotation) (fuel : nat)
    (docs_to_skip : list Z) (w w1 w2 : World) (found documents : list Document) :
  storage_contract st good stored ->
  storage_frame st good stored ->
  listing_transparent good stored fuel ->
  documents_iter fuel 1 w = Some (Ok found, w1) ->
  documents_iter fuel 1 w1 = Some (Ok documents, w2) ->
  (forall doc, In doc documents -> skipped docs_to_skip doc = false ->
               good (Document_id doc) w) ->
  exists processed_docs w',
    PaperlessAnnotator_delete_all_annotations st fuel (Some docs_to_skip) w
    = Some (Ok processed_docs, w')
    /\ NoDup processed_docs
    /\ (forall x, In x processed_docs <->
                  exists doc, In doc documents
                              /\ skipped docs_to_skip doc = false
                              /\ Document_id doc = x
                              /\ stored x w <> [])
    /\ (forall doc, In doc documents -> skipped docs_to_skip doc = false ->
                    stored (Document_id doc) w' = [])
    /\ (forall d, good d w ->
                  (forall doc, In doc documents ->
                               skipped docs_to_skip doc = false ->
                               Document_id doc <> d) ->
                  stored d w' = stored d w).
Proof.
  intros Hc Hfr Hl H1 H2 Hgood.
  assert (Hw2 : forall d, good d w ->
                          good d w2 /\ stored d w2 = stored d w).
  { intros d Hd. destruct (Hl _ _ _ d H1 Hd) as [G1 S1].
    destruct (Hl _ _ _ d H2 G1) as [G2 S2]. split; [exact G2|congruence]. }
  destruct (outer_loop st good stored Hc Hfr docs_to_skip documents w2 [])
    as (acc' & w' & Hrun & Hnd & Hin & Hst & Hg & Hsame).
  { constructor. }
  { intros doc Hd Hs. apply Hw2. apply Hgood; assumption. }
  exists acc', w'. split; [|split; [exact Hnd|split; [|split; [exact Hst|]]]].
  - unfold PaperlessAnnotator_delete_all_annotations.
    rewrite bind_run, H1. unfold get_all_documents_with_annotations.
    rewrite bind_run, H2. rewrite <- Hrun. apply for_each_ext.
    intros doc acc w0. destruct (skipped docs_to_skip doc); reflexivity.
  - intros x. rewrite Hin. split.
    + intros [[]|(doc & Hd & Hs & Hx & Hne)]. exists doc.
      repeat split; try assumption.
      destruct (Hw2 x) as [_ E]; [rewrite <- Hx; auto|]. congruence.
    + intros (doc & Hd & Hs & Hx & Hne). right. exists doc.
      repeat split; try assumption.
      destruct (Hw2 x) as [_ E]; [rewrite <- Hx; auto|]. congruence.
  - intros d Hd Hno. destruct (Hw2 d Hd) as [G2 S2].
    rewrite (Hsame d G2 Hno). exact S2.
Qed.

End DeleteAllRuns.

(** ** One cycle of link synchronisation *)

Section LinkCycle.
Context {SV : Service} {cfg : Settings}.









Variable docs_to_skip : list Z.

Lemma request_ok_trace (rq : Request) (w w' : World) (r : Response) :
  _request rq w = Some (Ok r, w') -> trace w' = (trace w ++ [(rq, true)])%list.
Proof.
  unfold _request. destruct (respond rq (svc w)) as [[x|] s'];
    intros [= _ <-]; reflexivity.
Qed.








End LinkCycle.


(** C8, as the code has it.  Over the note backend, in states where it
    keeps the storage contract and leaves the other documents alone, a call
    of [delete_all_annotations] during which every request succeeds
    returns the ids of the listed documents outside [docs_to_skip] that had
    an annotation, each once, and leaves none of them with an annotation;
    and in every state the call stops at the first request that fails: it
    raises the client's error there, and sends nothing after it. *)
Theorem delete_all_annotations_stops_at_failure {L : PyLib} {SV : Service}
    (self : AnnoSerializer) (good : Z -> World -> Prop)
    (stored : Z -> World -> list Annotation) (fuel : nat)
    (docs_to_skip : list Z) :
  storage_contract (PaperlessNotesStorage self) good stored ->
  storage_frame (PaperlessNotesStorage self) good stored ->
  listing_transparent good stored fuel ->
  (forall w w1 w2 found documents,
     documents_iter fuel 1 w = Some (Ok found, w1) ->
     documents_iter fuel 1 w1 = Some (Ok documents, w2) ->
     (forall doc, In doc documents -> skipped docs_to_skip doc = false ->
                  good (Document_id doc) w) ->
     exists processed_docs w',
       PaperlessAnnotator_delete_all_annotations (PaperlessNotesStorage self)
         fuel (Some docs_to_skip) w
       = Some (Ok processed_docs, w')
       /\ NoDup processed_docs
       /\ (forall x, In x processed_docs <->
                     exists doc, In doc documents
                                 /\ skipped docs_to_skip doc = false
                                 /\ Document_id doc = x
                                 /\ stored x w <> [])
       /\ (forall doc, In doc documents ->
                       skipped docs_to_skip doc = false ->
                       stored (Document_id doc) w' = [])
       /\ (forall d, good d w ->
                     (forall doc, In doc documents ->
                                  skipped docs_to_skip doc = false ->
                                  Document_id doc <> d) ->
                     stored d w' = stored d w))
  /\ stops_at_failure
       (PaperlessAnnotator_delete_all_annotations (PaperlessNotesStorage self)
          fuel (Some docs_to_skip)).
Proof.
  intros Hc Hf Hl. split.
  - intros w w1 w2 found documents H1 H2 Hgood.
    apply (delete_all_deletes _ good stored fuel docs_to_skip w w1 w2 found
             documents Hc Hf Hl H1 H2 Hgood).
  - apply stops_delete_all.
Qed.

(** ** The properties on the example data *)

Lemma run_final {SV : Service} {A : Type} (m : M A) (w : World)
    (r : result A) :
  option_map fst (m w) = Some r -> m w = Some (r, final_state m w).
Proof.
  unfold final_state. destruct (m w) as [[r' w']|]; cbn; [|discriminate].
  intros [= ->]. reflexivity.
Qed.

Section OnExamples.
Existing Instance RefLib.
Existing Instance MemService.
Existing Instance Example.settings.


Lemma decode_discrimination_witness :
  _note_content_to_anno Example.plain_note = Ok None
  /\ exists e,
       _note_content_to_anno Example.foreign_note = Raise e
       /\ is_UnknownSerializer e
       /\ e = ValueError (unknown_serializer_message "zz9")
       /\ forall known, In known registered_names ->
                        occurs known (unknown_serializer_message "zz9").
Proof.
  split.
  - apply (proj1 (decode_discrimination Example.plain_note)).
    left. apply contains_false_iff. vm_compute. reflexivity.
  - apply (proj2 (decode_discrimination Example.foreign_note) "zz9").
    + apply contains_iff. vm_compute. reflexivity.
    + apply contains_iff. vm_compute. reflexivity.
    + vm_compute. reflexivity.
    + discriminate.
    + intros [H|[H|[]]]; discriminate H.
Defined.

Lemma delimiter_collision_fails_before_write_witness :
  exists e,
    is_ReservedDelimiterCollision e
    /\ _anno_to_note_content JsonSerializer Example.colliding = Raise e
    /\ create_annotation (PaperlessNotesStorage JsonSerializer) 1
         Example.colliding (Example.world (Example.service []) [])
       = Some (Raise e, Example.world (Example.service []) []).
Proof.
  destruct (serialize JsonSerializer (JObj (model_dump Example.colliding)))
    as [payload|e] eqn:Hp; [|vm_compute in Hp; discriminate Hp].
  destruct (_build_note_header Example.colliding)
    as [header|e] eqn:Hh; [|vm_compute in Hh; discriminate Hh].
  apply (delimiter_collision_fails_before_write JsonSerializer 1
           Example.colliding header payload _ Hp Hh).
  left. apply contains_iff. vm_compute in Hh. injection Hh as <-.
  vm_compute. reflexivity.
Defined.

Lemma database_listing_aborts_on_malformed_witness :
  let w := Example.world (Example.service []) Example.broken_table in
  get_annotations DatabaseAnnotationStorage 1 None w
  = Some (Ok ([set_db_id (Some 1) Example.A], Some TypeError), w)
  /\ forall (B : Type) (body : Annotation -> B -> M B) (acc : B) r w',
       for_gen ([set_db_id (Some 1) Example.A], Some TypeError) body acc w
       = Some (r, w') ->
       exists e', r = Raise e'.
Proof.
  intros w.
  assert (H1 : filter (fun row => DbAnnotation_doc_id row =? 1) (table w)
               = ([Example.row 1 1 Example.A]
                    ++ Example.bad_row 2 1 :: [Example.row 3 1 Example.B])%list)
    by reflexivity.
  assert (H2 : forall row, In row [Example.row 1 1 Example.A] ->
                 exists a, Annotation_init (DbAnnotation_anno_obj row) = Ok a).
  { intros r [<-|[]]. exists Example.A. vm_compute. reflexivity. }
  assert (H3 : Annotation_init (DbAnnotation_anno_obj (Example.bad_row 2 1))
               = Raise TypeError) by reflexivity.
  exact (database_listing_aborts_on_malformed 1 w
           [Example.row 1 1 Example.A] [Example.row 3 1 Example.B]
           (Example.bad_row 2 1) TypeError H1 H2 H3).
Defined.

Lemma cascade_deletion_witness :
  let w := Example.world (Example.service []) Example.thread_table in
  exists w',
    PaperlessAnnotator_delete_anno DatabaseAnnotationStorage 1
      (set_db_id (Some 1) Example.A) w = Some (Ok true, w')
    /\ ~ In (set_db_id (Some 1) Example.A) (db_stored 1 w')
    /\ ~ In (set_db_id (Some 2) Example.B) (db_stored 1 w')
    /\ ~ In (set_db_id (Some 3) Example.C) (db_stored 1 w')
    /\ In (set_db_id (Some 4) Example.D) (db_stored 1 w')
    /\ In (set_db_id (Some 5) Example.E) (db_stored 1 w').
Proof.
  intros w.
  assert (Hs : db_stored 1 w
               = [set_db_id (Some 1) Example.A; set_db_id (Some 2) Example.B;
                  set_db_id (Some 3) Example.C; set_db_id (Some 4) Example.D;
                  set_db_id (Some 5) Example.E])
    by (vm_compute; reflexivity).
  apply (cascade_deletion DatabaseAnnotationStorage db_good db_stored 1
           (set_db_id (Some 1) Example.A) (set_db_id (Some 2) Example.B)
           (set_db_id (Some 3) Example.C) (set_db_id (Some 4) Example.D)
           (set_db_id (Some 5) Example.E) (JStr "a") (JStr "b") w
           database_contract).
  - split.
    + repeat constructor; cbn; intuition discriminate.
    + intros r [<-|[<-|[<-|[<-|[<-|[]]]]]] _; eexists;
        (split; [vm_compute; reflexivity|reflexivity]).
  - rewrite Hs. cbn. tauto.
  - rewrite Hs. cbn. tauto.
  - rewrite Hs. cbn. tauto.
  - rewrite Hs. cbn. tauto.
  - rewrite Hs. cbn. tauto.
  - reflexivity.
  - reflexivity.
  - reflexivity.
  - reflexivity.
  - reflexivity.
  - reflexivity.
  - discriminate.
  - reflexivity.
  - discriminate.
  - reflexivity.
  - reflexivity.
Defined.

Lemma notes_update_assigns_new_db_id_witness :
  let w := Example.world (Example.service []) [] in
  let updated := set_db_id (Some 1) Example.C in
  exists returned w' old new content,
    update_annotation (PaperlessNotesStorage JsonSerializer) 1 updated w
    = Some (Ok returned, w')
    /\ db_id updated = Some old
    /\ _anno_to_note_content JsonSerializer updated = Ok content
    /\ new = 3
    /\ returned = set_db_id (Some new) updated
    /\ new <> old
    /\ In (1, mkNote new content) (Mem.notes (svc w'))
    /\ forall dn, In dn (Mem.notes (svc w')) -> Note_id (snd dn) <> old.
Proof.
  intros w updated.
  set (run := update_annotation (PaperlessNotesStorage JsonSerializer) 1
                updated).
  assert (Hrun : run w = Some (Ok (set_db_id (Some 3) updated),
                               final_state run w))
    by (apply run_final; vm_compute; reflexivity).
  assert (Hwf : mem_notes_wf (svc w)).
  { split.
    - repeat constructor; cbn; intuition discriminate.
    - intros dn [<-|[<-|[]]]; reflexivity. }
  destruct (notes_update_assigns_new_db_id JsonSerializer 1 updated _ w _
              Hwf Hrun) as (old & new & content & H).
  exists (set_db_id (Some 3) updated), (final_state run w), old, new, content.
  split; [exact Hrun|exact H].
Defined.



Lemma delete_all_annotations_stops_at_failure_witness :
  let w := Example.world (Example.service []) [] in
  let failing := Example.world
                   (Example.service [false; false; false; false; true]) [] in
  let run := PaperlessAnnotator_delete_all_annotations
               (PaperlessNotesStorage JsonSerializer) 3 (Some []) in
  (exists processed_docs w',
     run w = Some (Ok processed_docs, w')
     /\ NoDup processed_docs
     /\ mem_stored 1 w' = [] /\ mem_stored 2 w' = [])
  /\ exists t,
       trace (final_state run failing) = (trace failing ++ t)%list
       /\ failure_is_last (@Raise (list Z) PaperlessAPIError) t.
Proof.
  intros w failing run.
  destruct (delete_all_annotations_stops_at_failure JsonSerializer
              mem_good mem_stored 3 []
              (notes_contract JsonSerializer) (notes_frame JsonSerializer)
              (notes_listing_transparent 3)) as [HA HB].
  split.
  - set (w1 := final_state (documents_iter 3 1) w).
    set (w2 := final_state (documents_iter 3 1) w1).
    destruct (HA w w1 w2 [Example.plain_doc 1; Example.plain_doc 2]
                [Example.plain_doc 1; Example.plain_doc 2])
      as (ids & w' & Hrun & Hnd & _ & Hst & _).
    + apply run_final. vm_compute. reflexivity.
    + apply run_final. vm_compute. reflexivity.
    + intros doc [<-|[<-|[]]] _; (split; [reflexivity|]);
        (split; [reflexivity|]); repeat constructor; cbn;
        intuition discriminate.
    + exists ids, w'. split; [exact Hrun|]. split; [exact Hnd|]. split.
      * apply (Hst (Example.plain_doc 1)); [left; reflexivity|reflexivity].
      * apply (Hst (Example.plain_doc 2));
          [right; left; reflexivity|reflexivity].
  - apply (HB failing (Raise PaperlessAPIError) (final_state run failing)).
    apply run_final. vm_compute. reflexivity.
Defined.

(** The first deletion on document 1 fails: the call raises, and the
    annotation of document 2 is still there. *)
Lemma failed_deletion_ends_the_call :
  ~ goes_on_after_failure JsonSerializer 3 []
      (Example.world
         (Example.service [false; false; false; false; true]) []).
Proof.
  intros H.
  set (w := Example.world
              (Example.service [false; false; false; false; true]) []) in H.
  set (run := PaperlessAnnotator_delete_all_annotations
                (PaperlessNotesStorage JsonSerializer) 3 (Some [])).
  assert (Hrun : run w = Some (Raise PaperlessAPIError, final_state run w))
    by (apply run_final; vm_compute; reflexivity).
  assert (Hlast : mem_stored 2 (final_state run w) = []).
  { apply (H (Raise PaperlessAPIError) (final_state run w)
             [(GetDocuments 1, true); (GetDocuments 1, true);
              (GetNotes 1, true); (GetNotes 1, true)]
             1 (Some 1) [] 2 Hrun).
    - vm_compute. reflexivity.
    - reflexivity.
    - reflexivity.
    - reflexivity.
    - discriminate.
    - intros []. }
  vm_compute in Hlast. discriminate Hlast.
Qed.

(** The repair loop on a document whose link has another base URL: the
    value written has two slashes after the base URL, and the next cycle
    finds the document outdated again. *)
Example repair_leaves_the_link_outdated :
  let cycle := update_document_links 3 None in
  let w := Example.world Example.moved_service [] in
  option_map fst (cycle w) = Some (Ok [1])
  /\ map Document_custom_fields (Mem.docs (svc (final_state cycle w)))
     = [[mkCustomFieldInstance (Some (JStr "http://h//view/1")) 1]]
  /\ option_map fst (cycle (final_state cycle w)) = Some (Ok [1]).
Proof. repeat split; vm_compute; reflexivity. Qed.

(** Deleting a record that does not exist: the database backend returns
    [False], the note backend raises the client's error, and so does its
    [update_annotation], whose test of the returned value is never
    reached. *)
Example deleting_an_absent_record :
  let w := Example.world (Example.service []) Example.thread_table in
  option_map fst (delete_annotation_by_id DatabaseAnnotationStorage 1 (Some 9) w)
  = Some (Ok false)
  /\ option_map fst
       (delete_annotation_by_id (PaperlessNotesStorage JsonSerializer) 1
          (Some 9) w)
     = Some (Raise PaperlessAPIError)
  /\ option_map fst
       (update_annotation (PaperlessNotesStorage JsonSerializer) 1
          (set_db_id (Some 9) Example.A) w)
     = Some (Raise PaperlessAPIError).
Proof. repeat split; vm_compute; reflexivity. Qed.

(** A note whose data area is empty has no first line: the decoder raises
    [IndexError], and the note backend passes over the note. *)
Example empty_data_area :
  _note_content_to_anno
    (ANNOTATION_CONTENT_BEGIN ++ NL ++ ANNOTATION_CONTENT_END)
  = Raise IndexError.
Proof. vm_compute. reflexivity. Qed.

Example find_ex1 : Py.find "lo" "hello" = 3.
Proof. reflexivity. Qed.

Example find_ex2 : Py.find "x" "hello" = -1.
Proof. reflexivity. Qed.

Example strip_ex : Py.strip ("  a b " ++ NL) = "a b".
Proof. reflexivity. Qed.

Example splitlines_ex :
  Py.splitlines ("ab" ++ NL ++ NL ++ "c" ++ NL) = ["ab"; EmptyString; "c"].
Proof. reflexivity. Qed.

Example replace_ex :
  Py.replace (NL ++ NL) NL ("a" ++ NL ++ NL ++ NL ++ "b")
  = "a" ++ NL ++ NL ++ "b".
Proof. reflexivity. Qed.

Example str_of_int_ex :
  Py.str_of_int 42 = "42" /\ Py.str_of_int (-7) = "-7"
  /\ Py.str_of_int 0 = "0".
Proof. repeat split; reflexivity. Qed.

End OnExamples.

(* ===================================================================== *)
(** * Further properties of the sources *)
(* ===================================================================== *)

(** ** More on strings *)

Lemma len_app (a b : string) : Py.len (a ++ b) = Py.len a + Py.len b.
Proof.
  unfold Py.len. induction a as [|c a IH]; [reflexivity|].
  cbn [append String.length]. rewrite !Nat2Z.inj_succ. lia.
Qed.

Lemma len_nonneg (a : string) : 0 <= Py.len a.
Proof. unfold Py.len. lia. Qed.

Lemma occurs_tail (sub : string) (c : ascii) (s : string) :
  occurs sub s -> occurs sub (String c s).
Proof. intros (pre & post & ->). exists (String c pre), post. reflexivity. Qed.

(** A string without a line feed that starts [a + "\n" + b] starts [a]. *)
Lemma startswith_over_newline (a : string) :
  forall sub b,
    ~ occurs NL sub ->
    Py.startswith sub (a ++ NL ++ b) = true -> Py.startswith sub a = true.
Proof.
  unfold Py.startswith.
  induction a as [|d a IH]; intros [|c sub] b Hnl H; try reflexivity.
  - exfalso. change ("" ++ NL ++ b) with (String (ascii_of_nat 10) b) in H.
    cbn [String.prefix] in H.
    destruct (Ascii.ascii_dec c (ascii_of_nat 10)) as [->|];
      [|discriminate H].
    apply Hnl. exists "", sub. reflexivity.
  - change (String d a ++ NL ++ b) with (String d (a ++ NL ++ b)) in H.
    cbn [String.prefix] in H |- *.
    destruct (Ascii.ascii_dec c d); [|discriminate H].
    apply (IH sub b); [|exact H].
    intros Ho. apply Hnl. apply occurs_tail. exact Ho.
Qed.

Lemma find_from_here (sub s : string) (i : Z) :
  Py.startswith sub s = true -> Py.find_from sub s i = i.
Proof. intros H. destruct s; cbn [Py.find_from]; rewrite H; reflexivity. Qed.

(** Searching for a string without a line feed passes over a line in
    which it does not occur. *)
Lemma find_from_over_newline (sub : string) (a : string) :
  forall b i,
    sub <> "" -> ~ occurs NL sub -> ~ occurs sub a ->
    Py.find_from sub (a ++ NL ++ b) i
    = Py.find_from sub b (i + Py.len a + 1).
Proof.
  induction a as [|d a IH]; intros b i Hne Hnl Hno.
  - change ("" ++ NL ++ b) with (String (ascii_of_nat 10) b).
    cbn [Py.find_from].
    destruct (Py.startswith sub (String (ascii_of_nat 10) b)) eqn:E.
    + exfalso. apply (startswith_over_newline "" sub b Hnl) in E.
      destruct sub; [apply Hne; reflexivity|discriminate E].
    + f_equal. unfold Py.len. cbn [String.length]. lia.
  - change (String d a ++ NL ++ b) with (String d (a ++ NL ++ b)).
    cbn [Py.find_from].
    destruct (Py.startswith sub (String d (a ++ NL ++ b))) eqn:E.
    + exfalso. apply Hno.
      apply (startswith_over_newline (String d a) sub b Hnl) in E.
      apply startswith_iff in E. destruct E as [post E].
      exists "", post. exact E.
    + rewrite IH; [|exact Hne|exact Hnl|].
      * f_equal. unfold Py.len. cbn [String.length].
        rewrite Nat2Z.inj_succ. lia.
      * intros Ho. apply Hno. apply occurs_tail. exact Ho.
Qed.

Lemma substring_skip (a s : string) (n : nat) :
  String.substring (String.length a) n (a ++ s) = String.substring 0 n s.
Proof. induction a as [|c a IH]; [reflexivity|]. cbn. exact IH. Qed.

Lemma substring_take (b c : string) :
  String.substring 0 (String.length b) (b ++ c) = b.
Proof.
  induction b as [|x b IH]; cbn.
  - destruct c; reflexivity.
  - rewrite IH. reflexivity.
Qed.

(** [(x + y + z)[len(x) : len(x) + len(y)]] is [y]. *)
Lemma slice_middle (x y z : string) (i j : Z) :
  i = Py.len x -> j = Py.len x + Py.len y ->
  Py.slice i j (x ++ y ++ z) = y.
Proof.
  intros -> ->. unfold Py.slice, Py.len.
  replace (Z.of_nat (String.length x) + Z.of_nat (String.length y)
           - Z.of_nat (String.length x)) with (Z.of_nat (String.length y))
    by lia.
  rewrite !Nat2Z.id, substring_skip. apply substring_take.
Qed.

Lemma rstrip_keeps (a b : string) :
  Py.rstrip b <> "" -> Py.rstrip (a ++ b) = a ++ Py.rstrip b.
Proof.
  intros Hb. induction a as [|c a IH]; [reflexivity|].
  cbn [append Py.rstrip]. rewrite IH.
  destruct (a ++ Py.rstrip b) eqn:E; [|reflexivity].
  destruct a; [|discriminate]. cbn in E. contradiction.
Qed.

Lemma rstrip_drops (s t : string) :
  Py.rstrip t = "" -> Py.rstrip (s ++ t) = Py.rstrip s.
Proof.
  intros Ht. induction s as [|c s IH]; [exact Ht|].
  cbn [append Py.rstrip]. rewrite IH. reflexivity.
Qed.

Lemma rstrip_nonempty (s : string) :
  Py.rstrip s = s -> s <> "" -> Py.rstrip s <> "".
Proof. intros ->. auto. Qed.

(** A name without line boundaries is the first line of what follows. *)
Lemma splitlines_from_name (n : string) :
  forall cur p,
    forallb (fun c => negb (Py.is_cr c || Py.islinebreak c))
      (list_ascii_of_string n) = true ->
    Py.splitlines_from cur (n ++ NL ++ p)
    = (cur ++ n) :: Py.splitlines_from "" p.
Proof.
  induction n as [|c n IH]; intros cur p H.
  - rewrite append_nil_r. reflexivity.
  - cbn [list_ascii_of_string forallb] in H.
    apply andb_true_iff in H. destruct H as [Hc H].
    apply negb_true_iff, orb_false_iff in Hc. destruct Hc as [Hc1 Hc2].
    change (String c n ++ NL ++ p) with (String c (n ++ NL ++ p)).
    cbn [Py.splitlines_from]. rewrite Hc1, Hc2, IH by exact H.
    rewrite append_assoc. reflexivity.
Qed.

Lemma splitlines_from_plain (n : string) :
  forall cur,
    forallb (fun c => negb (Py.is_cr c || Py.islinebreak c))
      (list_ascii_of_string n) = true ->
    cur ++ n <> "" ->
    Py.splitlines_from cur n = [cur ++ n].
Proof.
  induction n as [|c n IH]; intros cur H Hne.
  - rewrite append_nil_r in *. cbn. destruct cur; [contradiction|reflexivity].
  - cbn [list_ascii_of_string forallb] in H.
    apply andb_true_iff in H. destruct H as [Hc H].
    apply negb_true_iff, orb_false_iff in Hc. destruct Hc as [Hc1 Hc2].
    cbn [Py.splitlines_from]. rewrite Hc1, Hc2, IH.
    + rewrite append_assoc. reflexivity.
    + exact H.
    + rewrite append_assoc. cbn. destruct cur; discriminate.
Qed.

(** ** The note codec: decoding what was encoded *)

Section CodecRoundTrip.
Context {L : PyLib}.

Lemma lstrip_skip (c : ascii) (s : string) :
  Py.isspace c = true -> Py.lstrip (String c s) = Py.lstrip s.
Proof. intros H. cbn [Py.lstrip]. rewrite H. reflexivity. Qed.

Lemma lstrip_stop (c : ascii) (s : string) :
  Py.isspace c = false -> Py.lstrip (String c s) = String c s.
Proof. intros H. cbn [Py.lstrip]. rewrite H. reflexivity. Qed.

(** What the decoder needs of a registered name. *)
Lemma registered_name_shape (self : AnnoSerializer) :
  In self subclasses ->
  (exists c n, NAME self = String c n /\ Py.isspace c = false)
  /\ Py.rstrip (NAME self) = NAME self
  /\ forallb (fun c => negb (Py.is_cr c || Py.islinebreak c))
       (list_ascii_of_string (NAME self)) = true
  /\ ~ occurs ANNOTATION_CONTENT_END (NAME self)
  /\ get_serializer_by_name (NAME self) = Ok self.
Proof.
  intros [<-|[<-|[]]]; (split; [do 2 eexists; split; reflexivity|]);
    (split; [reflexivity|]); (split; [reflexivity|]);
    (split; [apply contains_false_iff; reflexivity|reflexivity]).
Qed.

(** The note that [_anno_to_note_content] builds from a header and a
    payload decodes to what the payload deserializes to. *)
Lemma decode_encoded (self : AnnoSerializer) (header payload : string) :
  In self subclasses ->
  ~ occurs ANNOTATION_CONTENT_BEGIN header ->
  ~ occurs ANNOTATION_CONTENT_END header ->
  ~ occurs ANNOTATION_CONTENT_END payload ->
  Py.rstrip payload = payload ->
  Py.join NL (Py.splitlines payload) = payload ->
  _note_content_to_anno
    (header ++ NL ++ ANNOTATION_CONTENT_BEGIN ++ NL ++ NAME self ++ NL
       ++ (payload ++ NL) ++ ANNOTATION_CONTENT_END)
  = (decoded <- deserialize self payload ;;
     match decoded with
     | JNull => Ok None
     | _ => a <- Annotation_init decoded ;; Ok (Some a)
     end)%res.
Proof.
  intros Hin Hbh Heh Hep Hrs Hlines.
  destruct (registered_name_shape self Hin)
    as ((c & n & Hname & Hc) & Hnr & Hnb & Hen & Hget).
  set (name := NAME self) in *.
  set (content := header ++ NL ++ ANNOTATION_CONTENT_BEGIN ++ NL ++ name ++ NL
                    ++ (payload ++ NL) ++ ANNOTATION_CONTENT_END).
  assert (HnlB : ~ occurs NL ANNOTATION_CONTENT_BEGIN)
    by (apply contains_false_iff; reflexivity).
  assert (HnlE : ~ occurs NL ANNOTATION_CONTENT_END)
    by (apply contains_false_iff; reflexivity).
  assert (Hb : Py.find ANNOTATION_CONTENT_BEGIN content = Py.len header + 1).
  { unfold Py.find, content.
    rewrite find_from_over_newline; [|discriminate|exact HnlB|exact Hbh].
    apply find_from_here. apply startswith_iff. eexists. reflexivity. }
  assert (He : Py.find ANNOTATION_CONTENT_END content
               = Py.len header + 1 + Py.len ANNOTATION_CONTENT_BEGIN + 1
                 + Py.len name + 1 + Py.len payload + 1).
  { unfold Py.find, content.
    rewrite find_from_over_newline; [|discriminate|exact HnlE|exact Heh].
    rewrite find_from_over_newline;
      [|discriminate|exact HnlE|apply contains_false_iff; reflexivity].
    rewrite find_from_over_newline; [|discriminate|exact HnlE|exact Hen].
    rewrite (append_assoc payload NL).
    rewrite find_from_over_newline; [|discriminate|exact HnlE|exact Hep].
    rewrite find_from_here; [lia|]. apply startswith_iff. exists "".
    symmetry. apply append_nil_r. }
  unfold _note_content_to_anno. fold content. rewrite Hb, He.
  pose proof (len_nonneg header). pose proof (len_nonneg name).
  pose proof (len_nonneg payload).
  pose proof (len_nonneg ANNOTATION_CONTENT_BEGIN).
  destruct (Z.eqb_spec (Py.len header + 1) (-1)) as [E|_]; [lia|].
  destruct (Z.eqb_spec (Py.len header + 1 + Py.len ANNOTATION_CONTENT_BEGIN + 1
                        + Py.len name + 1 + Py.len payload + 1) (-1))
    as [E|_]; [lia|].
  cbn [orb].
  assert (Hslice : Py.slice (Py.len header + 1 + Py.len ANNOTATION_CONTENT_BEGIN)
                     (Py.len header + 1 + Py.len ANNOTATION_CONTENT_BEGIN + 1
                      + Py.len name + 1 + Py.len payload + 1) content
                   = NL ++ name ++ NL ++ payload ++ NL).
  { replace content
      with ((header ++ NL ++ ANNOTATION_CONTENT_BEGIN)
              ++ (NL ++ name ++ NL ++ payload ++ NL)
              ++ ANNOTATION_CONTENT_END)
      by (unfold content; rewrite !append_assoc; reflexivity).
    apply slice_middle; rewrite !len_app; change (Py.len NL) with 1; lia. }
  rewrite Hslice.
  assert (Hstrip : Py.strip (NL ++ name ++ NL ++ payload ++ NL)
                   = match payload with
                     | EmptyString => name
                     | _ => name ++ NL ++ payload
                     end).
  { unfold Py.strip.
    change (NL ++ name ++ NL ++ payload ++ NL)
      with (String (ascii_of_nat 10) (name ++ NL ++ payload ++ NL)).
    rewrite lstrip_skip by reflexivity.
    rewrite Hname. change (String c n ++ NL ++ payload ++ NL)
      with (String c (n ++ NL ++ payload ++ NL)).
    rewrite lstrip_stop by exact Hc.
    change (String c (n ++ NL ++ payload ++ NL))
      with (String c n ++ NL ++ payload ++ NL).
    rewrite <- Hname.
    destruct payload as [|p payload'] eqn:Ep.
    - change (NL ++ "" ++ NL) with (NL ++ NL).
      rewrite rstrip_drops by reflexivity. exact Hnr.
    - rewrite <- Ep in *.
      replace (name ++ NL ++ payload ++ NL)
        with ((name ++ NL ++ payload) ++ NL)
        by (rewrite !append_assoc; reflexivity).
      rewrite rstrip_drops by reflexivity.
      replace (name ++ NL ++ payload) with ((name ++ NL) ++ payload)
        by (rewrite !append_assoc; reflexivity).
      rewrite rstrip_keeps; [rewrite Hrs; reflexivity|].
      rewrite Hrs, Ep. discriminate. }
  rewrite Hstrip.
  assert (Hsplit : Py.splitlines match payload with
                                 | EmptyString => name
                                 | _ => name ++ NL ++ payload
                                 end
                   = name :: Py.splitlines payload).
  { unfold Py.splitlines. destruct payload as [|p payload'] eqn:Ep.
    - rewrite splitlines_from_plain; [reflexivity|exact Hnb|].
      rewrite Hname. discriminate.
    - rewrite <- Ep. rewrite splitlines_from_name by exact Hnb. reflexivity. }
  rewrite Hsplit.
  assert (Hsn : Py.strip name = name).
  { unfold Py.strip. rewrite Hname, lstrip_stop by exact Hc.
    rewrite <- Hname. exact Hnr. }
  rewrite Hsn, Hlines, Hget.
  destruct (String.eqb_spec name "") as [E|_];
    [rewrite Hname in E; discriminate E|].
  reflexivity.
Qed.

Lemma serializer_inverts (HL : PyLibLaws L) (self : AnnoSerializer)
    (v : json) (payload : string) :
  In self subclasses -> json_wf v ->
  serialize self v = Ok payload -> deserialize self payload = Ok v.
Proof.
  intros [<-|[<-|[]]] Hv Hs.
  - destruct (Base85GzipJSONSerializer_roundtrip HL v Hv) as (s & H1 & H2).
    congruence.
  - destruct (JsonSerializer_roundtrip HL v Hv) as (s & H1 & H2). congruence.
Qed.

Lemma encoded_shape (self : AnnoSerializer) (a : Annotation)
    (content payload : string) :
  _anno_to_note_content self a = Ok content ->
  serialize self (JObj (model_dump a)) = Ok payload ->
  exists header,
    _build_note_header a = Ok header
    /\ ~ occurs ANNOTATION_CONTENT_BEGIN header
    /\ ~ occurs ANNOTATION_CONTENT_END header
    /\ ~ occurs ANNOTATION_CONTENT_BEGIN payload
    /\ ~ occurs ANNOTATION_CONTENT_END payload
    /\ content = header ++ NL ++ ANNOTATION_CONTENT_BEGIN ++ NL ++ NAME self
                   ++ NL ++ (payload ++ NL) ++ ANNOTATION_CONTENT_END.
Proof.
  unfold _anno_to_note_content. intros H Hs. rewrite Hs in H.
  cbn [rbind] in H.
  destruct (_build_note_header a) as [header|e]; [|discriminate H].
  cbn [rbind] in H. exists header.
  destruct (Py.contains ANNOTATION_CONTENT_BEGIN header) eqn:E1;
    [discriminate H|].
  destruct (Py.contains ANNOTATION_CONTENT_END header) eqn:E2;
    [discriminate H|].
  cbn [orb] in H.
  destruct (Py.contains ANNOTATION_CONTENT_BEGIN (payload ++ NL)) eqn:E3;
    [discriminate H|].
  destruct (Py.contains ANNOTATION_CONTENT_END (payload ++ NL)) eqn:E4;
    [discriminate H|].
  cbn [orb] in H. injection H as <-.
  apply contains_false_iff in E1, E2, E3, E4.
  rewrite occurs_BEGIN_before_newline in E3.
  rewrite occurs_END_before_newline in E4.
  auto 10.
Qed.

End CodecRoundTrip.

(** X1.  The note codec round trip.  For a registered serializer and a
    valid annotation, when [_anno_to_note_content] succeeds and the
    serialized payload has no trailing whitespace and only line feeds as
    line boundaries, [_note_content_to_anno] of the note content gives the
    annotation back. *)
Theorem note_codec_roundtrip {L : PyLib} (HL : PyLibLaws L)
    (self : AnnoSerializer) (a : Annotation) (content payload : string) :
  In self subclasses ->
  valid_annotation a ->
  _anno_to_note_content self a = Ok content ->
  serialize self (JObj (model_dump a)) = Ok payload ->
  Py.rstrip payload = payload ->
  Py.join NL (Py.splitlines payload) = payload ->
  _note_content_to_anno content = Ok (Some a).
Proof.
  intros Hin Hv Henc Hser Hrs Hlines.
  destruct (encoded_shape self a content payload Henc Hser)
    as (header & _ & Hbh & Heh & _ & Hep & ->).
  rewrite (decode_encoded self header payload Hin Hbh Heh Hep Hrs Hlines).
  rewrite (serializer_inverts HL self _ payload Hin (model_dump_wf a Hv) Hser).
  cbn [rbind]. rewrite (Annotation_of_model_dump HL a Hv). reflexivity.
Qed.

(** ** The note backend on the reference service *)

Section NotesOnMem.
Context {L : PyLib}.
Existing Instance MemService.

Lemma mem_post_note (doc : Z) (content : string) (w : World) :
  Mem.faults (svc w) = [] -> Mem.has_doc doc (svc w) = true ->
  exists w',
    add_note_to_document doc content w
    = Some (Ok (Some (mkNote (Mem.next_note (svc w)) content)), w')
    /\ Mem.notes (svc w')
       = (Mem.notes (svc w)
            ++ [(doc, mkNote (Mem.next_note (svc w)) content)])%list
    /\ Mem.next_note (svc w') = Mem.next_note (svc w) + 1
    /\ Mem.faults (svc w') = []
    /\ Mem.docs (svc w') = Mem.docs (svc w)
    /\ trace w' = (trace w ++ [(PostNote doc content, true)])%list.
Proof.
  intros Hf Hd. unfold add_note_to_document. rewrite bind_run.
  unfold _request. cbn [respond MemService].
  rewrite mem_respond_no_fault by exact Hf. cbn [Mem.handle]. rewrite Hd.
  cbv beta iota. unfold ret.
  unfold Mem.notes_of at 1. cbn [Mem.notes].
  rewrite filter_app, map_app. cbn [filter fst]. rewrite Z.eqb_refl.
  cbn [map snd]. rewrite last_map_some.
  eexists. split; [reflexivity|].
  cbn [svc trace Mem.notes Mem.next_note Mem.faults Mem.docs].
  rewrite Hf. repeat split.
Qed.

Lemma mem_stored_app (doc : Z) (w w' : World) (n : Note) :
  Mem.notes (svc w') = (Mem.notes (svc w) ++ [(doc, n)])%list ->
  mem_stored doc w' = (mem_stored doc w ++ note_yields None n)%list.
Proof.
  intros H. unfold mem_stored, Mem.notes_of. rewrite H.
  rewrite filter_app, map_app, flat_map_app. cbn [filter fst].
  rewrite Z.eqb_refl. cbn [map snd flat_map]. rewrite app_nil_r.
  reflexivity.
Qed.

Lemma fresh_note_keeps_ids (doc : Z) (w w' : World) (content : string) :
  mem_notes_wf (svc w) ->
  Mem.notes (svc w')
  = (Mem.notes (svc w)
       ++ [(doc, mkNote (Mem.next_note (svc w)) content)])%list ->
  Mem.next_note (svc w') = Mem.next_note (svc w) + 1 ->
  mem_notes_wf (svc w').
Proof.
  intros [Hnd Hlt] Hn Hnext. unfold mem_notes_wf. rewrite Hn, Hnext. split.
  - rewrite map_app. apply NoDup_app; [exact Hnd|repeat constructor; intros []|].
    cbn [map snd Note_id]. intros x Hx [<-|[]].
    apply in_map_iff in Hx. destruct Hx as (dn & E & Hdn).
    apply Hlt in Hdn. lia.
  - intros dn Hdn. apply in_app_or in Hdn. destruct Hdn as [Hdn|[<-|[]]].
    + apply Hlt in Hdn. lia.
    + cbn. lia.
Qed.

Lemma notes_of_nodup (doc : Z) (s : Mem.state) :
  mem_notes_wf s -> NoDup (map Note_id (Mem.notes_of doc s)).
Proof.
  intros [Hnd _]. unfold Mem.notes_of. rewrite map_map.
  apply nodup_filter_map. exact Hnd.
Qed.

End NotesOnMem.

(** X2.  Creating and then listing through the note backend, on the
    reference service.  For a registered serializer and a valid annotation
    whose encoding succeeds, with a payload as in X1, [create_annotation]
    returns the annotation under the id of the note just stored, and
    [get_annotations] then yields what it yielded before, followed by that
    annotation. *)
Theorem notes_create_then_list {L : PyLib} (HL : PyLibLaws L)
    (self : AnnoSerializer) (doc : Z) (a : Annotation)
    (content payload : string) (w : World (SV := MemService)) :
  In self subclasses ->
  valid_annotation a ->
  _anno_to_note_content self a = Ok content ->
  serialize self (JObj (model_dump a)) = Ok payload ->
  Py.rstrip payload = payload ->
  Py.join NL (Py.splitlines payload) = payload ->
  Mem.faults (svc w) = [] -> Mem.has_doc doc (svc w) = true ->
  mem_notes_wf (svc w) ->
  let created := set_db_id (Some (Mem.next_note (svc w))) a in
  exists w1 w2,
    create_annotation (PaperlessNotesStorage self) doc a w
    = Some (Ok created, w1)
    /\ get_annotations (PaperlessNotesStorage self) doc None w1
       = Some (Ok ((mem_stored doc w ++ [created])%list, None), w2).
Proof.
  intros Hin Hv Henc Hser Hrs Hlines Hf Hd Hwf created.
  destruct (mem_post_note doc content w Hf Hd)
    as (w1 & Hpost & Hnotes & Hnext & Hf1 & Hd1 & _).
  assert (Hdec : _note_content_to_anno content = Ok (Some a)).
  { destruct (encoded_shape self a content payload Henc Hser)
      as (header & _ & Hbh & Heh & _ & Hep & ->).
    rewrite (decode_encoded self header payload Hin Hbh Heh Hep Hrs Hlines).
    rewrite (serializer_inverts HL self _ payload Hin (model_dump_wf a Hv)
               Hser).
    cbn [rbind]. rewrite (Annotation_of_model_dump HL a Hv). reflexivity. }
  assert (Hg1 : mem_good doc w1).
  { split; [exact Hf1|]. split.
    - unfold Mem.has_doc. rewrite Hd1. exact Hd.
    - apply notes_of_nodup.
      apply (fresh_note_keeps_ids doc w w1 content Hwf Hnotes Hnext). }
  destruct (contract_get _ _ _ (notes_contract self) doc None w1 Hg1)
    as (w2 & Hget & _ & _).
  exists w1, w2. split.
  - cbn [create_annotation PaperlessNotesStorage].
    unfold PaperlessNotesStorage_create_annotation.
    rewrite bind_run. unfold lift. rewrite Henc.
    rewrite bind_run, Hpost. reflexivity.
  - rewrite Hget. do 3 f_equal.
    rewrite filter_on_page_none.
    rewrite (mem_stored_app doc w w1 _ Hnotes). f_equal.
    unfold note_yields, note_to_annotation. cbn [Note_note Note_id].
    rewrite Hdec. reflexivity.
Qed.

(** X3.  [update_annotation] of the note backend is not atomic.  When the
    updated annotation has a [db_id] whose note the reference service
    holds and its encoding raises (a delimiter collision, say), the call
    raises that error after the old note has been deleted: the note is
    gone and nothing is stored in its place. *)
Theorem notes_update_loses_note_on_encoding_error {L : PyLib}
    (self : AnnoSerializer) (doc old : Z) (updated_annotation : Annotation)
    (e : exn) (w : World (SV := MemService)) :
  db_id updated_annotation = Some old ->
  _anno_to_note_content self updated_annotation = Raise e ->
  Mem.faults (svc w) = [] -> Mem.has_doc doc (svc w) = true ->
  Mem.has_note doc old (svc w) = true ->
  exists w',
    update_annotation (PaperlessNotesStorage self) doc updated_annotation w
    = Some (Raise e, w')
    /\ trace w' = (trace w ++ [(DeleteNote doc (Some old), true)])%list
    /\ Mem.notes (svc w')
       = filter (fun dn => negb ((fst dn =? doc) && (Note_id (snd dn) =? old)))
           (Mem.notes (svc w)).
Proof.
  intros Hid Henc Hf Hd Hn.
  cbn [update_annotation PaperlessNotesStorage].
  unfold PaperlessNotesStorage_update_annotation. rewrite Hid.
  unfold PaperlessNotesStorage_delete_annotation_by_id, delete_note.
  rewrite !bind_run. unfold _request. cbn [respond MemService].
  rewrite mem_respond_no_fault by exact Hf. cbn [Mem.handle].
  rewrite Hd, Hn. cbn [andb]. unfold ret. cbv beta iota. cbn [negb].
  rewrite bind_run. unfold lift. rewrite Henc.
  eexists. split; [reflexivity|]. split; reflexivity.
Qed.

(** ** The database backend *)

Section DatabaseBackend.
Context {L : PyLib} {SV : Service}.

Lemma db_wf_good (doc : Z) (w : World) : db_wf w -> db_good doc w.
Proof.
  intros (Hnd & _ & Hrows). split; [exact Hnd|].
  intros row Hin _. apply Hrows. exact Hin.
Qed.

Lemma set_db_id_same (a : Annotation) : set_db_id (db_id a) a = a.
Proof. destruct a. reflexivity. Qed.

Lemma database_get_state (doc : Z) (page : option Z) (w w' : World)
    (r : result (gen Annotation)) :
  get_annotations DatabaseAnnotationStorage doc page w = Some (r, w') ->
  w' = w.
Proof.
  cbn [get_annotations DatabaseAnnotationStorage].
  unfold DatabaseAnnotationStorage_get_annotations, bind, objects_filter, ret.
  intros [= _ <-]. reflexivity.
Qed.

Lemma database_lists (doc : Z) (page : option Z) (w : World) :
  db_wf w ->
  get_annotations DatabaseAnnotationStorage doc page w
  = Some (Ok (filter (on_page page) (db_stored doc w), None), w).
Proof.
  intros Hwf.
  destruct (contract_get _ _ _ database_contract doc page w
              (db_wf_good doc w Hwf)) as (w' & Hget & _).
  rewrite Hget. f_equal. f_equal.
  apply (database_get_state doc page w w' _ Hget).
Qed.

Lemma row_yields_valid (HL : PyLibLaws L) (pk doc c : Z) (a : Annotation) :
  valid_annotation a ->
  row_yields (mkDbAnnotation pk doc c (Some (pageIndex a))
                (JObj (model_dump a)))
  = [set_db_id (Some pk) a].
Proof.
  intros Hv. unfold row_yields. cbn [DbAnnotation_anno_obj DbAnnotation_id].
  rewrite (Annotation_of_model_dump HL a Hv). reflexivity.
Qed.

(** Replacing the row with primary key [i] changes, in what the table
    yields, the annotation under [i] and no other. *)
Lemma yields_after_save (HL : PyLibLaws L) (doc i : Z) (row : DbAnnotation)
    (a : Annotation) (t : list DbAnnotation) :
  valid_annotation a -> db_id a = Some i ->
  DbAnnotation_id row = i -> DbAnnotation_doc_id row = doc ->
  (exists a0, Annotation_init (DbAnnotation_anno_obj row) = Ok a0) ->
  (forall r, In r t -> DbAnnotation_id r = i -> r = row) ->
  forall d,
    flat_map row_yields
      (filter (fun r => DbAnnotation_doc_id r =? d)
         (map (fun r =>
                 if DbAnnotation_id r =? i
                 then mkDbAnnotation i doc (DbAnnotation_db_id row)
                        (Some (pageIndex a)) (JObj (model_dump a))
                 else r) t))
    = map (fun o => if opt_Z_eqb (db_id o) (Some i) then a else o)
        (flat_map row_yields
           (filter (fun r => DbAnnotation_doc_id r =? d) t)).
Proof.
  intros Hv Hid Hi Hdoc (a0 & Ha0) Huniq d.
  induction t as [|r t IH]; [reflexivity|].
  assert (IH' := IH (fun r' Hr' => Huniq r' (or_intror Hr'))).
  cbn [map filter]. destruct (Z.eqb_spec (DbAnnotation_id r) i) as [E|Hne].
  - rewrite (Huniq r (or_introl eq_refl) E).
    cbn [DbAnnotation_doc_id]. rewrite Hdoc.
    destruct (doc =? d); [|exact IH'].
    cbn [flat_map]. rewrite map_app, IH'. f_equal.
    rewrite (row_yields_valid HL i doc _ a Hv).
    unfold row_yields. rewrite Ha0, Hi. cbn [map db_id set_db_id opt_Z_eqb].
    rewrite Z.eqb_refl, <- Hid. f_equal. apply set_db_id_same.
  - destruct (DbAnnotation_doc_id r =? d); [|exact IH'].
    cbn [flat_map]. rewrite map_app, IH'. f_equal.
    unfold row_yields.
    destruct (Annotation_init (DbAnnotation_anno_obj r)); [|reflexivity].
    cbn [map db_id set_db_id opt_Z_eqb].
    destruct (Z.eqb_spec (DbAnnotation_id r) i); [contradiction|reflexivity].
Qed.

Lemma unique_by_pk (t : list DbAnnotation) (r row : DbAnnotation) :
  NoDup (map DbAnnotation_id t) -> In r t -> In row t ->
  DbAnnotation_id r = DbAnnotation_id row -> r = row.
Proof.
  intros Hnd Hr Hrow E. induction t as [|x t IH]; [contradiction|].
  cbn [map] in Hnd. inversion Hnd as [|? ? Hn Hnd']; subst.
  destruct Hr as [->|Hr], Hrow as [->|Hrow]; auto.
  - exfalso. apply Hn. rewrite E. apply in_map. exact Hrow.
  - exfalso. apply Hn. rewrite <- E. apply in_map. exact Hr.
Qed.

End DatabaseBackend.

(** X4.  Creating and then listing through the database backend.  On a
    table that is well formed, [create_annotation] of a valid annotation
    returns it under the primary key of the new row, keeps the table well
    formed, adds that annotation at the end of what the document yields,
    and changes nothing for the other documents. *)
Theorem database_create_then_list {L : PyLib} {SV : Service}
    (HL : PyLibLaws L) (doc : Z) (a : Annotation) (w : World) :
  valid_annotation a -> db_wf w ->
  let created := set_db_id (Some (next_pk w)) a in
  exists w1,
    create_annotation DatabaseAnnotationStorage doc a w
    = Some (Ok created, w1)
    /\ db_wf w1
    /\ get_annotations DatabaseAnnotationStorage doc None w1
       = Some (Ok ((db_stored doc w ++ [created])%list, None), w1)
    /\ forall d, d <> doc -> db_stored d w1 = db_stored d w.
Proof.
  intros Hv (Hnd & Hlt & Hrows) created.
  set (row := mkDbAnnotation (next_pk w) doc
                (match db_id a with Some i => i | None => 0 end)
                (Some (pageIndex a)) (JObj (model_dump a))).
  set (w1 := mkWorld (svc w) (trace w) (table w ++ [row]) (next_pk w + 1)
               (_custom_field_cache w)).
  assert (Hwf1 : db_wf w1).
  { split; [|split]; cbn [table next_pk w1].
    - rewrite map_app. apply NoDup_app; [exact Hnd|repeat constructor; intros []|].
      intros x Hx [<-|[]]. apply in_map_iff in Hx.
      destruct Hx as (r & E & Hr). apply Hlt in Hr.
      cbn [DbAnnotation_id row] in E. lia.
    - intros r Hr. apply in_app_or in Hr. destruct Hr as [Hr|[<-|[]]].
      + apply Hlt in Hr. lia.
      + cbn. lia.
    - intros r Hr. apply in_app_or in Hr. destruct Hr as [Hr|[<-|[]]].
      + apply Hrows. exact Hr.
      + exists a. cbn [DbAnnotation_anno_obj DbAnnotation_page_index row].
        split; [apply (Annotation_of_model_dump HL a Hv)|reflexivity]. }
  assert (Hst : forall d, db_stored d w1
                          = (db_stored d w
                             ++ if doc =? d then [created] else [])%list).
  { intros d. unfold db_stored. cbn [table w1].
    rewrite filter_app, flat_map_app. f_equal. cbn [filter].
    cbn [DbAnnotation_doc_id row]. destruct (doc =? d); [|reflexivity].
    cbn [flat_map]. rewrite app_nil_r. apply (row_yields_valid HL). exact Hv. }
  exists w1. split; [reflexivity|]. split; [exact Hwf1|]. split.
  - rewrite (database_lists doc None w1 Hwf1), filter_on_page_none, Hst.
    rewrite Z.eqb_refl. reflexivity.
  - intros d Hne. rewrite Hst.
    destruct (Z.eqb_spec doc d); [congruence|]. apply app_nil_r.
Qed.

(** X5.  [update_annotation] of the database backend works in place.  On
    a well-formed table, updating a valid annotation whose [db_id] is the
    primary key of a row of the document returns the annotation as passed,
    keeps the primary keys, and replaces in what the document yields the
    annotation under that [db_id] and no other; when no row of the
    document has that primary key the call raises [DoesNotExist] and
    changes nothing. *)
Theorem database_update_in_place {L : PyLib} {SV : Service}
    (HL : PyLibLaws L) (doc i : Z) (a : Annotation) (w : World) :
  valid_annotation a -> db_wf w -> db_id a = Some i ->
  ((exists row, In row (table w) /\ DbAnnotation_id row = i
                /\ DbAnnotation_doc_id row = doc) ->
   exists w1,
     update_annotation DatabaseAnnotationStorage doc a w = Some (Ok a, w1)
     /\ db_wf w1
     /\ map DbAnnotation_id (table w1) = map DbAnnotation_id (table w)
     /\ forall d,
          db_stored d w1
          = map (fun o => if opt_Z_eqb (db_id o) (Some i) then a else o)
              (db_stored d w))
  /\ ((forall row, In row (table w) ->
                   ~ (DbAnnotation_id row = i /\ DbAnnotation_doc_id row = doc)) ->
      update_annotation DatabaseAnnotationStorage doc a w
      = Some (Raise DoesNotExist, w)).
Proof.
  intros Hv (Hnd & Hlt & Hrows) Hid.
  cbn [update_annotation DatabaseAnnotationStorage].
  unfold DatabaseAnnotationStorage_update_annotation.
  rewrite bind_run. unfold objects_get. rewrite Hid. split.
  - intros (row & Hin & Hi & Hdoc).
    rewrite (filter_unique_pk i doc (table w) row Hnd Hin Hi Hdoc).
    rewrite bind_run. unfold row_save, ret. cbn [DbAnnotation_id].
    rewrite Hi, Hdoc.
    eexists. split; [reflexivity|].
    assert (Hids : map DbAnnotation_id
                     (map (fun r =>
                             if DbAnnotation_id r =? i
                             then mkDbAnnotation i doc (DbAnnotation_db_id row)
                                    (Some (pageIndex a)) (JObj (model_dump a))
                             else r) (table w))
                   = map DbAnnotation_id (table w)).
    { rewrite map_map. apply map_ext. intros r.
      destruct (Z.eqb_spec (DbAnnotation_id r) i) as [E|_]; [|reflexivity].
      cbn. congruence. }
    split; [|split; [exact Hids|]].
    + split; [|split]; cbn [table next_pk].
      * rewrite Hids. exact Hnd.
      * intros r Hr. apply in_map_iff in Hr. destruct Hr as (r0 & E & Hr0).
        destruct (DbAnnotation_id r0 =? i) eqn:E0.
        -- subst r. cbn. apply Z.eqb_eq in E0. rewrite <- E0.
           apply Hlt. exact Hr0.
        -- subst r. apply Hlt. exact Hr0.
      * intros r Hr. apply in_map_iff in Hr. destruct Hr as (r0 & E & Hr0).
        destruct (DbAnnotation_id r0 =? i).
        -- subst r. exists a. cbn.
           split; [apply (Annotation_of_model_dump HL a Hv)|reflexivity].
        -- subst r. apply Hrows. exact Hr0.
    + intros d. unfold db_stored. cbn [table].
      apply (yields_after_save HL doc i row a (table w) Hv Hid Hi Hdoc).
      * destruct (Hrows row Hin) as (a0 & Ha0 & _). eauto.
      * intros r Hr E. apply (unique_by_pk (table w) r row Hnd Hr Hin).
        congruence.
  - intros Hno.
    assert (E : filter (fun r => opt_Z_eqb (Some (DbAnnotation_id r)) (Some i)
                                 && (DbAnnotation_doc_id r =? doc)) (table w)
                = []).
    { apply filter_none. intros r Hr.
      destruct (opt_Z_eqb (Some (DbAnnotation_id r)) (Some i)
                && (DbAnnotation_doc_id r =? doc)) eqn:E; [|reflexivity].
      exfalso. apply andb_true_iff in E. destruct E as [E1 E2].
      cbn in E1. apply Z.eqb_eq in E1, E2. apply (Hno r Hr). auto. }
    rewrite E. reflexivity.
Qed.

(** X6.  [delete_annotation_by_id] of the database backend, on a
    well-formed table: it never raises, it returns [True] exactly when a
    row of the document has that primary key, it removes that row and no
    other, and the table stays well formed. *)
Theorem database_delete_iff {L : PyLib} {SV : Service} (doc : Z)
    (id : option Z) (w : World) :
  db_wf w ->
  exists b w1,
    delete_annotation_by_id DatabaseAnnotationStorage doc id w
    = Some (Ok b, w1)
    /\ (b = true <->
        exists row, In row (table w) /\ Some (DbAnnotation_id row) = id
                    /\ DbAnnotation_doc_id row = doc)
    /\ table w1
       = filter (fun r => negb (opt_Z_eqb (Some (DbAnnotation_id r)) id
                                && (DbAnnotation_doc_id r =? doc)))
           (table w)
    /\ db_wf w1.
Proof.
  intros (Hnd & Hlt & Hrows).
  destruct (filter (fun r => opt_Z_eqb (Some (DbAnnotation_id r)) id
                             && (DbAnnotation_doc_id r =? doc)) (table w))
    as [|row rest] eqn:Ef.
  - assert (Hno : forall row, In row (table w) ->
                    ~ (Some (DbAnnotation_id row) = id
                       /\ DbAnnotation_doc_id row = doc)).
    { intros row Hin [E1 E2].
      assert (Hf : In row []); [|exact Hf].
      rewrite <- Ef. apply filter_In. split; [exact Hin|].
      rewrite <- E1, E2. cbn. rewrite !Z.eqb_refl. reflexivity. }
    exists false, w. split; [apply database_delete_absent; exact Hno|].
    split; [|split; [|repeat split; assumption]].
    + split; [discriminate|]. intros (row & Hin & E1 & E2).
      exfalso. apply (Hno row Hin). auto.
    + symmetry. apply filter_all. intros r Hr.
      destruct (opt_Z_eqb (Some (DbAnnotation_id r)) id
                && (DbAnnotation_doc_id r =? doc)) eqn:E; [|reflexivity].
      exfalso. apply andb_true_iff in E. destruct E as [E1 E2].
      apply opt_Z_eqb_eq in E1. apply Z.eqb_eq in E2.
      apply (Hno r Hr). auto.
  - assert (Hrow : In row (table w)
                   /\ Some (DbAnnotation_id row) = id
                   /\ DbAnnotation_doc_id row = doc).
    { assert (Hin : In row (row :: rest)) by (left; reflexivity).
      rewrite <- Ef in Hin. apply filter_In in Hin. destruct Hin as [Hin E].
      apply andb_true_iff in E. destruct E as [E1 E2].
      apply opt_Z_eqb_eq in E1. apply Z.eqb_eq in E2. auto. }
    destruct Hrow as (Hin & Hi & Hdoc). subst id.
    eexists true, _. split;
      [apply (database_delete_present doc (DbAnnotation_id row) w row Hnd Hin
                eq_refl Hdoc)|].
    cbn [table next_pk]. split; [|split; [|split; [|split]]].
    + split; [|reflexivity]. intros _. exists row. auto.
    + apply filter_ext_in. intros r Hr. cbn [opt_Z_eqb].
      destruct (Z.eqb_spec (DbAnnotation_id r) (DbAnnotation_id row))
        as [E|_]; [|reflexivity].
      rewrite (unique_by_pk (table w) r row Hnd Hr Hin E), Hdoc, Z.eqb_refl.
      reflexivity.
    + apply nodup_filter_map. exact Hnd.
    + intros r Hr. apply filter_In in Hr. apply Hlt. tauto.
    + intros r Hr. apply filter_In in Hr. apply Hrows. tauto.
Qed.

(** X7.  The page filter of the database backend.  On a well-formed table
    [get_annotations] with a page yields, in table order, exactly the
    annotations of the document whose [pageIndex] is that page, page 0
    included, where [if page:] is false and the query is not filtered by
    the column; without a page it yields them all; it never changes the
    state. *)
Theorem database_page_filter {L : PyLib} {SV : Service} (doc : Z)
    (page : option Z) (w : World) :
  db_wf w ->
  get_annotations DatabaseAnnotationStorage doc page w
  = Some (Ok (match page with
              | Some p => filter (fun a => pageIndex a =? p) (db_stored doc w)
              | None => db_stored doc w
              end, None), w).
Proof.
  intros Hwf. rewrite (database_lists doc page w Hwf).
  destruct page as [p|]; [reflexivity|].
  rewrite filter_on_page_none. reflexivity.
Qed.

(** ** The client: pagination *)

Section Pagination.
Context {SV : Service}.

Lemma pages_from_cons (rq : Z -> Request) (page : Z) (n : nat) :
  pages_from rq page (S n) = (rq page, true) :: pages_from rq (page + 1) n.
Proof.
  unfold pages_from. cbn [seq map]. rewrite Z.add_0_r. f_equal.
  rewrite <- seq_shift, map_map. apply map_ext. intros k.
  do 2 f_equal. lia.
Qed.

End Pagination.

(** X8.  [documents_iter] asks for the pages in order.  A run that returns
    has sent the requests for the pages 1, 2, ..., n and nothing else, each
    answered, for some n of at least one. *)
Theorem documents_iter_asks_pages_in_order {SV : Service} (fuel : nat) :
  forall page w documents w',
    documents_iter fuel page w = Some (Ok documents, w') ->
    exists n, (0 < n <= fuel)%nat
              /\ trace w' = (trace w ++ pages_from GetDocuments page n)%list.
Proof.
  induction fuel as [|fuel IH]; intros page w documents w'; [discriminate|].
  cbn [documents_iter]. rewrite bind_run.
  destruct (_request (GetDocuments page) w) as [[[p|e] w1]|] eqn:E;
    [| |discriminate]; [|intros [=]].
  apply request_ok_trace in E.
  destruct p as [results next| | | | |]; try (intros [=]; fail).
  destruct next.
  - rewrite bind_run.
    destruct (documents_iter fuel (page + 1) w1) as [[[rest|e] w2]|] eqn:E2;
      [| |discriminate]; [|intros [=]].
    intros [= _ <-]. destruct (IH _ _ _ _ E2) as (n & Hn & Ht).
    exists (S n). split; [lia|].
    rewrite Ht, E, pages_from_cons, <- app_assoc. reflexivity.
  - intros [= _ <-]. exists 1%nat. split; [lia|].
    rewrite E. unfold pages_from. cbn [seq map]. rewrite Z.add_0_r.
    reflexivity.
Qed.

Section PaginationOnMem.
Existing Instance MemService.

Lemma mem_get_documents (page : Z) (w : World) :
  Mem.faults (svc w) = [] ->
  exists w',
    _request (GetDocuments page) w
    = Some (match Mem.page_of (Mem.page_size (svc w)) page (Mem.docs (svc w))
            with
            | Some (results, next) => Ok (RDocuments results next)
            | None => Raise PaperlessAPIError
            end, w')
    /\ svc w' = svc w.
Proof.
  intros Hf. unfold _request. cbn [respond MemService].
  rewrite mem_respond_no_fault by exact Hf. cbn [Mem.handle].
  destruct (Mem.page_of _ page _) as [[results next]|];
    eexists; split; reflexivity.
Qed.

(** From page [k + 1] on, the client collects what the service holds from
    position [k * page_size] on. *)
Lemma mem_documents_iter_from (fuel : nat) :
  forall k w,
    Mem.faults (svc w) = [] ->
    (0 < Mem.page_size (svc w))%nat ->
    (k = 0 \/ k * Mem.page_size (svc w) < List.length (Mem.docs (svc w)))%nat ->
    (List.length (Mem.docs (svc w))
     <= k * Mem.page_size (svc w) + fuel * Mem.page_size (svc w))%nat ->
    (0 < fuel)%nat ->
    exists w',
      documents_iter fuel (Z.of_nat (S k)) w
      = Some (Ok (skipn (k * Mem.page_size (svc w)) (Mem.docs (svc w))), w')
      /\ svc w' = svc w.
Proof.
  induction fuel as [|fuel IH]; intros k w Hf Hsize Hk Hlen Hfuel; [lia|].
  cbn [documents_iter]. rewrite bind_run.
  destruct (mem_get_documents (Z.of_nat (S k)) w Hf) as (w1 & Hrq & Hs1).
  rewrite Hrq. unfold Mem.page_of.
  set (size := Mem.page_size (svc w)) in *.
  set (docs := Mem.docs (svc w)) in *.
  destruct (Z.ltb_spec (Z.of_nat (S k)) 1) as [Hlt|_]; [lia|].
  replace (Z.to_nat (Z.of_nat (S k) - 1)) with k by lia.
  assert (Hin : (1 <? Z.of_nat (S k)) && (List.length docs <=? k * size)%nat
                = false).
  { destruct Hk as [->|Hk].
    - reflexivity.
    - apply andb_false_iff. right. apply Nat.leb_gt. exact Hk. }
  rewrite Hin.
  destruct (Nat.ltb_spec (k * size + size) (List.length docs)) as [Hmore|Hlast].
  - rewrite bind_run.
    assert (Hf1 : Mem.faults (svc w1) = []) by (rewrite Hs1; exact Hf).
    assert (H1 : (0 < Mem.page_size (svc w1))%nat) by (rewrite Hs1; exact Hsize).
    assert (H2 : (S k = 0
                  \/ S k * Mem.page_size (svc w1)
                     < List.length (Mem.docs (svc w1)))%nat).
    { right. rewrite Hs1. fold size docs. cbn [Nat.mul]. lia. }
    assert (H3 : (List.length (Mem.docs (svc w1))
                  <= S k * Mem.page_size (svc w1)
                     + fuel * Mem.page_size (svc w1))%nat).
    { rewrite Hs1. fold size docs. cbn [Nat.mul] in Hlen |- *. lia. }
    assert (H4 : (0 < fuel)%nat).
    { destruct fuel; [cbn [Nat.mul] in Hlen; lia|lia]. }
    destruct (IH (S k) w1 Hf1 H1 H2 H3 H4) as (w2 & Hrest & Hs2).
    replace (Z.of_nat (S k) + 1) with (Z.of_nat (S (S k))) by lia.
    rewrite Hrest. rewrite Hs1. fold size docs.
    exists w2. split; [|congruence]. unfold ret. do 3 f_equal.
    replace (S k * size)%nat with (size + k * size)%nat by (cbn; lia).
    rewrite <- skipn_skipn. apply firstn_skipn.
  - exists w1. split; [|exact Hs1]. unfold ret. do 3 f_equal.
    apply firstn_all2. rewrite length_skipn. lia.
Qed.

End PaginationOnMem.

(** X9.  Pagination is complete on the reference service.  With a page
    size of at least one and enough fuel for the pages, [documents_iter]
    returns every document the service holds, once each and in order,
    whatever the page size, and leaves the service as it was. *)
Theorem documents_iter_returns_everything (fuel : nat)
    (w : World (SV := MemService)) :
  Mem.faults (svc w) = [] ->
  (0 < Mem.page_size (svc w))%nat ->
  (0 < fuel)%nat ->
  (List.length (Mem.docs (svc w)) <= fuel * Mem.page_size (svc w))%nat ->
  exists w',
    documents_iter fuel 1 w = Some (Ok (Mem.docs (svc w)), w')
    /\ svc w' = svc w.
Proof.
  intros Hf Hsize Hfuel Hlen.
  assert (H0 : (0 = 0 \/ 0 * Mem.page_size (svc w)
                          < List.length (Mem.docs (svc w)))%nat)
    by (left; reflexivity).
  destruct (mem_documents_iter_from fuel 0 w Hf Hsize H0 Hlen Hfuel)
    as (w' & H & Hs).
  exists w'. split; [exact H|exact Hs].
Qed.

(** X10.  [get_custom_field_by_name] returns a field of that name or
    nothing: when it returns a field, on whatever page it was found, the
    field's name is the name asked for. *)
Theorem get_custom_field_by_name_sound {SV : Service} (fuel : nat) :
  forall page name w cf w',
    get_custom_field_by_name fuel page name w = Some (Ok (Some cf), w') ->
    CustomField_name cf = name.
Proof.
  induction fuel as [|fuel IH]; intros page name w cf w'; [discriminate|].
  cbn [get_custom_field_by_name]. rewrite bind_run.
  destruct (_request (GetCustomFields page) w) as [[[p|e] w1]|];
    [| |discriminate]; [|intros [=]].
  destruct p as [| |results next| | |]; try (intros [=]; fail).
  destruct (List.find _ results) as [found|] eqn:Efind.
  - intros [= <- _]. apply find_some in Efind. destruct Efind as [_ E].
    apply String.eqb_eq in E. exact E.
  - destruct next; [apply IH|intros [=]].
Qed.

(** ** The link engine *)

(** X11.  The custom field is looked up once.  After a call of
    [_get_or_create_custom_link_field] that returned a field, a later call
    in any state with the same cache returns that field without sending a
    request and without changing the state, whatever client it is given. *)
Theorem custom_link_field_is_cached {SV : Service} {cfg : Settings}
    (fuel : nat) (w w1 : World) (cf : CustomField) :
  _get_or_create_custom_link_field fuel w = Some (Ok cf, w1) ->
  forall fuel' w2,
    _custom_field_cache w2 = _custom_field_cache w1 ->
    _get_or_create_custom_link_field fuel' w2 = Some (Ok cf, w2).
Proof.
  intros Hrun.
  assert (Hhit : exists kv,
             List.find (fun kv => String.eqb (fst kv) CUSTOM_FIELD_NAME)
               (_custom_field_cache w1) = Some kv
             /\ snd kv = cf).
  { revert Hrun. unfold _get_or_create_custom_link_field.
    rewrite bind_run. unfold cache_get at 1.
    destruct (List.find _ (_custom_field_cache w)) as [kv|] eqn:Ef.
    - intros [= <- <-]. exists kv. auto.
    - rewrite bind_run.
      destruct (get_custom_field_by_name fuel 1 CUSTOM_FIELD_NAME w)
        as [[[[found|]|e] w0]|]; [| | |discriminate]; [| |intros [=]].
      + rewrite bind_run. unfold cache_set at 1, ret.
        intros [= <- <-]. cbn [_custom_field_cache List.find fst].
        rewrite String.eqb_refl. eexists. split; reflexivity.
      + rewrite bind_run.
        destruct (create_custom_field CUSTOM_FIELD_NAME "url" w0)
          as [[[created|e] w0']|]; [| |discriminate]; [|intros [=]].
        rewrite bind_run. unfold cache_set at 1, ret.
        intros [= <- <-]. cbn [_custom_field_cache List.find fst].
        rewrite String.eqb_refl. eexists. split; reflexivity. }
  destruct Hhit as (kv & Hf & Hcf).
  intros fuel' w2 Hc. unfold _get_or_create_custom_link_field.
  rewrite bind_run. unfold cache_get. rewrite Hc, Hf, Hcf. reflexivity.
Qed.

Section Instances.

Lemma set_first_instance_some (id : Z) (value : json)
    (insts updated : list CustomFieldInstance) :
  set_first_instance id value insts = Some updated ->
  In (mkCustomFieldInstance (Some value) id) updated
  /\ filter (fun inst => negb (CustomFieldInstance_field inst =? id)) updated
     = filter (fun inst => negb (CustomFieldInstance_field inst =? id)) insts
  /\ List.length (filter (fun inst => CustomFieldInstance_field inst =? id) updated)
     = List.length (filter (fun inst => CustomFieldInstance_field inst =? id) insts)
  /\ filter (fun inst => CustomFieldInstance_field inst =? id) insts <> [].
Proof.
  revert updated.
  induction insts as [|inst rest IH]; intros updated; [discriminate|].
  cbn [set_first_instance].
  destruct (Z.eqb_spec (CustomFieldInstance_field inst) id) as [E|Hne].
  - intros [= <-]. cbn [filter CustomFieldInstance_field].
    rewrite E, !Z.eqb_refl. cbn [negb List.length].
    split; [left; reflexivity|].
    split; [reflexivity|]. split; [reflexivity|discriminate].
  - destruct (set_first_instance id value rest) as [rest'|]; [|discriminate].
    intros [= <-]. destruct (IH rest' eq_refl) as (H1 & H2 & H3 & H4).
    cbn [filter].
    destruct (Z.eqb_spec (CustomFieldInstance_field inst) id);
      [contradiction|].
    cbn [negb]. split; [right; exact H1|].
    split; [f_equal; exact H2|]. split; [exact H3|exact H4].
Qed.

Lemma set_first_instance_none (id : Z) (value : json)
    (insts : list CustomFieldInstance) :
  set_first_instance id value insts = None ->
  filter (fun inst => CustomFieldInstance_field inst =? id) insts = [].
Proof.
  induction insts as [|inst rest IH]; [reflexivity|].
  cbn [set_first_instance filter].
  destruct (CustomFieldInstance_field inst =? id); [discriminate|].
  destruct (set_first_instance id value rest); [discriminate|].
  intros _. apply IH. reflexivity.
Qed.

Lemma filter_length_all {A : Type} (f : A -> bool) (l : list A) :
  List.length (filter f l) = List.length l -> filter f l = l.
Proof.
  induction l as [|x l IH]; [reflexivity|]. cbn [filter].
  destruct (f x); cbn [List.length]; intros H.
  - f_equal. apply IH. lia.
  - pose proof (filter_length_le f l). lia.
Qed.

End Instances.

(** X12.  [add_custom_field_to_document] sets one instance.  The patch it
    sends for the document carries an instance of the field with the
    value; the instances of the other fields are those of the document,
    in order; and the field has as many instances as before, or one when
    it had none: a value is never added beside an existing one. *)
Theorem add_custom_field_sets_one_instance {SV : Service} (doc : Document)
    (custom_field_id : Z) (value : string) (w : World) :
  exists instances r w' ok,
    add_custom_field_to_document doc custom_field_id value w = Some (r, w')
    /\ trace w'
       = (trace w
            ++ [(PatchCustomFields (Document_id doc) instances, ok)])%list
    /\ In (mkCustomFieldInstance (Some (JStr value)) custom_field_id)
         instances
    /\ filter (fun inst =>
                 negb (CustomFieldInstance_field inst =? custom_field_id))
         instances
       = filter (fun inst =>
                   negb (CustomFieldInstance_field inst =? custom_field_id))
           (Document_custom_fields doc)
    /\ List.length
         (filter (fun inst => CustomFieldInstance_field inst =? custom_field_id)
            instances)
       = Nat.max 1
           (List.length
              (filter
                 (fun inst => CustomFieldInstance_field inst =? custom_field_id)
                 (Document_custom_fields doc))).
Proof.
  unfold add_custom_field_to_document.
  set (instances :=
         match set_first_instance custom_field_id (JStr value)
                 (Document_custom_fields doc) with
         | Some updated => updated
         | None => (Document_custom_fields doc
                    ++ [mkCustomFieldInstance (Some (JStr value))
                          custom_field_id])%list
         end).
  exists instances. rewrite bind_run. unfold _request.
  assert (Hrun : exists r w' ok,
             match
               (let (answer, s') :=
                  respond (PatchCustomFields (Document_id doc) instances)
                    (svc w) in
                match answer with
                | Some r =>
                    Some (Ok r,
                          mkWorld s'
                            (trace w
                               ++ [(PatchCustomFields (Document_id doc)
                                      instances, true)])
                            (table w) (next_pk w) (_custom_field_cache w))
                | None =>
                    Some (Raise PaperlessAPIError,
                          mkWorld s'
                            (trace w
                               ++ [(PatchCustomFields (Document_id doc)
                                      instances, false)])
                            (table w) (next_pk w) (_custom_field_cache w))
                end)
             with
             | Some (Ok a, w') =>
                 match a with
                 | RDocument updated_doc => ret updated_doc
                 | _ => raise ValidationError
                 end w'
             | Some (Raise e, w') => Some (Raise e, w')
             | None => None
             end = Some (r, w')
             /\ trace w'
                = (trace w
                     ++ [(PatchCustomFields (Document_id doc) instances, ok)])%list).
  { destruct (respond _ (svc w)) as [[p|] s'].
    - destruct p; unfold ret, raise; do 3 eexists; split; reflexivity.
    - do 3 eexists. split; reflexivity. }
  destruct Hrun as (r & w' & ok & Hrun & Ht).
  exists r, w', ok. split; [exact Hrun|]. split; [exact Ht|].
  subst instances.
  destruct (set_first_instance custom_field_id (JStr value)
              (Document_custom_fields doc)) as [updated|] eqn:Es.
  - destruct (set_first_instance_some _ _ _ _ Es) as (H1 & H2 & H3 & H4).
    split; [exact H1|]. split; [exact H2|]. rewrite H3.
    destruct (filter
                (fun inst => CustomFieldInstance_field inst =? custom_field_id)
                (Document_custom_fields doc)) as [|x l];
      [contradiction|]. cbn [List.length]. lia.
  - apply set_first_instance_none in Es.
    split; [apply in_or_app; right; left; reflexivity|].
    rewrite !filter_app. cbn [filter CustomFieldInstance_field].
    rewrite Z.eqb_refl. cbn [negb]. rewrite app_nil_r, Es.
    split; reflexivity.
Qed.

(** X13.  [delete_custom_field_from_document] sends a patch only when
    there is something to remove.  When the document has no instance of
    the field, the document is returned as it is and no request is sent;
    otherwise one patch is sent, with the other instances in order. *)
Theorem delete_custom_field_patches_when_needed {SV : Service}
    (doc : Document) (custom_field_id : Z) (w : World) :
  let others :=
    filter (fun inst => negb (CustomFieldInstance_field inst =? custom_field_id))
      (Document_custom_fields doc) in
  (others = Document_custom_fields doc ->
   delete_custom_field_from_document doc custom_field_id w = Some (Ok doc, w))
  /\ (others <> Document_custom_fields doc ->
      exists r w' ok,
        delete_custom_field_from_document doc custom_field_id w = Some (r, w')
        /\ trace w'
           = (trace w ++ [(PatchCustomFields (Document_id doc) others, ok)])%list).
Proof.
  intros others. unfold delete_custom_field_from_document. fold others.
  split.
  - intros E. rewrite E, Nat.eqb_refl. reflexivity.
  - intros Hne.
    destruct (Nat.eqb_spec (List.length others)
                (List.length (Document_custom_fields doc))) as [E|_].
    + exfalso. apply Hne. apply filter_length_all. exact E.
    + rewrite bind_run. unfold _request.
      destruct (respond _ (svc w)) as [[p|] s'].
      * destruct p; unfold ret, raise; do 3 eexists; split; reflexivity.
      * do 3 eexists. split; reflexivity.
Qed.

Section RemovingLinks.
Context {SV : Service} {cfg : Settings}.
Variable custom_field_id : Z.








End RemovingLinks.


Section Scan.
Context {SV : Service} {cfg : Settings}.
Variables (fuel : nat) (PAPERLESS_URL : string).



End Scan.


(** ** The client: URLs *)

Section Urls.



Lemma rstrip_chars_idem (chars s : string) :
  rstrip_chars chars (rstrip_chars chars s) = rstrip_chars chars s.
Proof.
  induction s as [|x s IH]; [reflexivity|].
  cbn [rstrip_chars]. destruct (rstrip_chars chars s) as [|y r] eqn:E.
  - destruct (in_chars x chars) eqn:Ex; [reflexivity|].
    cbn. rewrite Ex. reflexivity.
  - cbn [rstrip_chars] in IH |- *. rewrite IH. reflexivity.
Qed.


End Urls.


(** ** The orchestration layer *)

(** X17.  Deleting an annotation that carries no domain [id].  On a
    backend that keeps the storage contract, when the page of the
    annotation holds an annotation under another [db_id], [delete_anno]
    raises [AttributeError] while looking for replies, before anything is
    deleted: every record of the document is still stored. *)
Theorem delete_anno_without_id_raises {SV : Service} (st : AnnoStorage)
    (good : Z -> World -> Prop) (stored : Z -> World -> list Annotation)
    (doc : Z) (annotation other : Annotation) (w : World) :
  storage_contract st good stored ->
  good doc w ->
  getattr_extra annotation "id" = None ->
  In other (stored doc w) ->
  pageIndex other = pageIndex annotation ->
  db_id other <> db_id annotation ->
  exists w',
    PaperlessAnnotator_delete_anno st doc annotation w
    = Some (Raise (AttributeError "id"), w')
    /\ good doc w' /\ stored doc w' = stored doc w.
Proof.
  intros Hc Hg Hno Hin Hpage Hne.
  destruct (contract_get _ _ _ Hc doc (Some (pageIndex annotation)) w Hg)
    as (w1 & Hget & Hg1 & Hs1).
  exists w1. split; [|auto].
  unfold PaperlessAnnotator_delete_anno. rewrite bind_run, Hget.
  rewrite bind_run. unfold for_gen. cbn [fst snd]. rewrite bind_run.
  assert (Hloop :
    for_each (filter (on_page (Some (pageIndex annotation))) (stored doc w))
      (fun other_anno (_ : unit) =>
         bind (lift (is_reply annotation other_anno))
           (fun reply : bool =>
              if reply
              then bind (delete_annotation_by_id st doc (db_id other_anno))
                     (fun _ => ret tt)
              else ret tt))
      tt w1
    = Some (Raise (AttributeError "id"), w1)).
  { clear Hget. revert Hin.
    generalize (stored doc w). intros items Hin.
    induction items as [|x items IH]; [contradiction|].
    cbn [filter]. destruct (on_page (Some (pageIndex annotation)) x) eqn:Ep.
    - cbn [for_each]. rewrite !bind_run. unfold lift, is_reply.
      destruct (opt_Z_eqb (db_id x) (db_id annotation)) eqn:E; cbn [negb].
      + unfold ret at 1. apply IH. destruct Hin as [<-|Hin]; [|exact Hin].
        apply opt_Z_eqb_eq in E. contradiction.
      + rewrite Hno. reflexivity.
    - apply IH. destruct Hin as [<-|Hin]; [|exact Hin].
      cbn [on_page] in Ep. rewrite Hpage, Z.eqb_refl in Ep. discriminate Ep. }
  rewrite Hloop. reflexivity.
Qed.

(** ** The decoder and the registry *)

Section DecoderEdges.
Context {L : PyLib}.








End DecoderEdges.


(** X19.  The registry is keyed by name.  [get_serializer_by_name]
    returns a serializer exactly when one is registered under the name,
    and that serializer is the one it returns; for any other name it
    raises the [ValueError] that lists the registered names. *)
Theorem registry_lookup {L : PyLib} (name : string) (S : AnnoSerializer) :
  (get_serializer_by_name name = Ok S <-> In S subclasses /\ NAME S = name)
  /\ ((forall S', In S' subclasses -> NAME S' <> name) ->
      get_serializer_by_name name
      = Raise (ValueError (unknown_serializer_message name))).
Proof.
  split; [split|].
  - unfold get_serializer_by_name.
    destruct (List.find _ subclasses) as [found|] eqn:E; [|discriminate].
    intros [= <-]. apply find_some in E. destruct E as [Hin E].
    apply String.eqb_eq in E. auto.
  - intros [[<-|[<-|[]]] <-]; reflexivity.
  - intros Hno. apply get_serializer_by_name_unknown.
    rewrite registered_names_eq. intros [E|[E|[]]].
    + apply (Hno Base85GzipJSONSerializer); [left; reflexivity|exact E].
    + apply (Hno JsonSerializer); [right; left; reflexivity|exact E].
Qed.

(** ** Further edges of the two backends *)

(** X20.  An empty answer to the note request.  When the service answers
    the request that stores the note with an empty list,
    [add_note_to_document] returns [None] and [create_annotation] of the
    note backend raises [AttributeError] on its [id], after the request
    has been sent. *)
Theorem notes_create_on_empty_answer {L : PyLib} {SV : Service}
    (self : AnnoSerializer) (doc : Z) (annotation : Annotation)
    (content : string) (w : World) (s' : svc_state) :
  _anno_to_note_content self annotation = Ok content ->
  respond (PostNote doc content) (svc w) = (Some (RNotes []), s') ->
  exists w',
    create_annotation (PaperlessNotesStorage self) doc annotation w
    = Some (Raise (AttributeError "id"), w')
    /\ trace w' = (trace w ++ [(PostNote doc content, true)])%list
    /\ svc w' = s'.
Proof.
  intros Henc Hresp.
  cbn [create_annotation PaperlessNotesStorage].
  unfold PaperlessNotesStorage_create_annotation.
  rewrite bind_run. unfold lift. rewrite Henc.
  rewrite bind_run. unfold add_note_to_document. rewrite bind_run.
  unfold _request. rewrite Hresp. cbv beta iota. unfold ret at 1.
  cbn [map List.last]. unfold raise.
  eexists. split; [reflexivity|]. split; reflexivity.
Qed.

(** X21.  [delete_all_annotations] over the database backend.  On a
    well-formed table, when the two listings of the documents go through,
    the call returns the ids of the listed documents outside
    [docs_to_skip] that had an annotation, each once, leaves none of them
    with an annotation, and leaves the annotations of every other document
    as they were: no deletion in the table can fail. *)
Theorem delete_all_annotations_database {L : PyLib} {SV : Service}
    (fuel : nat) (docs_to_skip : list Z) (w w1 w2 : World)
    (found documents : list Document) :
  db_wf w ->
  documents_iter fuel 1 w = Some (Ok found, w1) ->
  documents_iter fuel 1 w1 = Some (Ok documents, w2) ->
  exists processed_docs w',
    PaperlessAnnotator_delete_all_annotations DatabaseAnnotationStorage fuel
      (Some docs_to_skip) w
    = Some (Ok processed_docs, w')
    /\ NoDup processed_docs
    /\ (forall x, In x processed_docs <->
                  exists doc, In doc documents
                              /\ skipped docs_to_skip doc = false
                              /\ Document_id doc = x
                              /\ db_stored x w <> [])
    /\ (forall doc, In doc documents -> skipped docs_to_skip doc = false ->
                    db_stored (Document_id doc) w' = [])
    /\ (forall d,
          (forall doc, In doc documents -> skipped docs_to_skip doc = false ->
                       Document_id doc <> d) ->
          db_stored d w' = db_stored d w).
Proof.
  intros Hwf H1 H2.
  destruct (delete_all_deletes DatabaseAnnotationStorage db_good db_stored
              fuel docs_to_skip w w1 w2 found documents
              database_contract database_frame
              (database_listing_transparent fuel) H1 H2)
    as (ids & w' & Hrun & Hnd & Hin & Hst & Hfr).
  { intros doc _ _. apply db_wf_good. exact Hwf. }
  exists ids, w'. split; [exact Hrun|]. split; [exact Hnd|].
  split; [exact Hin|]. split; [exact Hst|].
  intros d Hno. apply Hfr; [apply db_wf_good; exact Hwf|exact Hno].
Qed.

(** X22.  Deleting and then listing through the note backend, on the
    reference service.  Deleting the [db_id] of a listed annotation returns
    [True], and [get_annotations] then yields what it yielded before
    without the annotation under that [db_id]. *)
Theorem notes_delete_then_list {L : PyLib} (self : AnnoSerializer) (doc : Z)
    (a : Annotation) (w : World (SV := MemService)) :
  mem_good doc w ->
  In a (mem_stored doc w) ->
  exists w1 w2,
    delete_annotation_by_id (PaperlessNotesStorage self) doc (db_id a) w
    = Some (Ok true, w1)
    /\ get_annotations (PaperlessNotesStorage self) doc None w1
       = Some (Ok (filter (fun o => negb (opt_Z_eqb (db_id o) (db_id a)))
                     (mem_stored doc w), None), w2).
Proof.
  intros Hg Ha.
  destruct (contract_delete _ _ _ (notes_contract self) doc a w Hg Ha)
    as (w1 & Hdel & Hg1 & Hs1).
  destruct (contract_get _ _ _ (notes_contract self) doc None w1 Hg1)
    as (w2 & Hget & _ & _).
  exists w1, w2. split; [exact Hdel|].
  rewrite Hget, filter_on_page_none, Hs1. reflexivity.
Qed.

(** ** The further properties on the example data *)

Section OnSamples.
Existing Instance RefLib.
Existing Instance MemService.
Existing Instance Example.settings.

Lemma example_valid (id : string) (page : Z) (parent : option string) :
  valid_annotation (Example.anno id page parent).
Proof.
  destruct parent as [parent|]; split; cbn.
  - repeat split. repeat constructor; cbn; intuition discriminate.
  - intros k [<-|[<-|[]]]; reflexivity.
  - repeat split. repeat constructor; cbn; intuition discriminate.
  - intros k [<-|[]]; reflexivity.
Qed.

Lemma thread_table_wf :
  db_wf (Example.world (Example.service []) Example.thread_table).
Proof.
  split; [|split].
  - repeat constructor; cbn; intuition discriminate.
  - intros r [<-|[<-|[<-|[<-|[<-|[]]]]]]; reflexivity.
  - intros r [<-|[<-|[<-|[<-|[<-|[]]]]]]; eexists;
      (split; [vm_compute; reflexivity|reflexivity]).
Qed.

Lemma example_service_wf : mem_notes_wf (Example.service []).
Proof.
  split.
  - repeat constructor; cbn; intuition discriminate.
  - intros dn [<-|[<-|[]]]; reflexivity.
Qed.

Lemma note_codec_roundtrip_witness :
  _note_content_to_anno (Example.note_text Example.A) = Ok (Some Example.A).
Proof.
  apply (note_codec_roundtrip RefLib_laws JsonSerializer Example.A
           (Example.note_text Example.A)
           (PyRef.json_dumps_indent2 (JObj (model_dump Example.A)))).
  - right. left. reflexivity.
  - apply example_valid.
  - vm_compute. reflexivity.
  - reflexivity.
  - vm_compute. reflexivity.
  - vm_compute. reflexivity.
Defined.

Lemma notes_create_then_list_witness :
  let w := Example.world (Example.service []) [] in
  let created := set_db_id (Some 3) Example.C in
  exists w1 w2,
    create_annotation (PaperlessNotesStorage JsonSerializer) 1 Example.C w
    = Some (Ok created, w1)
    /\ get_annotations (PaperlessNotesStorage JsonSerializer) 1 None w1
       = Some (Ok ((mem_stored 1 w ++ [created])%list, None), w2).
Proof.
  intros w created.
  apply (notes_create_then_list RefLib_laws JsonSerializer 1 Example.C
           (Example.note_text Example.C)
           (PyRef.json_dumps_indent2 (JObj (model_dump Example.C))) w).
  - right. left. reflexivity.
  - apply example_valid.
  - vm_compute. reflexivity.
  - reflexivity.
  - vm_compute. reflexivity.
  - vm_compute. reflexivity.
  - reflexivity.
  - reflexivity.
  - apply example_service_wf.
Defined.

Lemma notes_update_loses_note_on_encoding_error_witness :
  let w := Example.world (Example.service []) [] in
  exists w',
    update_annotation (PaperlessNotesStorage JsonSerializer) 1
      (set_db_id (Some 1) Example.colliding) w
    = Some (Raise header_collision, w')
    /\ trace w' = (trace w ++ [(DeleteNote 1 (Some 1), true)])%list
    /\ Mem.notes (svc w')
       = filter (fun dn => negb ((fst dn =? 1) && (Note_id (snd dn) =? 1)))
           (Mem.notes (svc w)).
Proof.
  intros w.
  apply (notes_update_loses_note_on_encoding_error JsonSerializer 1 1
           (set_db_id (Some 1) Example.colliding) header_collision w).
  - reflexivity.
  - vm_compute. reflexivity.
  - reflexivity.
  - reflexivity.
  - reflexivity.
Defined.

Lemma database_create_then_list_witness :
  let w := Example.world (Example.service []) Example.thread_table in
  let created := set_db_id (Some 6) Example.A in
  exists w1,
    create_annotation DatabaseAnnotationStorage 2 Example.A w
    = Some (Ok created, w1)
    /\ db_wf w1
    /\ get_annotations DatabaseAnnotationStorage 2 None w1
       = Some (Ok ((db_stored 2 w ++ [created])%list, None), w1)
    /\ forall d, d <> 2 -> db_stored d w1 = db_stored d w.
Proof.
  intros w created.
  apply (database_create_then_list RefLib_laws 2 Example.A w).
  - apply example_valid.
  - apply thread_table_wf.
Defined.

Lemma database_update_in_place_witness :
  let w := Example.world (Example.service []) Example.thread_table in
  let updated := set_db_id (Some 2) (Example.anno "b" 3 (Some "a")) in
  exists w1,
    update_annotation DatabaseAnnotationStorage 1 updated w
    = Some (Ok updated, w1)
    /\ db_wf w1
    /\ map DbAnnotation_id (table w1) = map DbAnnotation_id (table w)
    /\ forall d,
         db_stored d w1
         = map (fun o => if opt_Z_eqb (db_id o) (Some 2) then updated else o)
             (db_stored d w).
Proof.
  intros w updated.
  apply (database_update_in_place RefLib_laws 1 2 updated w).
  - split; cbn.
    + repeat split. repeat constructor; cbn; intuition discriminate.
    + intros k [<-|[<-|[]]]; reflexivity.
  - apply thread_table_wf.
  - reflexivity.
  - exists (Example.row 2 1 Example.B).
    split; [right; left; reflexivity|]. split; reflexivity.
Defined.

Lemma database_delete_iff_witness :
  let w := Example.world (Example.service []) Example.thread_table in
  exists b w1,
    delete_annotation_by_id DatabaseAnnotationStorage 1 (Some 2) w
    = Some (Ok b, w1)
    /\ (b = true <->
        exists row, In row (table w) /\ Some (DbAnnotation_id row) = Some 2
                    /\ DbAnnotation_doc_id row = 1)
    /\ table w1
       = filter (fun r => negb (opt_Z_eqb (Some (DbAnnotation_id r)) (Some 2)
                                && (DbAnnotation_doc_id r =? 1)))
           (table w)
    /\ db_wf w1.
Proof.
  intros w. apply (database_delete_iff 1 (Some 2) w). apply thread_table_wf.
Defined.

Lemma database_page_filter_witness :
  let w := Example.world (Example.service []) Example.thread_table in
  get_annotations DatabaseAnnotationStorage 1 (Some 0) w
  = Some (Ok (filter (fun a => pageIndex a =? 0) (db_stored 1 w), None), w).
Proof.
  intros w. apply (database_page_filter 1 (Some 0) w). apply thread_table_wf.
Defined.

Lemma documents_iter_asks_pages_in_order_witness :
  let w := Example.world Sample.paged_service [] in
  exists n, (0 < n <= 3)%nat
            /\ trace (final_state (documents_iter 3 1) w)
               = (trace w ++ pages_from GetDocuments 1 n)%list.
Proof.
  intros w.
  apply (documents_iter_asks_pages_in_order 3 1 w
           [Example.plain_doc 1; Example.plain_doc 2; Example.plain_doc 3]).
  apply run_final. vm_compute. reflexivity.
Defined.

Lemma documents_iter_returns_everything_witness :
  let w := Example.world Sample.paged_service [] in
  exists w',
    documents_iter 3 1 w = Some (Ok (Mem.docs (svc w)), w')
    /\ svc w' = svc w.
Proof.
  intros w. apply (documents_iter_returns_everything 3 w).
  - reflexivity.
  - cbn. lia.
  - lia.
  - cbn. lia.
Defined.

Lemma get_custom_field_by_name_sound_witness :
  CustomField_name (mkCustomField 1 "Annotations" "url") = "Annotations".
Proof.
  apply (get_custom_field_by_name_sound 3 1 "Annotations"
           (Example.world Example.moved_service [])
           (mkCustomField 1 "Annotations" "url")
           (final_state (get_custom_field_by_name 3 1 "Annotations")
              (Example.world Example.moved_service []))).
  apply run_final. vm_compute. reflexivity.
Defined.

Lemma custom_link_field_is_cached_witness :
  let w := Example.world (Example.link_service false) [] in
  let w1 := final_state (_get_or_create_custom_link_field 3) w in
  _get_or_create_custom_link_field 0 w1
  = Some (Ok (mkCustomField 1 "Annotations" "url"), w1).
Proof.
  intros w w1.
  apply (custom_link_field_is_cached 3 w w1); [|reflexivity].
  apply run_final. vm_compute. reflexivity.
Defined.

Lemma delete_custom_field_patches_when_needed_witness :
  let w := Example.world Example.moved_service [] in
  delete_custom_field_from_document Sample.linked_doc 9 w
  = Some (Ok Sample.linked_doc, w)
  /\ exists r w' ok,
       delete_custom_field_from_document Sample.linked_doc 1 w = Some (r, w')
       /\ trace w'
          = (trace w
               ++ [(PatchCustomFields 1
                      [mkCustomFieldInstance (Some (JStr "x")) 7], ok)])%list.
Proof.
  intros w. split.
  - apply (proj1 (delete_custom_field_patches_when_needed Sample.linked_doc 9 w)).
    reflexivity.
  - apply (proj2 (delete_custom_field_patches_when_needed Sample.linked_doc 1 w)).
    discriminate.
Defined.




Lemma delete_anno_without_id_raises_witness :
  let w := Example.world (Example.service []) Sample.bare_table in
  exists w',
    PaperlessAnnotator_delete_anno DatabaseAnnotationStorage 1
      (set_db_id (Some 1) Sample.bare) w
    = Some (Raise (AttributeError "id"), w')
    /\ db_good 1 w' /\ db_stored 1 w' = db_stored 1 w.
Proof.
  intros w.
  apply (delete_anno_without_id_raises DatabaseAnnotationStorage db_good
           db_stored 1 (set_db_id (Some 1) Sample.bare)
           (set_db_id (Some 2) Example.B) w database_contract).
  - split.
    + repeat constructor; cbn; intuition discriminate.
    + intros r [<-|[<-|[]]] _; eexists;
        (split; [vm_compute; reflexivity|reflexivity]).
  - reflexivity.
  - right. left. vm_compute. reflexivity.
  - reflexivity.
  - discriminate.
Defined.


Lemma registry_lookup_witness :
  get_serializer_by_name "ji2" = Ok JsonSerializer
  /\ get_serializer_by_name "zz9"
     = Raise (ValueError (unknown_serializer_message "zz9")).
Proof.
  split.
  - apply (proj1 (registry_lookup "ji2" JsonSerializer)).
    split; [right; left; reflexivity|reflexivity].
  - apply (proj2 (registry_lookup "zz9" JsonSerializer)).
    intros S' [<-|[<-|[]]]; discriminate.
Defined.

Lemma notes_delete_then_list_witness :
  let w := Example.world (Example.service []) [] in
  exists w1 w2,
    delete_annotation_by_id (PaperlessNotesStorage JsonSerializer) 1 (Some 1) w
    = Some (Ok true, w1)
    /\ get_annotations (PaperlessNotesStorage JsonSerializer) 1 None w1
       = Some (Ok (filter (fun o => negb (opt_Z_eqb (db_id o) (Some 1)))
                     (mem_stored 1 w), None), w2).
Proof.
  intros w.
  apply (notes_delete_then_list JsonSerializer 1
           (set_db_id (Some 1) Example.A) w).
  - split; [reflexivity|]. split; [reflexivity|].
    repeat constructor; cbn; intuition discriminate.
  - assert (Hs : mem_stored 1 w = [set_db_id (Some 1) Example.A])
      by (vm_compute; reflexivity).
    rewrite Hs. left. reflexivity.
Defined.

Lemma delete_all_annotations_database_witness :
  let w := Example.world (Example.service []) Example.thread_table in
  exists processed_docs w',
    PaperlessAnnotator_delete_all_annotations DatabaseAnnotationStorage 3
      (Some []) w
    = Some (Ok processed_docs, w')
    /\ NoDup processed_docs
    /\ (forall x, In x processed_docs <->
                  exists doc, In doc [Example.plain_doc 1; Example.plain_doc 2]
                              /\ skipped [] doc = false
                              /\ Document_id doc = x
                              /\ db_stored x w <> [])
    /\ (forall doc, In doc [Example.plain_doc 1; Example.plain_doc 2] ->
                    skipped [] doc = false ->
                    db_stored (Document_id doc) w' = [])
    /\ (forall d,
          (forall doc, In doc [Example.plain_doc 1; Example.plain_doc 2] ->
                       skipped [] doc = false -> Document_id doc <> d) ->
          db_stored d w' = db_stored d w).
Proof.
  intros w.
  apply (delete_all_annotations_database 3 [] w
           (final_state (documents_iter 3 1) w)
           (final_state (documents_iter 3 1)
              (final_state (documents_iter 3 1) w))
           [Example.plain_doc 1; Example.plain_doc 2]
           [Example.plain_doc 1; Example.plain_doc 2]).
  - apply thread_table_wf.
  - apply run_final. vm_compute. reflexivity.
  - apply run_final. vm_compute. reflexivity.
Defined.

End OnSamples.

Section OnSilentService.
Existing Instance RefLib.
Existing Instance silent_service.

Lemma notes_create_on_empty_answer_witness :
  let w := mkWorld tt [] [] 1 [] in
  exists w',
    create_annotation (PaperlessNotesStorage JsonSerializer) 1 Example.A w
    = Some (Raise (AttributeError "id"), w')
    /\ trace w'
       = (trace w ++ [(PostNote 1 (Example.note_text Example.A), true)])%list
    /\ svc w' = tt.
Proof.
  intros w.
  apply (notes_create_on_empty_answer JsonSerializer 1 Example.A
           (Example.note_text Example.A) w tt).
  - vm_compute. reflexivity.
  - reflexivity.
Defined.

End OnSilentService.

(** ** What every request of a run satisfies *)

Section AllSent.
Context {SV : Service}.
Variable Q : Request * bool -> Prop.

Lemma all_sent_ret {A : Type} (a : A) : all_sent Q (ret a).
Proof.
  intros w r w' [= <- <-]. exists []. rewrite app_nil_r. auto.
Qed.

Lemma all_sent_raise {A : Type} (e : exn) : all_sent Q (@raise _ A e).
Proof.
  intros w r w' [= <- <-]. exists []. rewrite app_nil_r. auto.
Qed.

Lemma all_sent_lift {A : Type} (x : result A) : all_sent Q (lift x).
Proof.
  intros w r w' [= <- <-]. exists []. rewrite app_nil_r. auto.
Qed.

Lemma all_sent_request (rq : Request) :
  (forall ok, Q (rq, ok)) -> all_sent Q (_request rq).
Proof.
  intros Hq w r w'. unfold _request.
  destruct (respond rq (svc w)) as [[x|] s']; intros [= <- <-]; cbn [trace];
    eexists; (split; [reflexivity|]); constructor; auto.
Qed.

Lemma all_sent_bind {A B : Type} (m : M A) (k : A -> M B) :
  all_sent Q m -> (forall a, all_sent Q (k a)) -> all_sent Q (bind m k).
Proof.
  intros Hm Hk w r w'. rewrite bind_run.
  destruct (m w) as [[[a|e] w1]|] eqn:E; [| |discriminate].
  - destruct (Hm _ _ _ E) as (t1 & Ht1 & H1). intros Hrun.
    destruct (Hk a _ _ _ Hrun) as (t2 & Ht2 & H2).
    exists (t1 ++ t2)%list. split.
    + rewrite Ht2, Ht1, app_assoc. reflexivity.
    + apply Forall_app. auto.
  - intros [= <- <-]. destruct (Hm _ _ _ E) as (t1 & Ht1 & H1).
    exists t1. auto.
Qed.

Lemma all_sent_for_each {A B : Type} (l : list A) (body : A -> B -> M B) :
  (forall x acc, all_sent Q (body x acc)) ->
  forall acc, all_sent Q (for_each l body acc).
Proof.
  intros Hb. induction l as [|x l IH]; intros acc; cbn [for_each].
  - apply all_sent_ret.
  - apply all_sent_bind; [apply Hb|exact IH].
Qed.

Lemma all_sent_for_gen {A B : Type} (g : gen A) (body : A -> B -> M B) :
  (forall x acc, all_sent Q (body x acc)) ->
  forall acc, all_sent Q (for_gen g body acc).
Proof.
  intros Hb acc. unfold for_gen. apply all_sent_bind.
  - apply all_sent_for_each. exact Hb.
  - intros acc'. destruct (snd g); [apply all_sent_raise|apply all_sent_ret].
Qed.

Lemma all_sent_documents_iter (fuel : nat) :
  (forall page ok, Q (GetDocuments page, ok)) ->
  forall page, all_sent Q (documents_iter fuel page).
Proof.
  intros Hq. induction fuel as [|fuel IH]; intros page; cbn [documents_iter].
  - intros w r w' [=].
  - apply all_sent_bind; [apply all_sent_request; apply Hq|].
    intros [results next| | | | |]; try apply all_sent_raise.
    destruct next; [|apply all_sent_ret].
    apply all_sent_bind; [apply IH|]. intros rest. apply all_sent_ret.
Qed.

Lemma all_sent_query_iter {B : Type} (fuel : nat) (q : cf_query)
    (body : Document -> B -> M B) :
  (forall page ok, Q (QueryDocuments q page, ok)) ->
  (forall doc acc, all_sent Q (body doc acc)) ->
  forall page acc,
    all_sent Q (documents_custom_field_query_iter fuel q page body acc).
Proof.
  intros Hq Hb. induction fuel as [|fuel IH]; intros page acc;
    cbn [documents_custom_field_query_iter].
  - intros w r w' [=].
  - apply all_sent_bind; [apply all_sent_request; apply Hq|].
    intros [results next| | | | |]; try apply all_sent_raise.
    apply all_sent_bind; [apply all_sent_for_each; exact Hb|].
    intros acc'. destruct next; [apply IH|apply all_sent_ret].
Qed.

Lemma all_sent_get_custom_field_by_name (fuel : nat) :
  (forall page ok, Q (GetCustomFields page, ok)) ->
  forall page name, all_sent Q (get_custom_field_by_name fuel page name).
Proof.
  intros Hq. induction fuel as [|fuel IH]; intros page name;
    cbn [get_custom_field_by_name].
  - intros w r w' [=].
  - apply all_sent_bind; [apply all_sent_request; apply Hq|].
    intros [| |results next| | |]; try apply all_sent_raise.
    destruct (List.find _ results); [apply all_sent_ret|].
    destruct next; [apply IH|apply all_sent_ret].
Qed.

End AllSent.

Section OwnLinks.
Context {SV : Service} {cfg : Settings}.

Lemma all_sent_get_or_create (Q : Request * bool -> Prop) (fuel : nat) :
  (forall page ok, Q (GetCustomFields page, ok)) ->
  (forall name data_type ok, Q (PostCustomField name data_type, ok)) ->
  all_sent Q (_get_or_create_custom_link_field fuel).
Proof.
  intros H1 H2. unfold _get_or_create_custom_link_field.
  apply all_sent_bind.
  - intros w r w' [= <- <-]. exists []. rewrite app_nil_r. auto.
  - intros [cf|]; [apply all_sent_ret|].
    apply all_sent_bind;
      [apply all_sent_get_custom_field_by_name; exact H1|].
    assert (Hset : forall cf, all_sent Q (cache_set cf)).
    { intros cf w r w' [= <- <-]. exists []. cbn [trace].
      rewrite app_nil_r. auto. }
    intros [cf|].
    + apply all_sent_bind; [apply Hset|]. intros _. apply all_sent_ret.
    + apply all_sent_bind.
      * unfold create_custom_field. apply all_sent_bind;
          [apply all_sent_request; apply H2|].
        intros []; try apply all_sent_raise. apply all_sent_ret.
      * intros cf. apply all_sent_bind; [apply Hset|].
        intros _. apply all_sent_ret.
Qed.

Lemma upsert_holds_value (id : Z) (value : json)
    (insts : list CustomFieldInstance) :
  In (mkCustomFieldInstance (Some value) id)
    match set_first_instance id value insts with
    | Some updated => updated
    | None => (insts ++ [mkCustomFieldInstance (Some value) id])%list
    end.
Proof.
  destruct (set_first_instance id value insts) as [updated|] eqn:E.
  - apply (set_first_instance_some id value insts updated E).
  - apply in_or_app. right. left. reflexivity.
Qed.

Lemma link_loop_body_sets_own_link (docs_to_skip : list Z)
    (custom_field : CustomField) (value : Document -> string)
    (doc : Document) (updated_docs : list Z) :
  value doc = missing_link_value doc \/ value doc = outdated_link_value doc ->
  all_sent sets_own_link
    (link_loop_body docs_to_skip custom_field value doc updated_docs).
Proof.
  intros Hv. unfold link_loop_body.
  destruct (existsb _ docs_to_skip); [apply all_sent_ret|].
  apply all_sent_bind; [|intros _; apply all_sent_ret].
  unfold add_custom_field_to_document.
  apply all_sent_bind.
  - apply all_sent_request. intros ok. unfold sets_own_link. cbn [fst].
    exists (CustomField_id custom_field), (value doc).
    split; [apply upsert_holds_value|].
    unfold missing_link_value, outdated_link_value in Hv. exact Hv.
  - intros []; try apply all_sent_raise. apply all_sent_ret.
Qed.

End OwnLinks.

(** X23.  A document is only ever given a link to its own page.  Every
    patch that a call of [update_document_links] sends, however the call
    ends, carries for the patched document an instance whose value is the
    base URL followed by the path of that document's own view, with one
    slash from the fill-missing loop or two from the repair loop. *)
Theorem links_point_to_their_document {SV : Service} {cfg : Settings}
    (fuel : nat) (docs_to_skip : option (list Z)) (w : World)
    (r : result (list Z)) (w' : World) :
  update_document_links fuel docs_to_skip w = Some (r, w') ->
  exists t, trace w' = (trace w ++ t)%list /\ Forall sets_own_link t.
Proof.
  revert w r w'. change (all_sent sets_own_link
                           (update_document_links fuel docs_to_skip)).
  unfold update_document_links.
  apply all_sent_bind.
  - apply all_sent_get_or_create; intros; exact I.
  - intros custom_field. apply all_sent_bind.
    + apply all_sent_query_iter; [intros; exact I|].
      intros doc acc. apply link_loop_body_sets_own_link. left. reflexivity.
    + intros updated_docs. apply all_sent_query_iter; [intros; exact I|].
      intros doc acc. apply link_loop_body_sets_own_link. right. reflexivity.
Qed.

(** X24.  [delete_all_annotations] respects the skip set.  Over the note
    backend, however the call ends, no request it has sent deletes a note
    of a document in [docs_to_skip]. *)
Theorem delete_all_spares_skipped {L : PyLib} {SV : Service}
    (self : AnnoSerializer) (fuel : nat) (docs_to_skip : list Z)
    (w : World) (r : result (list Z)) (w' : World) :
  PaperlessAnnotator_delete_all_annotations (PaperlessNotesStorage self) fuel
    (Some docs_to_skip) w = Some (r, w') ->
  exists t, trace w' = (trace w ++ t)%list /\ Forall (spares docs_to_skip) t.
Proof.
  revert w r w'.
  change (all_sent (spares docs_to_skip)
            (PaperlessAnnotator_delete_all_annotations
               (PaperlessNotesStorage self) fuel (Some docs_to_skip))).
  assert (Hget : forall doc page,
             all_sent (spares docs_to_skip)
               (get_annotations (PaperlessNotesStorage self) doc page)).
  { intros doc page. cbn [get_annotations PaperlessNotesStorage].
    unfold PaperlessNotesStorage_get_annotations, document_notes.
    apply all_sent_bind.
    - apply all_sent_bind; [apply all_sent_request; intros; exact I|].
      intros []; try apply all_sent_raise. apply all_sent_ret.
    - intros notes. apply all_sent_ret. }
  unfold PaperlessAnnotator_delete_all_annotations,
    get_all_documents_with_annotations.
  apply all_sent_bind; [apply all_sent_documents_iter; intros; exact I|].
  intros _.
  apply all_sent_bind; [apply all_sent_documents_iter; intros; exact I|].
  intros documents. apply all_sent_for_each. intros doc acc.
  destruct (skipped docs_to_skip doc) eqn:Esk; [apply all_sent_ret|].
  apply all_sent_bind; [apply Hget|].
  intros [[|first rest] [e|]];
    try apply all_sent_raise; try apply all_sent_ret;
    (apply all_sent_bind; [apply Hget|]);
    intros annos; apply all_sent_for_gen; intros anno acc';
    (apply all_sent_bind; [|intros _; apply all_sent_ret]);
    cbn [delete_annotation_by_id PaperlessNotesStorage];
    unfold PaperlessNotesStorage_delete_annotation_by_id, delete_note;
    (apply all_sent_bind; [|intros _; apply all_sent_ret]);
    apply all_sent_request; intros ok; unfold spares; cbn [fst];
    intros Hin; unfold skipped in Esk;
    (assert (existsb (Z.eqb (Document_id doc)) docs_to_skip = true);
     [|congruence]);
    apply existsb_exists; exists (Document_id doc);
    (split; [exact Hin|apply Z.eqb_refl]).
Qed.

(** ** The constructor and the codec, composed *)

(** X25.  What the constructor builds is valid.  An [Annotation] built
    from a dictionary without repeated keys keeps the undeclared keys as
    extension fields, in order, and is a valid annotation: dumping it and
    calling the constructor on the dump gives it back, so it meets what
    the serializer and codec round trips ask of an annotation. *)
Theorem constructed_annotation_is_valid {L : PyLib} (HL : PyLibLaws L)
    (d : dict) (a : Annotation) :
  json_wf (JObj d) ->
  Annotation_init (JObj d) = Ok a ->
  extra a = filter (fun kv => negb (str_in (fst kv) FIELDS)) d
  /\ valid_annotation a
  /\ Annotation_init (JObj (model_dump a)) = Ok a.
Proof.
  intros Hwf Hinit.
  assert (Hextra : extra a
                   = filter (fun kv => negb (str_in (fst kv) FIELDS)) d).
  { cbn [Annotation_init] in Hinit. unfold Annotation_of_dict in Hinit.
    destruct (field_required validate_str "created" d); [|discriminate].
    destruct (field_default validate_str "author" "" d); [|discriminate].
    destruct (field_required validate_int "type" d); [|discriminate].
    destruct (field_required validate_int "pageIndex" d); [|discriminate].
    destruct (field_optional validate_int "db_id" d); [|discriminate].
    destruct (field_optional validate_str "contents" d); [|discriminate].
    cbn [rbind] in Hinit. injection Hinit as <-. reflexivity. }
  assert (Hvalid : valid_annotation a).
  { apply PyRefFacts.json_wf_obj in Hwf. destruct Hwf as [Hnd Hall].
    split.
    - apply PyRefFacts.json_wf_obj. rewrite Hextra. split.
      + apply nodup_filter_map. exact Hnd.
      + apply Forall_forall. intros kv Hkv. apply filter_In in Hkv.
        rewrite Forall_forall in Hall. apply Hall. tauto.
    - intros k Hk. unfold keys in Hk. rewrite Hextra in Hk.
      apply in_map_iff in Hk. destruct Hk as (kv & <- & Hkv).
      apply filter_In in Hkv. destruct Hkv as [_ Hkv].
      apply negb_true_iff in Hkv. exact Hkv. }
  split; [exact Hextra|]. split; [exact Hvalid|].
  apply (Annotation_of_model_dump HL a Hvalid).
Qed.

Section UpdateOnMem.
Context {L : PyLib}.
Existing Instance MemService.

Lemma wf_after_delete (doc old : Z) (s : Mem.state) :
  mem_notes_wf s ->
  mem_notes_wf
    (Mem.mk (Mem.docs s) (Mem.index s) (Mem.stale s)
       (filter (fun dn => negb ((fst dn =? doc) && (Note_id (snd dn) =? old)))
          (Mem.notes s))
       (Mem.next_note s) (Mem.fields s) (Mem.next_field s) (Mem.page_size s)
       (Mem.faults s)).
Proof.
  intros [Hnd Hlt]. split; cbn [Mem.notes Mem.next_note].
  - apply nodup_filter_map. exact Hnd.
  - intros dn Hdn. apply filter_In in Hdn. apply Hlt. tauto.
Qed.

End UpdateOnMem.

(** X26.  Updating and then listing through the note backend, on the
    reference service.  For a registered serializer and a valid annotation
    whose [db_id] is a note of the document and whose encoding succeeds,
    with a payload as in X1, [update_annotation] returns the annotation
    under the id of the new note, and [get_annotations] then yields what
    it yielded before without the annotation under the old [db_id],
    followed by the updated annotation under the new one: the annotation
    moves to the end of the listing. *)
Theorem notes_update_then_list {L : PyLib} (HL : PyLibLaws L)
    (self : AnnoSerializer) (doc old : Z) (a : Annotation)
    (content payload : string) (w : World (SV := MemService)) :
  In self subclasses ->
  valid_annotation a ->
  db_id a = Some old ->
  _anno_to_note_content self a = Ok content ->
  serialize self (JObj (model_dump a)) = Ok payload ->
  Py.rstrip payload = payload ->
  Py.join NL (Py.splitlines payload) = payload ->
  Mem.faults (svc w) = [] -> Mem.has_doc doc (svc w) = true ->
  Mem.has_note doc old (svc w) = true ->
  mem_notes_wf (svc w) ->
  let updated := set_db_id (Some (Mem.next_note (svc w))) a in
  exists w1 w2,
    update_annotation (PaperlessNotesStorage self) doc a w
    = Some (Ok updated, w1)
    /\ get_annotations (PaperlessNotesStorage self) doc None w1
       = Some (Ok ((filter (fun o => negb (opt_Z_eqb (db_id o) (Some old)))
                      (mem_stored doc w)
                    ++ [updated])%list, None), w2).
Proof.
  intros Hin Hv Hid Henc Hser Hrs Hlines Hf Hd Hn Hwf updated.
  set (s0 := Mem.mk (Mem.docs (svc w)) (Mem.index (svc w)) (Mem.stale (svc w))
               (filter (fun dn => negb ((fst dn =? doc)
                                        && (Note_id (snd dn) =? old)))
                  (Mem.notes (svc w)))
               (Mem.next_note (svc w)) (Mem.fields (svc w))
               (Mem.next_field (svc w)) (Mem.page_size (svc w))
               (Mem.faults (svc w))).
  set (w0 := mkWorld (SV := MemService) s0
               (trace w ++ [(DeleteNote doc (Some old), true)])
               (table w) (next_pk w) (_custom_field_cache w)).
  assert (Hf0 : Mem.faults (svc w0) = []) by exact Hf.
  assert (Hd0 : Mem.has_doc doc (svc w0) = true) by exact Hd.
  destruct (mem_post_note doc content w0 Hf0 Hd0)
    as (w1 & Hpost & Hnotes & Hnext & Hf1 & Hd1 & _).
  assert (Hdec : _note_content_to_anno content = Ok (Some a)).
  { destruct (encoded_shape self a content payload Henc Hser)
      as (header & _ & Hbh & Heh & _ & Hep & ->).
    rewrite (decode_encoded self header payload Hin Hbh Heh Hep Hrs Hlines).
    rewrite (serializer_inverts HL self _ payload Hin (model_dump_wf a Hv)
               Hser).
    cbn [rbind]. rewrite (Annotation_of_model_dump HL a Hv). reflexivity. }
  assert (Hwf0 : mem_notes_wf (svc w0)) by (apply wf_after_delete; exact Hwf).
  assert (Hg1 : mem_good doc w1).
  { split; [exact Hf1|]. split.
    - unfold Mem.has_doc. rewrite Hd1. exact Hd.
    - apply notes_of_nodup.
      apply (fresh_note_keeps_ids doc w0 w1 content Hwf0 Hnotes Hnext). }
  destruct (contract_get _ _ _ (notes_contract self) doc None w1 Hg1)
    as (w2 & Hget & _ & _).
  exists w1, w2. split.
  - cbn [update_annotation PaperlessNotesStorage].
    unfold PaperlessNotesStorage_update_annotation. rewrite Hid.
    unfold PaperlessNotesStorage_delete_annotation_by_id, delete_note.
    rewrite !bind_run. unfold _request at 1. cbn [respond MemService].
    rewrite mem_respond_no_fault by exact Hf. cbn [Mem.handle].
    rewrite Hd, Hn. cbn [andb]. unfold ret at 1. cbv beta iota. cbn [negb].
    rewrite bind_run. unfold lift. rewrite Henc. rewrite bind_run.
    fold s0. fold w0. rewrite Hpost. reflexivity.
  - rewrite Hget. do 4 f_equal. rewrite filter_on_page_none.
    rewrite (mem_stored_app doc w0 w1 _ Hnotes). f_equal.
    + unfold mem_stored, Mem.notes_of. cbn [svc w0 Mem.notes s0].
      rewrite notes_of_delete. apply note_yields_filter_id.
    + unfold note_yields, note_to_annotation. cbn [Note_note Note_id].
      rewrite Hdec. reflexivity.
Qed.

(** X27.  [update_document_links] respects the skip set it is given.
    However the call ends, no patch it has sent is for a document in
    [docs_to_skip]. *)
Theorem update_document_links_spares_skipped {SV : Service} {cfg : Settings}
    (fuel : nat) (docs_to_skip : list Z) (w : World) (r : result (list Z))
    (w' : World) :
  update_document_links fuel (Some docs_to_skip) w = Some (r, w') ->
  exists t,
    trace w' = (trace w ++ t)%list /\ Forall (patches_outside docs_to_skip) t.
Proof.
  revert w r w'.
  change (all_sent (patches_outside docs_to_skip)
            (update_document_links fuel (Some docs_to_skip))).
  assert (Hbody : forall custom_field value doc acc,
             all_sent (patches_outside docs_to_skip)
               (link_loop_body docs_to_skip custom_field value doc acc)).
  { intros custom_field value doc acc. unfold link_loop_body.
    destruct (existsb _ docs_to_skip) eqn:Esk; [apply all_sent_ret|].
    apply all_sent_bind; [|intros _; apply all_sent_ret].
    unfold add_custom_field_to_document. apply all_sent_bind.
    - apply all_sent_request. intros ok. unfold patches_outside. cbn [fst].
      intros Hin.
      assert (existsb (Z.eqb (Document_id doc)) docs_to_skip = true);
        [|congruence].
      apply existsb_exists. exists (Document_id doc).
      split; [exact Hin|apply Z.eqb_refl].
    - intros []; try apply all_sent_raise. apply all_sent_ret. }
  unfold update_document_links. apply all_sent_bind.
  - apply all_sent_get_or_create; intros; exact I.
  - intros custom_field. apply all_sent_bind.
    + apply all_sent_query_iter; [intros; exact I|]. intros doc acc.
      apply Hbody.
    + intros updated_docs. apply all_sent_query_iter; [intros; exact I|].
      intros doc acc. apply Hbody.
Qed.

Section LinkFailures.
Context {SV : Service} {cfg : Settings}.

Lemma stops_query_iter {B : Type} (fuel : nat) (q : cf_query)
    (body : Document -> B -> M B) :
  (forall doc acc, stops_at_failure (body doc acc)) ->
  forall page acc,
    stops_at_failure (documents_custom_field_query_iter fuel q page body acc).
Proof.
  intros Hb. induction fuel as [|fuel IH]; intros page acc;
    cbn [documents_custom_field_query_iter].
  - intros w r w' [=].
  - apply stops_bind; [apply stops_request|].
    intros [results next| | | | |]; try apply stops_raise.
    apply stops_bind; [apply stops_for_each; exact Hb|].
    intros acc'. destruct next; [apply IH|apply stops_ret].
Qed.

Lemma stops_get_custom_field_by_name (fuel : nat) :
  forall page name, stops_at_failure (get_custom_field_by_name fuel page name).
Proof.
  induction fuel as [|fuel IH]; intros page name;
    cbn [get_custom_field_by_name].
  - intros w r w' [=].
  - apply stops_bind; [apply stops_request|].
    intros [| |results next| | |]; try apply stops_raise.
    destruct (List.find _ results); [apply stops_ret|].
    destruct next; [apply IH|apply stops_ret].
Qed.

Lemma stops_get_or_create (fuel : nat) :
  stops_at_failure (_get_or_create_custom_link_field fuel).
Proof.
  assert (Hset : forall cf, stops_at_failure (cache_set cf)).
  { intros cf w r w' [= <- <-]. exists []. cbn [trace]. rewrite app_nil_r.
    split; [reflexivity|left; reflexivity]. }
  unfold _get_or_create_custom_link_field. apply stops_bind.
  - intros w r w' [= <- <-]. exists []. rewrite app_nil_r.
    split; [reflexivity|left; reflexivity].
  - intros [cf|]; [apply stops_ret|].
    apply stops_bind; [apply stops_get_custom_field_by_name|].
    intros [cf|].
    + apply stops_bind; [apply Hset|]. intros _. apply stops_ret.
    + apply stops_bind.
      * unfold create_custom_field. apply stops_bind; [apply stops_request|].
        intros []; try apply stops_raise. apply stops_ret.
      * intros cf. apply stops_bind; [apply Hset|]. intros _. apply stops_ret.
Qed.

Lemma stops_link_loop_body (docs_to_skip : list Z)
    (custom_field : CustomField) (value : Document -> string)
    (doc : Document) (acc : list Z) :
  stops_at_failure (link_loop_body docs_to_skip custom_field value doc acc).
Proof.
  unfold link_loop_body. destruct (existsb _ docs_to_skip); [apply stops_ret|].
  apply stops_bind; [|intros _; apply stops_ret].
  unfold add_custom_field_to_document. apply stops_bind;
    [apply stops_request|].
  intros []; try apply stops_raise. apply stops_ret.
Qed.

End LinkFailures.

(** X28.  [update_document_links] stops at the first request that fails.
    When a request of the call fails, it is the last request the call
    sends, every request before it was answered, and the call raises the
    client's error: nothing is retried and no later document is
    written. *)
Theorem update_document_links_stops_at_failure {SV : Service}
    {cfg : Settings} (fuel : nat) (docs_to_skip : option (list Z))
    (w w' : World) (r : result (list Z)) (pre post : list (Request * bool))
    (rq : Request) :
  update_document_links fuel docs_to_skip w = Some (r, w') ->
  trace w' = (trace w ++ pre ++ (rq, false) :: post)%list ->
  post = [] /\ clean pre = true /\ r = Raise PaperlessAPIError.
Proof.
  intros Hrun Ht.
  assert (Hstops : stops_at_failure (update_document_links fuel docs_to_skip)).
  { unfold update_document_links. apply stops_bind; [apply stops_get_or_create|].
    intros custom_field. apply stops_bind.
    - apply stops_query_iter. intros doc acc. apply stops_link_loop_body.
    - intros updated_docs. apply stops_query_iter. intros doc acc.
      apply stops_link_loop_body. }
  destruct (Hstops _ _ _ Hrun) as (t' & Ht' & H).
  rewrite Ht' in Ht. apply app_inv_head in Ht. subst t'.
  destruct H as [H|(pre' & rq' & E & Hc & Hr)].
  - rewrite clean_app in H. cbn in H. rewrite andb_false_r in H. discriminate.
  - destruct post as [|p post] using rev_ind.
    + apply app_inj_tail in E. destruct E as [E _]. subst pre'. auto.
    + exfalso. clear IHpost.
      change ((rq, false) :: post ++ [p])%list
        with (((rq, false) :: post) ++ [p])%list in E.
      rewrite app_assoc in E. apply app_inj_tail in E. destruct E as [E _].
      rewrite <- E, clean_app in Hc. cbn in Hc. rewrite andb_false_r in Hc.
      discriminate.
Qed.

Section OnSamplesMore.
Existing Instance RefLib.
Existing Instance MemService.
Existing Instance Example.settings.

Lemma links_point_to_their_document_witness :
  let w := Example.world (Example.link_service true) [] in
  exists t,
    trace (final_state (update_document_links 3 None) w) = (trace w ++ t)%list
    /\ Forall sets_own_link t.
Proof.
  intros w.
  apply (links_point_to_their_document 3 None w (Ok [1; 1])).
  apply run_final. vm_compute. reflexivity.
Defined.

Lemma delete_all_spares_skipped_witness :
  let w := Example.world (Example.service []) [] in
  let run := PaperlessAnnotator_delete_all_annotations
               (PaperlessNotesStorage JsonSerializer) 3 (Some [2]) in
  exists t,
    trace (final_state run w) = (trace w ++ t)%list
    /\ Forall (spares [2]) t.
Proof.
  intros w run.
  apply (delete_all_spares_skipped JsonSerializer 3 [2] w (Ok [1])).
  apply run_final. vm_compute. reflexivity.
Defined.

Lemma constructed_annotation_is_valid_witness :
  let d := [("created", JStr "2024-01-02T03:04:05"); ("type", JInt 1);
            ("pageIndex", JInt 0); ("id", JStr "a")] in
  let a := mkAnnotation "2024-01-02T03:04:05" "" 1 0 None None
             [("id", JStr "a")] in
  extra a = filter (fun kv => negb (str_in (fst kv) FIELDS)) d
  /\ valid_annotation a
  /\ Annotation_init (JObj (model_dump a)) = Ok a.
Proof.
  intros d a.
  apply (constructed_annotation_is_valid RefLib_laws d a).
  - cbn. repeat split. repeat constructor; cbn; intuition discriminate.
  - vm_compute. reflexivity.
Defined.

Lemma notes_update_then_list_witness :
  let w := Example.world (Example.service []) [] in
  let a := set_db_id (Some 1) Example.C in
  let updated := set_db_id (Some 3) a in
  exists w1 w2,
    update_annotation (PaperlessNotesStorage JsonSerializer) 1 a w
    = Some (Ok updated, w1)
    /\ get_annotations (PaperlessNotesStorage JsonSerializer) 1 None w1
       = Some (Ok ((filter (fun o => negb (opt_Z_eqb (db_id o) (Some 1)))
                      (mem_stored 1 w)
                    ++ [updated])%list, None), w2).
Proof.
  intros w a updated.
  apply (notes_update_then_list RefLib_laws JsonSerializer 1 1 a
           (Example.note_text a)
           (PyRef.json_dumps_indent2 (JObj (model_dump a))) w).
  - right. left. reflexivity.
  - split; cbn.
    + repeat split. repeat constructor; cbn; intuition discriminate.
    + intros k [<-|[<-|[]]]; reflexivity.
  - reflexivity.
  - vm_compute. reflexivity.
  - reflexivity.
  - vm_compute. reflexivity.
  - vm_compute. reflexivity.
  - reflexivity.
  - reflexivity.
  - reflexivity.
  - apply example_service_wf.
Defined.

Lemma update_document_links_spares_skipped_witness :
  let w := Example.world (Example.link_service false) [] in
  exists t,
    trace (final_state (update_document_links 3 (Some [1])) w)
    = (trace w ++ t)%list
    /\ Forall (patches_outside [1]) t.
Proof.
  intros w.
  apply (update_document_links_spares_skipped 3 [1] w (Ok [])).
  apply run_final. vm_compute. reflexivity.
Defined.

Lemma update_document_links_stops_at_failure_witness :
  let w := Example.world failing_link_service [] in
  ([] : list (Request * bool)) = []
  /\ clean [(GetCustomFields 1, true);
            (PostCustomField "Annotations" "url", true);
            (QueryDocuments (QExists "Annotations" false) 1, true)] = true
  /\ @Raise (list Z) PaperlessAPIError = Raise PaperlessAPIError.
Proof.
  intros w.
  apply (update_document_links_stops_at_failure 3 None w
           (final_state (update_document_links 3 None) w)
           (Raise PaperlessAPIError)
           [(GetCustomFields 1, true);
            (PostCustomField "Annotations" "url", true);
            (QueryDocuments (QExists "Annotations" false) 1, true)]
           []
           (PatchCustomFields 1
              [mkCustomFieldInstance (Some (JStr "http://h/view/1")) 1])).
  - apply run_final. vm_compute. reflexivity.
  - vm_compute. reflexivity.
Defined.

End OnSamplesMore.
